(** * Grade aggregation and academic progression: a shallow embedding

    The development embeds the computational core of the two services
    [app/services/calificacion.service.js] and
    [universidad_backend/app/services/validacion.service.js]:
    the weighted final grade of a course, the approval status, the semester
    statistics, the academic-progression diagnosis with its alerts and
    recommendations, and the parameter validation of the per-semester
    retrieval.  It also embeds what surrounds that core: the grouping of the
    enrollments by semester and the general statistics of the academic
    record, the two retrievals with their queries, the chart data and the
    performance level of [universidad_backend/app/templates/calificacion.templates.js],
    and the endpoints [validarCalificaciones] and [obtenerResumenValidacion]
    of the two controllers.

    JavaScript has one numeric type, the IEEE-754 binary64 Number.  The
    services are embedded once, over an interface of the arithmetic they use
    ([JSNumber]).  Two implementations of the interface follow:

    - [Float64], on the kernel's primitive binary64 floats: the arithmetic
      the program really runs on;
    - [Exact], the rationals extended with NaN and the two infinities: the
      arithmetic without rounding error, signed zero, overflow or underflow.

    A theorem stated for every [JSNumber] holds in particular for [Float64].
    Algebraic facts that binary64 only satisfies up to rounding are stated
    for [Exact], and accompanied by evaluations on [Float64].

    What the final grade and the semester average are is stated a second
    time over the rationals ([SpecRacional]), from the words of the
    specification and without the operations of Numbers; the services in
    exact arithmetic are proved to compute it, and the services on binary64
    are evaluated against it. *)

From Stdlib Require Import ZArith NArith QArith Qcanon Qround.
From Stdlib Require Import List String Ascii Bool Lia Lqa.
From Stdlib Require Import Floats.
From Stdlib Require Import Permutation Sorted DecimalString.
Import ListNotations.

Close Scope Qc_scope.
Close Scope Q_scope.

Set Implicit Arguments.

(* ================================================================= *)
(** ** JavaScript numbers *)

(** The operations of Number that the services use.  [of_decimal neg m e]
    is the Number denoted by the decimal literal with sign [neg], digits
    [m] and decimal exponent [e], that is (-1)^neg * m * 10^e; [round] is
    [Math.round]; [compare] is the ordering behind [<], [>], [>=] and [===]
    on Numbers, [None] when an operand is NaN. *)
Class JSNumber : Type := {
  num : Type;
  nan : num;
  infinity : bool -> num;
  of_decimal : bool -> N -> Z -> num;
  add : num -> num -> num;
  mul : num -> num -> num;
  div : num -> num -> num;
  round : num -> num;
  compare : num -> num -> option comparison
}.

Declare Scope js_scope.
Delimit Scope js_scope with js.
Bind Scope js_scope with num.

Section NumberOperators.
Context {JN : JSNumber}.

(** An integer literal, or an integer such as [array.length] used as a
    Number. *)
Definition of_Z (z : Z) : num := of_decimal (z <? 0)%Z (Z.abs_N z) 0.
Definition of_nat (n : nat) : num := of_Z (Z.of_nat n).

(** [x === y] on Numbers. *)
Definition eqb (x y : num) : bool :=
  match compare x y with Some Eq => true | _ => false end.
(** [x < y] *)
Definition ltb (x y : num) : bool :=
  match compare x y with Some Lt => true | _ => false end.
(** [x > y] *)
Definition gtb (x y : num) : bool :=
  match compare x y with Some Gt => true | _ => false end.
(** [x >= y] *)
Definition geb (x y : num) : bool :=
  match compare x y with Some Gt | Some Eq => true | _ => false end.

(** ToBoolean on a Number: 0, -0 and NaN are falsy. *)
Definition truthy_num (x : num) : bool :=
  match compare x (of_Z 0) with Some Lt | Some Gt => true | _ => false end.
End NumberOperators.

Infix "+" := add : js_scope.
Infix "*" := mul : js_scope.
Infix "/" := div : js_scope.
Infix "===" := eqb (at level 70, no associativity) : js_scope.
Infix "<" := ltb : js_scope.
Infix ">" := gtb : js_scope.
Infix ">=" := geb : js_scope.

(* ================================================================= *)
(** ** JavaScript strings *)

Module JSString.
Local Open Scope string_scope.

(** [s.startsWith(p)] *)
Fixpoint startsWith (p s : string) : bool :=
  match p, s with
  | EmptyString, _ => true
  | String a p', String b s' => Ascii.eqb a b && startsWith p' s'
  | String _ _, EmptyString => false
  end.

(** [s.includes(p)] *)
Fixpoint includes (s p : string) : bool :=
  startsWith p s ||
  match s with
  | EmptyString => false
  | String _ s' => includes s' p
  end.
End JSString.

(** [array.push(x)] *)
Definition push {A : Type} (array : list A) (x : A) : list A := (array ++ [x])%list.

(* ================================================================= *)
(** ** JavaScript values and [parseFloat] *)

(** The primitive values that reach the services as grades, weights and
    request parameters. *)
Inductive value {JN : JSNumber} : Type :=
| JNull
| JUndefined
| JBool (b : bool)
| JNum (x : num)
| JStr (s : string).

Module StrDecimalLiteral.
(** The numeric prefix that [parseFloat] reads off a string: leading white
    space, a sign, then [Infinity] or decimal digits with an optional
    fraction and an optional exponent; the longest such prefix counts.
    Strings are sequences of UTF-8 bytes, and the white space of ECMAScript
    (WhiteSpace and LineTerminator) is recognised in that encoding. *)

(** The white space of one byte: TAB, LF, VT, FF, CR and SP. *)
Definition isWhiteSpace (c : ascii) : bool :=
  let n := nat_of_ascii c in
  ((9 <=? n) && (n <=? 13) || (n =? 32))%nat.

(** The white space of two bytes: U+00A0, the bytes C2 A0. *)
Definition isWhiteSpace2 (c1 c2 : ascii) : bool :=
  ((nat_of_ascii c1 =? 194) && (nat_of_ascii c2 =? 160))%nat.

(** The white space of three bytes: U+1680 (E1 9A 80), U+2000 to U+200A
    (E2 80 80 to E2 80 8A), U+2028 and U+2029 (E2 80 A8 and A9), U+202F
    (E2 80 AF), U+205F (E2 81 9F), U+3000 (E3 80 80) and U+FEFF
    (EF BB BF). *)
Definition isWhiteSpace3 (c1 c2 c3 : ascii) : bool :=
  let a := nat_of_ascii c1 in
  let b := nat_of_ascii c2 in
  let c := nat_of_ascii c3 in
  ((a =? 225) && (b =? 154) && (c =? 128)
   || (a =? 226) && (b =? 128)
      && ((128 <=? c) && (c <=? 138) || (c =? 168) || (c =? 169) || (c =? 175))
   || (a =? 226) && (b =? 129) && (c =? 159)
   || (a =? 227) && (b =? 128) && (c =? 128)
   || (a =? 239) && (b =? 187) && (c =? 191))%nat.

Fixpoint trimStart (s : string) : string :=
  match s with
  | String c1 s1 =>
      if isWhiteSpace c1 then trimStart s1
      else
        match s1 with
        | String c2 s2 =>
            if isWhiteSpace2 c1 c2 then trimStart s2
            else
              match s2 with
              | String c3 s3 => if isWhiteSpace3 c1 c2 c3 then trimStart s3 else s
              | EmptyString => s
              end
        | EmptyString => s
        end
  | EmptyString => s
  end.

Definition digit (c : ascii) : option N :=
  let n := N_of_ascii c in
  if ((48 <=? n) && (n <=? 57))%N then Some (n - 48)%N else None.

(** Reads decimal digits: the value accumulated on [acc], the number of
    digits read, and the rest of the string. *)
Fixpoint digits (s : string) (acc : N) (count : nat) : N * nat * string :=
  match s with
  | String c s' =>
      match digit c with
      | Some d => digits s' (10 * acc + d)%N (S count)
      | None => (acc, count, s)
      end
  | EmptyString => (acc, count, s)
  end.

(** The sign at the head of [s] ([true] for [-]) and the rest. *)
Definition sign (s : string) : bool * string :=
  match s with
  | String "-"%char s' => (true, s')
  | String "+"%char s' => (false, s')
  | _ => (false, s)
  end.

(** ExponentPart: [e] or [E], an optional sign, at least one digit.  A
    malformed exponent is not part of the literal and counts as 0. *)
Definition exponent (s : string) : Z :=
  match s with
  | String c s' =>
      if (Ascii.eqb c "e" || Ascii.eqb c "E")%char then
        let '(neg, s'') := sign s' in
        let '(e, count, _) := digits s'' 0%N 0%nat in
        match count with
        | O => 0%Z
        | S _ => if neg then (- Z.of_N e)%Z else Z.of_N e
        end
      else 0%Z
  | EmptyString => 0%Z
  end.

Inductive literal := Infinite (neg : bool) | Decimal (neg : bool) (m : N) (e : Z).

Definition parse (s : string) : option literal :=
  let '(neg, s1) := sign (trimStart s) in
  if JSString.startsWith "Infinity" s1 then Some (Infinite neg) else
  let '(int, nint, s2) := digits s1 0%N 0%nat in
  let '(m, nfrac, s3) :=
    match s2 with
    | String "."%char s2' =>
        let '(m, nfrac, s3) := digits s2' int 0%nat in
        match nint, nfrac with
        | O, O => (int, 0%nat, s2)
        | _, _ => (m, nfrac, s3)
        end
    | _ => (int, 0%nat, s2)
    end in
  match nint, nfrac with
  | O, O => None
  | _, _ => Some (Decimal neg m (exponent s3 - Z.of_nat nfrac))
  end.
End StrDecimalLiteral.

Section ParseFloat.
Context {JN : JSNumber}.

(** [parseFloat] of a string. *)
Definition parseFloatString (s : string) : num :=
  match StrDecimalLiteral.parse s with
  | Some (StrDecimalLiteral.Infinite neg) => infinity neg
  | Some (StrDecimalLiteral.Decimal neg m e) => of_decimal neg m e
  | None => nan
  end.

(** [parseFloat(v)] converts [v] to a string and parses it: [null],
    [undefined] and booleans give NaN; a Number is printed and read back,
    which returns it unchanged except that -0 becomes 0. *)
Definition parseFloat (v : value) : num :=
  match v with
  | JNull | JUndefined | JBool _ => nan
  | JNum x => if (x === of_Z 0)%js then of_Z 0 else x
  | JStr s => parseFloatString s
  end.

(** ToBoolean: the operand of [!]. *)
Definition truthy (v : value) : bool :=
  match v with
  | JNull | JUndefined => false
  | JBool b => b
  | JNum x => truthy_num x
  | JStr s => negb (String.eqb s EmptyString)
  end.
End ParseFloat.

(* ================================================================= *)
(** ** Binary64: the arithmetic of the program *)

Module Float64Impl.
(** The correctly rounded binary64 value of (-1)^neg * m * 10^e. *)
Definition of_decimal (neg : bool) (m : N) (e : Z) : float :=
  match m with
  | N0 => if neg then neg_zero else zero
  | Npos p =>
      match e with
      | Zneg k =>
          SF2Prim (SFdiv prec emax (S754_finite neg p 0)
                                   (S754_finite false (10 ^ k)%positive 0))
      | Z0 => SF2Prim (binary_normalize prec emax (cond_Zopp neg (Zpos p)) 0 false)
      | Zpos k =>
          SF2Prim (binary_normalize prec emax
                     (cond_Zopp neg (Zpos (p * 10 ^ k)%positive)) 0 false)
      end
  end.

(** [Math.round]: the nearest integer, a tie going to the integer closer to
    plus infinity; the sign of the argument is kept on a zero result. *)
Definition round (x : float) : float :=
  match Prim2SF x with
  | S754_finite s m (Zneg k) =>
      let whole := Z.shiftr (Zpos m) (Zpos k) in
      let rest := Z.land (Zpos m) (Z.ones (Zpos k)) in
      let half := Z.shiftl 1 (Zpos k - 1) in
      let up := if s then (half <? rest)%Z else (half <=? rest)%Z in
      let n := if up then (whole + 1)%Z else whole in
      SF2Prim (binary_normalize prec emax (cond_Zopp s n) 0 s)
  | _ => x
  end.

Definition compare (x y : float) : option comparison :=
  match PrimFloat.compare x y with
  | FEq => Some Eq
  | FLt => Some Lt
  | FGt => Some Gt
  | FNotComparable => None
  end.
End Float64Impl.

#[export] Instance Float64 : JSNumber := {|
  num := float;
  nan := PrimFloat.nan;
  infinity := fun neg => if neg then neg_infinity else PrimFloat.infinity;
  of_decimal := Float64Impl.of_decimal;
  add := PrimFloat.add;
  mul := PrimFloat.mul;
  div := PrimFloat.div;
  round := Float64Impl.round;
  compare := Float64Impl.compare
|}.

(* ================================================================= *)
(** ** Exact arithmetic: rationals with NaN and infinities *)

Module ExactImpl.
Inductive xnum := XNaN | XInf (neg : bool) | XFin (q : Qc).

Definition negative (q : Qc) : bool :=
  match (q ?= 0)%Qc with Lt => true | _ => false end.
Definition is_zero (q : Qc) : bool :=
  match (q ?= 0)%Qc with Eq => true | _ => false end.

Definition of_decimal (neg : bool) (m : N) (e : Z) : xnum :=
  let z := if neg then (- Z.of_N m)%Z else Z.of_N m in
  match e with
  | Zneg k => XFin (Q2Qc (z # (10 ^ k)%positive))
  | Z0 => XFin (Q2Qc (inject_Z z))
  | Zpos k => XFin (Q2Qc (inject_Z (z * Zpos (10 ^ k)%positive)))
  end.

Definition add (x y : xnum) : xnum :=
  match x, y with
  | XNaN, _ | _, XNaN => XNaN
  | XInf a, XInf b => if Bool.eqb a b then XInf a else XNaN
  | XInf a, XFin _ | XFin _, XInf a => XInf a
  | XFin p, XFin q => XFin (p + q)%Qc
  end.

Definition mul (x y : xnum) : xnum :=
  match x, y with
  | XNaN, _ | _, XNaN => XNaN
  | XInf a, XInf b => XInf (xorb a b)
  | XInf a, XFin q | XFin q, XInf a =>
      if is_zero q then XNaN else XInf (xorb a (negative q))
  | XFin p, XFin q => XFin (p * q)%Qc
  end.

Definition div (x y : xnum) : xnum :=
  match x, y with
  | XNaN, _ | _, XNaN => XNaN
  | XInf _, XInf _ => XNaN
  | XInf a, XFin q => XInf (xorb a (negative q))
  | XFin _, XInf _ => XFin 0%Qc
  | XFin p, XFin q =>
      if is_zero q then (if is_zero p then XNaN else XInf (negative p))
      else XFin (p / q)%Qc
  end.

(** [Math.round]: floor (q + 1/2). *)
Definition round (x : xnum) : xnum :=
  match x with
  | XFin q => XFin (Q2Qc (inject_Z (Qfloor (q + Q2Qc (1 # 2))%Qc)))
  | _ => x
  end.

Definition compare (x y : xnum) : option comparison :=
  match x, y with
  | XNaN, _ | _, XNaN => None
  | XInf a, XInf b =>
      Some (match a, b with
            | true, false => Lt
            | false, true => Gt
            | _, _ => Eq
            end)
  | XInf a, XFin _ => Some (if a then Lt else Gt)
  | XFin _, XInf b => Some (if b then Gt else Lt)
  | XFin p, XFin q => Some (p ?= q)%Qc
  end.
End ExactImpl.

#[export] Instance Exact : JSNumber := {|
  num := ExactImpl.xnum;
  nan := ExactImpl.XNaN;
  infinity := ExactImpl.XInf;
  of_decimal := ExactImpl.of_decimal;
  add := ExactImpl.add;
  mul := ExactImpl.mul;
  div := ExactImpl.div;
  round := ExactImpl.round;
  compare := ExactImpl.compare
|}.

(* ================================================================= *)
(** ** Subtraction *)

(** [x - y] on Numbers: the comparator that orders the semester groups is
    the one place where the services subtract. *)
Class JSSubtraction (JN : JSNumber) : Type := {
  sub : @num JN -> @num JN -> @num JN
}.

#[export] Instance Float64_sub : JSSubtraction Float64 :=
  Build_JSSubtraction Float64 PrimFloat.sub.

Definition Exact_minus (x y : ExactImpl.xnum) : ExactImpl.xnum :=
  match x, y with
  | ExactImpl.XNaN, _ | _, ExactImpl.XNaN => ExactImpl.XNaN
  | ExactImpl.XInf a, ExactImpl.XInf b =>
      if Bool.eqb a b then ExactImpl.XNaN else ExactImpl.XInf a
  | ExactImpl.XInf a, ExactImpl.XFin _ => ExactImpl.XInf a
  | ExactImpl.XFin _, ExactImpl.XInf b => ExactImpl.XInf (negb b)
  | ExactImpl.XFin p, ExactImpl.XFin q => ExactImpl.XFin (p - q)%Qc
  end.

#[export] Instance Exact_sub : JSSubtraction Exact :=
  Build_JSSubtraction Exact Exact_minus.

(* ================================================================= *)
(** ** The records read from the data-access layer *)

Module Model.
Section WithNumber.
Context {JN : JSNumber}.

(** A row of [calificaciones]: one weighted assessment.  [nota] and
    [ponderacion] are DECIMAL columns, which reach the service as
    numbers, numeric strings or [null]. *)
Record Calificacion := {
  tipo_evaluacion : string;
  nota : value;
  ponderacion : value
}.

Record Curso := {
  codigo_curso : string;
  nombre_curso : string;
  creditos : num
}.

Record Semestre := {
  id : value;
  anio : value;
  numero_semestre : value
}.

Record Estudiante := {
  primer_nombre : string;
  segundo_nombre : option string;
  primer_apellido : string
}.

(** An enrollment with its course, term and assessments resolved. *)
Record Inscripcion := {
  curso : Curso;
  semestre : Semestre;
  calificaciones : list Calificacion;
  estado : string
}.

(** The object returned by [_determinarEstadoAprobacion]. *)
Record EstadoAprobacion := {
  codigo : string;
  descripcion : string;
  aprobado : bool;
  color : string
}.
End WithNumber.
End Model.

(* ================================================================= *)
(** ** Errors and the data-access collaborators *)

Module Async.
Section WithNumber.
Context {JN : JSNumber}.

(** A query sent to the data-access layer. *)
Inductive Consulta :=
| SemestreFindOne (anio numero_semestre : value)
| EstudianteFindByPk (id : value)
| InscripcionFindAll (id_estudiante id_semestre : value).

(** A computation either returns or throws an [Error] with a message. *)
Inductive Outcome (A : Type) :=
| Return (a : A)
| Throw (message : string).

(** An asynchronous body: it appends the queries it sends to the log it
    is given. *)
Definition M (A : Type) : Type := list Consulta -> Outcome A * list Consulta.

Definition ret {A} (a : A) : M A := fun log => (Return a, log).
Definition throw {A} (message : string) : M A := fun log => (Throw A message, log).
Definition bind {A B} (m : M A) (k : A -> M B) : M B :=
  fun log =>
    match m log with
    | (Return a, log') => k a log'
    | (Throw _ message, log') => (Throw B message, log')
    end.
(** [try { m } catch (error) { handler(error.message) }] *)
Definition try_catch {A} (m : M A) (handler : string -> M A) : M A :=
  fun log =>
    match m log with
    | (Return a, log') => (Return a, log')
    | (Throw _ message, log') => handler message log'
    end.

(** The answers of the data-access layer: each query resolves to a
    result or rejects with an error message. *)
Record DB := {
  Semestre_findOne : value -> value -> Outcome (option Model.Semestre);
  Estudiante_findByPk : value -> Outcome (option Model.Estudiante);
  Inscripcion_findAll : value -> value -> Outcome (list Model.Inscripcion)
}.

(** [await] of a query: the query is logged, its outcome returned or
    thrown. *)
Definition await {A} (q : Consulta) (answer : Outcome A) : M A :=
  fun log => (answer, push log q).
End WithNumber.

Arguments Throw {A} message.
End Async.

Notation "x <- m ;; k" := (Async.bind m (fun x => k))
  (at level 61, m at next level, right associativity).
Notation "m ;; k" := (Async.bind m (fun _ => k))
  (at level 61, right associativity).

(* ================================================================= *)
(** ** Asynchronous bodies over any kind of query *)

Module Efecto.
Import Async.
Section WithQuery.
(** The queries that a service sends. *)
Variable Q : Type.

(** A body appends the queries it sends to the log it is given, and
    returns or throws. *)
Definition M (A : Type) : Type := list Q -> Outcome A * list Q.

Definition ret {A} (a : A) : M A := fun log => (Return a, log).
Definition throw {A} (message : string) : M A := fun log => (Throw message, log).
Definition bind {A B} (m : M A) (k : A -> M B) : M B :=
  fun log =>
    match m log with
    | (Return a, log') => k a log'
    | (Throw message, log') => (Throw message, log')
    end.
(** [try { m } catch (error) { handler(error.message) }] *)
Definition try_catch {A} (m : M A) (handler : string -> M A) : M A :=
  fun log =>
    match m log with
    | (Return a, log') => (Return a, log')
    | (Throw message, log') => handler message log'
    end.
(** [await] of a query. *)
Definition await {A} (q : Q) (answer : Outcome A) : M A :=
  fun log => (answer, push log q).
End WithQuery.

Arguments ret {Q A} a.
Arguments throw {Q A} message.
Arguments bind {Q A B} m k.
Arguments try_catch {Q A} m handler.
Arguments await {Q A} q answer.
End Efecto.

Declare Scope efecto_scope.
Delimit Scope efecto_scope with efecto.
Notation "x <- m ;; k" := (Efecto.bind m (fun x => k))
  (at level 61, m at next level, right associativity) : efecto_scope.
Notation "m ;; k" := (Efecto.bind m (fun _ => k))
  (at level 61, right associativity) : efecto_scope.

(* ================================================================= *)
(** ** The result of [validarCalificacionesExistentes] *)

Module ValidacionCalificaciones.
(** [totalCursos], [cursosConCalificaciones] and [error] are absent from
    some of the objects that the function returns. *)
Record t := {
  valido : bool;
  mensaje : string;
  totalCursos : option nat;
  cursosConCalificaciones : option nat;
  error : option string
}.
End ValidacionCalificaciones.

(* ================================================================= *)
(** ** [app/services/calificacion.service.js] *)

Module CalificacionService.
Import Model Async.
Local Open Scope string_scope.

Section WithNumber.
Context {JN : JSNumber}.
(** [Number.prototype.toString], used by template literals. *)
Variable numberToString : num -> string.

(** [`${v}`] *)
Definition toString (v : value) : string :=
  match v with
  | JNull => "null"
  | JUndefined => "undefined"
  | JBool b => if b then "true" else "false"
  | JNum x => numberToString x
  | JStr s => s
  end.

(** [cal.nota !== null && cal.nota !== undefined] *)
Definition tieneNota (cal : Calificacion) : bool :=
  match nota cal with
  | JNull | JUndefined => false
  | _ => true
  end.

(** The body of the [forEach] over the graded assessments: one step on
    the two accumulators [sumaPonderada] and [sumaPonderaciones]. *)
Definition acumular (acc : num * num) (cal : Calificacion) : num * num :=
  let '(sumaPonderada, sumaPonderaciones) := acc in
  (sumaPonderada
     + (parseFloat (nota cal) * parseFloat (ponderacion cal)) / of_Z 100,
   sumaPonderaciones + parseFloat (ponderacion cal))%js.

(** [_calcularNotaFinal] on an array of assessments; [None] is [null]. *)
Definition _calcularNotaFinal (calificaciones : list Calificacion) : option num :=
  if (List.length calificaciones =? 0)%nat then None
  else
    let calificacionesConNota := filter tieneNota calificaciones in
    if (List.length calificacionesConNota =? 0)%nat then None
    else
      let '(sumaPonderada, sumaPonderaciones) :=
        fold_left acumular calificacionesConNota (of_Z 0, of_Z 0) in
      if (sumaPonderaciones === of_Z 0)%js then None
      else
        let notaFinal := (sumaPonderada * of_Z 100 / sumaPonderaciones)%js in
        Some (round (notaFinal * of_Z 100) / of_Z 100)%js.

(** [_determinarEstadoAprobacion] *)
Definition _determinarEstadoAprobacion (notaFinal : option num) : EstadoAprobacion :=
  match notaFinal with
  | None =>
      {| codigo := "SIN_CALIFICAR"; descripcion := "Sin Calificar";
         aprobado := false; color := "warning" |}
  | Some notaFinal =>
      if (notaFinal >= of_Z 61)%js then
        {| codigo := "APROBADO"; descripcion := "Aprobado";
           aprobado := true; color := "success" |}
      else
        {| codigo := "REPROBADO"; descripcion := "Reprobado";
           aprobado := false; color := "danger" |}
  end.

(** An element of [cursosConCalificaciones]. *)
Record CursoConCalificaciones := {
  curso : Curso;
  calificaciones : list Calificacion;
  notaFinal : option num;
  estado : EstadoAprobacion;
  estadoInscripcion : string
}.

Record Estadisticas := {
  totalCursos : nat;
  cursosCalificados : nat;
  cursosAprobados : nat;
  cursosReprobados : nat;
  promedioGeneral : option num;
  creditosTotales : num;
  creditosAprobados : num
}.

(** ToNumber of a final grade: [null] counts as 0 in arithmetic. *)
Definition toNumber (notaFinal : option num) : num :=
  match notaFinal with
  | Some x => x
  | None => of_Z 0
  end.

(** [curso.notaFinal !== null] *)
Definition conNota (curso : CursoConCalificaciones) : bool :=
  match notaFinal curso with
  | Some _ => true
  | None => false
  end.

(** The body of the [forEach] over the graded courses, on the
    accumulators [sumaNotasPonderadas], [creditosTotales] and
    [creditosAprobados]. *)
Definition acumularCurso (acc : num * num * num) (c : CursoConCalificaciones)
  : num * num * num :=
  let '(sumaNotasPonderadas, creditosTotales, creditosAprobados) := acc in
  (sumaNotasPonderadas + toNumber (notaFinal c) * creditos (curso c),
   creditosTotales + creditos (curso c),
   if aprobado (estado c) then creditosAprobados + creditos (curso c)
   else creditosAprobados)%js.

(** [_calcularEstadisticasGenerales] *)
Definition _calcularEstadisticasGenerales
    (cursosConCalificaciones : list CursoConCalificaciones) : Estadisticas :=
  let cursosConNota := filter conNota cursosConCalificaciones in
  if (List.length cursosConNota =? 0)%nat then
    {| totalCursos := List.length cursosConCalificaciones;
       cursosCalificados := 0;
       cursosAprobados := 0;
       cursosReprobados := 0;
       promedioGeneral := None;
       creditosTotales :=
         fold_left (fun sum c => sum + creditos (curso c))%js
                   cursosConCalificaciones (of_Z 0);
       creditosAprobados := of_Z 0 |}
  else
    let aprobados := filter (fun c => aprobado (estado c)) cursosConNota in
    let reprobados := filter (fun c => negb (aprobado (estado c))) cursosConNota in
    let '(sumaNotasPonderadas, creditosConNota, creditosAprobados') :=
      fold_left acumularCurso cursosConNota (of_Z 0, of_Z 0, of_Z 0) in
    let promedio :=
      if (creditosConNota > of_Z 0)%js
      then (sumaNotasPonderadas / creditosConNota)%js
      else of_Z 0 in
    {| totalCursos := List.length cursosConCalificaciones;
       cursosCalificados := List.length cursosConNota;
       cursosAprobados := List.length aprobados;
       cursosReprobados := List.length reprobados;
       promedioGeneral := Some (round (promedio * of_Z 100) / of_Z 100)%js;
       creditosTotales :=
         fold_left (fun sum c => sum + creditos (curso c))%js
                   cursosConCalificaciones (of_Z 0);
       creditosAprobados := creditosAprobados' |}.

(** The callback of [inscripciones.map] in step 5 of
    [obtenerCalificacionesPorSemestre]. *)
Definition procesarInscripcion (inscripcion : Inscripcion) : CursoConCalificaciones :=
  let notaFinal := _calcularNotaFinal (Model.calificaciones inscripcion) in
  let estadoAprobacion := _determinarEstadoAprobacion notaFinal in
  {| curso := Model.curso inscripcion;
     calificaciones := Model.calificaciones inscripcion;
     notaFinal := notaFinal;
     estado := estadoAprobacion;
     estadoInscripcion := Model.estado inscripcion |}.

(** Steps 5 and 6 of [obtenerCalificacionesPorSemestre]: the statistics of
    the enrollments of one semester. *)
Definition estadisticasDeInscripciones (inscripciones : list Inscripcion) : Estadisticas :=
  _calcularEstadisticasGenerales (map procesarInscripcion inscripciones).

(** [datosReporte], without the formatted dates and the generation
    time. *)
Record DatosReporte := {
  estudiante : Estudiante;
  semestre : Semestre;
  cursos : list CursoConCalificaciones;
  estadisticas : Estadisticas
}.

Record Respuesta := {
  success : bool;
  data : option DatosReporte;
  mensaje : string;
  error : option string
}.

(** [[1, 2].includes(v)] *)
Definition includes_1_2 (v : value) : bool :=
  match v with
  | JNum x => (x === of_Z 1)%js || (x === of_Z 2)%js
  | _ => false
  end.

(** The [try] block of [obtenerCalificacionesPorSemestre]. *)
Definition cuerpo (db : DB) (idEstudiante año numeroSemestre : value) : M Respuesta :=
  (if negb (truthy idEstudiante) || negb (truthy año) || negb (truthy numeroSemestre)
   then throw "Parámetros requeridos: idEstudiante, año, numeroSemestre"
   else ret tt) ;;
  (if negb (includes_1_2 numeroSemestre)
   then throw "Número de semestre debe ser 1 o 2"
   else ret tt) ;;
  semestre <- await (SemestreFindOne año numeroSemestre)
                    (Semestre_findOne db año numeroSemestre) ;;
  match semestre with
  | None =>
      throw ("Semestre " ++ toString numeroSemestre ++ "/" ++ toString año
             ++ " no encontrado")
  | Some semestre =>
      estudiante <- await (EstudianteFindByPk idEstudiante)
                          (Estudiante_findByPk db idEstudiante) ;;
      match estudiante with
      | None => throw "Estudiante no encontrado"
      | Some estudiante =>
          inscripciones <- await (InscripcionFindAll idEstudiante (id semestre))
                             (Inscripcion_findAll db idEstudiante (id semestre)) ;;
          let cursosConCalificaciones := map procesarInscripcion inscripciones in
          let estadisticas := _calcularEstadisticasGenerales cursosConCalificaciones in
          ret {| success := true;
                 data := Some {| estudiante := estudiante;
                                 semestre := semestre;
                                 cursos := cursosConCalificaciones;
                                 estadisticas := estadisticas |};
                 mensaje := "Calificaciones obtenidas para "
                            ++ numberToString (of_nat (List.length cursosConCalificaciones))
                            ++ " cursos";
                 error := None |}
      end
  end.

(** [obtenerCalificacionesPorSemestre]: the [try] block and its
    [catch]. *)
Definition obtenerCalificacionesPorSemestre
    (db : DB) (idEstudiante año numeroSemestre : value) : M Respuesta :=
  try_catch (cuerpo db idEstudiante año numeroSemestre)
    (fun message =>
       ret {| success := false; data := None;
              mensaje := message; error := Some message |}).

(** [curso.calificaciones && curso.calificaciones.length > 0]: an array is
    truthy. *)
Definition conCalificaciones (curso : CursoConCalificaciones) : bool :=
  (0 <? List.length (calificaciones curso))%nat.

(** [validarCalificacionesExistentes]: the [try] block and its [catch].
    Reading [resultado.data.cursos] throws a TypeError when [data] is
    absent. *)
Definition validarCalificacionesExistentes
    (db : DB) (idEstudiante año numeroSemestre : value)
  : M ValidacionCalificaciones.t :=
  try_catch
    (resultado <- obtenerCalificacionesPorSemestre db idEstudiante año numeroSemestre ;;
     if negb (success resultado) then
       ret {| ValidacionCalificaciones.valido := false;
              ValidacionCalificaciones.mensaje := mensaje resultado;
              ValidacionCalificaciones.totalCursos := None;
              ValidacionCalificaciones.cursosConCalificaciones := None;
              ValidacionCalificaciones.error := None |}
     else
       match data resultado with
       | None => throw "Cannot read properties of undefined (reading 'cursos')"
       | Some datos =>
           let cursosConCalificaciones := filter conCalificaciones (cursos datos) in
           ret {| ValidacionCalificaciones.valido :=
                    (0 <? List.length cursosConCalificaciones)%nat;
                  ValidacionCalificaciones.mensaje :=
                    if (0 <? List.length cursosConCalificaciones)%nat
                    then numberToString (of_nat (List.length cursosConCalificaciones))
                         ++ " cursos con calificaciones encontrados"
                    else "No se encontraron calificaciones para este período";
                  ValidacionCalificaciones.totalCursos :=
                    Some (List.length (cursos datos));
                  ValidacionCalificaciones.cursosConCalificaciones :=
                    Some (List.length cursosConCalificaciones);
                  ValidacionCalificaciones.error := None |}
       end)
    (fun message =>
       ret {| ValidacionCalificaciones.valido := false;
              ValidacionCalificaciones.mensaje := "Error al validar calificaciones";
              ValidacionCalificaciones.totalCursos := None;
              ValidacionCalificaciones.cursosConCalificaciones := None;
              ValidacionCalificaciones.error := Some message |}).
End WithNumber.
End CalificacionService.

(* ================================================================= *)
(** ** [universidad_backend/app/services/validacion.service.js] *)

Module ValidacionService.
Import Model.
Local Open Scope string_scope.

Section WithNumber.
Context {JN : JSNumber}.
(** [Number.prototype.toString] and [Number.prototype.toFixed]. *)
Variable numberToString : num -> string.
Variable toFixed : num -> nat -> string.

(** [FormatHelper.formatearNumero]:
    [Number(numero || 0).toFixed(decimales)]. *)
Definition formatearNumero (numero : num) (decimales : nat) : string :=
  toFixed (if truthy_num numero then numero else of_Z 0) decimales.

(** [cal.nota !== null] *)
Definition tieneNota (cal : Calificacion) : bool :=
  match nota cal with
  | JNull => false
  | _ => true
  end.

Definition acumular (acc : num * num) (cal : Calificacion) : num * num :=
  let '(sumaPonderada, sumaPonderaciones) := acc in
  (sumaPonderada
     + (parseFloat (nota cal) * parseFloat (ponderacion cal)) / of_Z 100,
   sumaPonderaciones + parseFloat (ponderacion cal))%js.

(** [_calcularNotaFinal] *)
Definition _calcularNotaFinal (calificaciones : list Calificacion) : option num :=
  if (List.length calificaciones =? 0)%nat then None
  else
    let calificacionesConNota := filter tieneNota calificaciones in
    if (List.length calificacionesConNota =? 0)%nat then None
    else
      let '(sumaPonderada, sumaPonderaciones) :=
        fold_left acumular calificacionesConNota (of_Z 0, of_Z 0) in
      if (sumaPonderaciones === of_Z 0)%js then None
      else
        let notaFinal := (sumaPonderada * of_Z 100 / sumaPonderaciones)%js in
        Some (round (notaFinal * of_Z 100) / of_Z 100)%js.

(** [_determinarEstadoAprobacion] *)
Definition _determinarEstadoAprobacion (notaFinal : option num) : EstadoAprobacion :=
  match notaFinal with
  | None =>
      {| codigo := "SIN_CALIFICAR"; descripcion := "Sin Calificar";
         aprobado := false; color := "warning" |}
  | Some notaFinal =>
      if (notaFinal >= of_Z 61)%js then
        {| codigo := "APROBADO"; descripcion := "Aprobado";
           aprobado := true; color := "success" |}
      else
        {| codigo := "REPROBADO"; descripcion := "Reprobado";
           aprobado := false; color := "danger" |}
  end.

(** An element of the [cursos] array of a semester group. *)
Record CursoValidado := {
  curso : Curso;
  notaFinal : option num;
  estado : EstadoAprobacion;
  estadoInscripcion : string;
  cantidadEvaluaciones : nat;
  validado : bool
}.

(** The [semestre] object of a group; [descripcion] is the label that
    the alerts carry. *)
Record SemestreGrupo := {
  año : value;
  numero : value;
  descripcion : string
}.

Record Grupo := {
  semestre : SemestreGrupo;
  cursos : list CursoValidado
}.

(** The object that [_agruparCursosPorSemestre] pushes on the group of
    an enrollment. *)
Definition cursoDeInscripcion (inscripcion : Inscripcion) : CursoValidado :=
  let notaFinal := _calcularNotaFinal (Model.calificaciones inscripcion) in
  let estadoAprobacion := _determinarEstadoAprobacion notaFinal in
  {| curso := Model.curso inscripcion;
     notaFinal := notaFinal;
     estado := estadoAprobacion;
     estadoInscripcion := Model.estado inscripcion;
     cantidadEvaluaciones := List.length (Model.calificaciones inscripcion);
     validado := match notaFinal with
                 | Some x => (x >= of_Z 61)%js
                 | None => false
                 end |}.

(** [_generarRecomendaciones] *)
Definition _generarRecomendaciones (alertas : list string)
    (semestresConReprobados : nat) : list string :=
  let recomendaciones := [] in
  let recomendaciones :=
    if (0 <? semestresConReprobados)%nat then
      push (push recomendaciones
              "Considerar repetir cursos reprobados en próximas oportunidades")
           "Solicitar tutoría académica para materias de mayor dificultad"
    else recomendaciones in
  let recomendaciones :=
    if existsb (fun a => JSString.includes a "Carga académica baja") alertas then
      push recomendaciones
           "Incrementar la carga académica para mantener progresión normal"
    else recomendaciones in
  let recomendaciones :=
    if existsb (fun a => JSString.includes a "Bajo porcentaje") alertas then
      push (push recomendaciones
              "Revisar métodos de estudio y técnicas de aprendizaje")
           "Considerar apoyo psicopedagógico si es necesario"
    else recomendaciones in
  if (List.length recomendaciones =? 0)%nat then
    push (push recomendaciones "Mantener el excelente desempeño académico")
         "Considerar participar en actividades extracurriculares"
  else recomendaciones.

(** [c.notaFinal !== null && !c.validado] *)
Definition reprobado (c : CursoValidado) : bool :=
  match notaFinal c with
  | Some _ => negb (validado c)
  | None => false
  end.

(** The body of the [forEach] over the semesters, on what it mutates: the
    array [alertas] and the counters [semestresBajoCursos] and
    [semestresConReprobados]. *)
Definition revisarSemestre (acc : list string * nat * nat) (grupo : Grupo)
  : list string * nat * nat :=
  let '(alertas, semestresBajoCursos, semestresConReprobados) := acc in
  let cursos := cursos grupo in
  let cursosAprobados := List.length (filter validado cursos) in
  let cursosReprobados := List.length (filter reprobado cursos) in
  let creditosSemestre :=
    fold_left (fun sum c => sum + creditos (curso c))%js cursos (of_Z 0) in
  let '(alertas, semestresBajoCursos) :=
    if (creditosSemestre < of_Z 12)%js then
      (push alertas
            (descripcion (semestre grupo) ++ ": Carga académica baja ("
             ++ numberToString creditosSemestre ++ " créditos)"),
       S semestresBajoCursos)
    else (alertas, semestresBajoCursos) in
  let '(alertas, semestresConReprobados) :=
    if (0 <? cursosReprobados)%nat then
      (push alertas
            (descripcion (semestre grupo) ++ ": "
             ++ numberToString (of_nat cursosReprobados) ++ " curso(s) reprobado(s)"),
       S semestresConReprobados)
    else (alertas, semestresConReprobados) in
  let porcentajeAprobacion :=
    if (0 <? List.length cursos)%nat
    then (of_nat cursosAprobados / of_nat (List.length cursos) * of_Z 100)%js
    else of_Z 0 in
  let alertas :=
    if (porcentajeAprobacion < of_Z 75)%js && (0 <? List.length cursos)%nat then
      push alertas
           (descripcion (semestre grupo) ++ ": Bajo porcentaje de aprobación ("
            ++ formatearNumero porcentajeAprobacion 1 ++ "%)")
    else alertas in
  (alertas, semestresBajoCursos, semestresConReprobados).

(** The object returned by [_validarProgresionAcademica]. *)
Record Progresion := {
  nivel : string;
  alertas : list string;
  observaciones : list string;
  semestresBajoCursos : nat;
  semestresConReprobados : nat;
  requiereAtencion : bool;
  recomendaciones : list string
}.

(** [_validarProgresionAcademica] *)
Definition _validarProgresionAcademica (cursosPorSemestre : list Grupo) : Progresion :=
  let '(alertas, semestresBajoCursos, semestresConReprobados) :=
    fold_left revisarSemestre cursosPorSemestre ([], 0, 0) in
  let '(nivelProgresion, observaciones) :=
    if (List.length alertas =? 0)%nat then
      ("EXCELENTE", ["Progresión académica excelente sin observaciones"])
    else if (List.length alertas <=? 2)%nat then
      ("BUENA", ["Progresión académica buena con observaciones menores"])
    else if (List.length alertas <=? 4)%nat then
      ("REGULAR", ["Progresión académica regular, requiere atención"])
    else
      ("DEFICIENTE",
       ["Progresión académica deficiente, requiere intervención académica"]) in
  {| nivel := nivelProgresion;
     alertas := alertas;
     observaciones := observaciones;
     semestresBajoCursos := semestresBajoCursos;
     semestresConReprobados := semestresConReprobados;
     requiereAtencion := (2 <? List.length alertas)%nat;
     recomendaciones := _generarRecomendaciones alertas semestresConReprobados |}.

(** The object returned by [_calcularEficienciaAcademica]. *)
Record Eficiencia := {
  porcentaje : num;
  clasificacion : string;
  promedioCursosPorSemestre : num
}.

(** [_calcularEficienciaAcademica]; the three arguments are counts. *)
Definition _calcularEficienciaAcademica
    (cursosAprobados totalCursos totalSemestres : nat) : Eficiencia :=
  let eficiencia :=
    if (0 <? totalCursos)%nat
    then (of_nat cursosAprobados / of_nat totalCursos * of_Z 100)%js
    else of_Z 0 in
  let promedioCursosPorSemestre :=
    if (0 <? totalSemestres)%nat
    then (of_nat totalCursos / of_nat totalSemestres)%js
    else of_Z 0 in
  let clasificacion :=
    if (eficiencia >= of_Z 90)%js then "Excelente"
    else if (eficiencia >= of_Z 80)%js then "Muy Buena"
    else if (eficiencia >= of_Z 70)%js then "Buena"
    else if (eficiencia >= of_Z 60)%js then "Regular"
    else "Deficiente" in
  {| porcentaje := (round (eficiencia * of_Z 100) / of_Z 100)%js;
     clasificacion := clasificacion;
     promedioCursosPorSemestre :=
       (round (promedioCursosPorSemestre * of_Z 100) / of_Z 100)%js |}.

(** [`${semestre.anio}-${semestre.numero_semestre}`]: the key of the
    semester of an enrollment. *)
Definition claveSemestre (s : Model.Semestre) : string :=
  CalificacionService.toString numberToString (anio s) ++ "-"
  ++ CalificacionService.toString numberToString (numero_semestre s).

(** [[...new Set(array)]] on strings: the first occurrence of each string,
    in order. *)
Definition unicos (array : list string) : list string :=
  fold_left
    (fun set s => if existsb (String.eqb s) set then set else push set s)
    array [].

(** The object returned by [_calcularEstadisticasGenerales]. *)
Record EstadisticasGenerales := {
  totalCursos : nat;
  cursosAprobados : nat;
  cursosReprobados : nat;
  cursosPendientes : nat;
  creditosTotales : num;
  creditosAprobados : num;
  promedioGeneral : option num;
  porcentajeAprobacion : num;
  porcentajeCreditos : num;
  totalSemestres : nat;
  eficienciaAcademica : Eficiencia
}.

(** The body of the [forEach] of [_calcularEstadisticasGenerales], on the
    counters [cursosAprobados], [cursosReprobados] and [cursosPendientes]
    and the sums [creditosTotales], [creditosAprobados],
    [sumaNotasPonderadas] and [creditosConNota]. *)
Definition contarInscripcion
    (acc : nat * nat * nat * num * num * num * num) (inscripcion : Inscripcion)
  : nat * nat * nat * num * num * num * num :=
  let '(aprobados, reprobados, pendientes, creditosTotales, creditosAprobados,
        sumaNotasPonderadas, creditosConNota) := acc in
  let creditosCurso := creditos (Model.curso inscripcion) in
  let creditosTotales := (creditosTotales + creditosCurso)%js in
  match _calcularNotaFinal (Model.calificaciones inscripcion) with
  | None =>
      (aprobados, reprobados, S pendientes, creditosTotales, creditosAprobados,
       sumaNotasPonderadas, creditosConNota)
  | Some notaFinal =>
      if (notaFinal >= of_Z 61)%js then
        (S aprobados, reprobados, pendientes, creditosTotales,
         creditosAprobados + creditosCurso,
         sumaNotasPonderadas + notaFinal * creditosCurso,
         creditosConNota + creditosCurso)%js
      else
        (aprobados, S reprobados, pendientes, creditosTotales, creditosAprobados,
         sumaNotasPonderadas + notaFinal * creditosCurso,
         creditosConNota + creditosCurso)%js
  end.

(** [_calcularEstadisticasGenerales] *)
Definition _calcularEstadisticasGenerales (inscripciones : list Inscripcion)
  : EstadisticasGenerales :=
  let totalCursos := List.length inscripciones in
  let '(cursosAprobados, cursosReprobados, cursosPendientes, creditosTotales,
        creditosAprobados, sumaNotasPonderadas, creditosConNota) :=
    fold_left contarInscripcion inscripciones
              (0, 0, 0, of_Z 0, of_Z 0, of_Z 0, of_Z 0) in
  let promedioGeneral :=
    if (creditosConNota > of_Z 0)%js
    then Some (sumaNotasPonderadas / creditosConNota)%js
    else None in
  let semestres :=
    unicos (map (fun i => claveSemestre (Model.semestre i)) inscripciones) in
  {| totalCursos := totalCursos;
     cursosAprobados := cursosAprobados;
     cursosReprobados := cursosReprobados;
     cursosPendientes := cursosPendientes;
     creditosTotales := creditosTotales;
     creditosAprobados := creditosAprobados;
     promedioGeneral :=
       match promedioGeneral with
       | Some promedio =>
           if truthy_num promedio
           then Some (round (promedio * of_Z 100) / of_Z 100)%js
           else None
       | None => None
       end;
     porcentajeAprobacion :=
       if (0 <? totalCursos)%nat
       then (of_nat cursosAprobados / of_nat totalCursos * of_Z 100)%js
       else of_Z 0;
     porcentajeCreditos :=
       if (creditosTotales > of_Z 0)%js
       then (creditosAprobados / creditosTotales * of_Z 100)%js
       else of_Z 0;
     totalSemestres := List.length semestres;
     eficienciaAcademica :=
       _calcularEficienciaAcademica cursosAprobados totalCursos
                                    (List.length semestres) |}.

(** The object [grupos] of [_agruparCursosPorSemestre]: its keys in the
    order in which they were added, each with its group.  Every key holds
    a [-], so none is an array index, which would be enumerated first, and
    none names a property that an empty object inherits. *)
Definition Grupos : Type := list (string * Grupo).

(** [grupos[clave]] *)
Fixpoint buscar (grupos : Grupos) (clave : string) : option Grupo :=
  match grupos with
  | [] => None
  | (k, g) :: resto => if String.eqb k clave then Some g else buscar resto clave
  end.

(** [grupos[clave].cursos.push(c)] *)
Fixpoint agregarCurso (grupos : Grupos) (clave : string) (c : CursoValidado)
  : Grupos :=
  match grupos with
  | [] => []
  | (k, g) :: resto =>
      if String.eqb k clave
      then (k, {| semestre := semestre g; cursos := push (cursos g) c |}) :: resto
      else (k, g) :: agregarCurso resto clave c
  end.

(** The body of the [forEach] of [_agruparCursosPorSemestre]; the group
    objects are kept without [id] and the formatted dates. *)
Definition agruparInscripcion (grupos : Grupos) (inscripcion : Inscripcion)
  : Grupos :=
  let semestreInscripcion := Model.semestre inscripcion in
  let claveSemestre := claveSemestre semestreInscripcion in
  let grupos :=
    match buscar grupos claveSemestre with
    | Some _ => grupos
    | None =>
        push grupos
             (claveSemestre,
              {| semestre :=
                   {| año := anio semestreInscripcion;
                      numero := numero_semestre semestreInscripcion;
                      descripcion :=
                        CalificacionService.toString numberToString
                          (numero_semestre semestreInscripcion)
                        ++ "° Semestre "
                        ++ CalificacionService.toString numberToString
                             (anio semestreInscripcion) |};
                 cursos := [] |})
    end in
  agregarCurso grupos claveSemestre (cursoDeInscripcion inscripcion).

(** ToNumber of a primitive value; on strings it is StringToNumber. *)
Variable stringToNumber : string -> num.
Definition toNumber (v : value) : num :=
  match v with
  | JNull => of_Z 0
  | JUndefined => nan
  | JBool b => if b then of_Z 1 else of_Z 0
  | JNum x => x
  | JStr s => stringToNumber s
  end.

(** [a !== b] on primitive values. *)
Definition strictNotEqual (a b : value) : bool :=
  negb match a, b with
       | JNull, JNull | JUndefined, JUndefined => true
       | JBool x, JBool y => Bool.eqb x y
       | JNum x, JNum y => (x === y)%js
       | JStr x, JStr y => String.eqb x y
       | _, _ => false
       end.

Context {JS : JSSubtraction JN}.

(** The comparator of the final [sort]: by year, then by term. *)
Definition compararGrupos (a b : Grupo) : num :=
  if strictNotEqual (año (semestre a)) (año (semestre b))
  then sub (toNumber (año (semestre a))) (toNumber (año (semestre b)))
  else sub (toNumber (numero (semestre a))) (toNumber (numero (semestre b))).

(** [array.sort(comparefn)].  The sort of ECMAScript is stable and, for
    a comparator that orders the elements consistently, returns the one
    stable sorted arrangement, which insertion computes: an element goes
    behind another one only where the comparator is positive, a NaN
    counting as 0.  Whatever the comparator, the result is a permutation
    of the array.  Where the comparator is not consistent, as when a year
    or a term is no finite Number and a difference is NaN, ECMAScript
    leaves the arrangement to the engine, and the one computed here need
    not be the engine's: what is proved of the order of the groups assumes
    finite years and terms, and the rest uses of the sort only that it
    permutes. *)
Fixpoint insertar {A : Type} (comparefn : A -> A -> num) (x : A) (array : list A)
  : list A :=
  match array with
  | [] => [x]
  | y :: resto =>
      if (comparefn x y > of_Z 0)%js
      then y :: insertar comparefn x resto
      else x :: array
  end.
Definition sort {A : Type} (comparefn : A -> A -> num) (array : list A) : list A :=
  fold_right (insertar comparefn) [] array.

(** [_agruparCursosPorSemestre] *)
Definition _agruparCursosPorSemestre (inscripciones : list Inscripcion)
  : list Grupo :=
  let grupos := fold_left agruparInscripcion inscripciones [] in
  sort compararGrupos (map snd grupos).

(** A query of [obtenerValidacionCompleta]. *)
Inductive Consulta :=
| EstudianteFindByPk (id : value)
| InscripcionFindAll (id_estudiante : value).

(** The answers of the data-access layer. *)
Record DB := {
  Estudiante_findByPk : value -> Async.Outcome (option Model.Estudiante);
  Inscripcion_findAll : value -> Async.Outcome (list Model.Inscripcion)
}.

(** [datosValidacion], with the record of the student in place of the
    object built from it and without the generation time. *)
Record DatosValidacion := {
  estudiante : Model.Estudiante;
  cursosPorSemestre : list Grupo;
  estadisticasGenerales : EstadisticasGenerales;
  validacionProgresion : Progresion
}.

Record Respuesta := {
  success : bool;
  data : option DatosValidacion;
  mensaje : string;
  error : option string
}.

Local Open Scope efecto_scope.

(** The [try] block of [obtenerValidacionCompleta]. *)
Definition cuerpo (db : DB) (idEstudiante : value) : Efecto.M Consulta Respuesta :=
  (if negb (truthy idEstudiante)
   then Efecto.throw "ID de estudiante requerido"
   else Efecto.ret tt) ;;
  estudiante <- Efecto.await (EstudianteFindByPk idEstudiante)
                             (Estudiante_findByPk db idEstudiante) ;;
  match estudiante with
  | None => Efecto.throw "Estudiante no encontrado"
  | Some estudiante =>
      inscripciones <- Efecto.await (InscripcionFindAll idEstudiante)
                                    (Inscripcion_findAll db idEstudiante) ;;
      let cursosPorSemestre := _agruparCursosPorSemestre inscripciones in
      let estadisticasGenerales := _calcularEstadisticasGenerales inscripciones in
      let validacionProgresion := _validarProgresionAcademica cursosPorSemestre in
      Efecto.ret
        {| success := true;
           data := Some {| estudiante := estudiante;
                           cursosPorSemestre := cursosPorSemestre;
                           estadisticasGenerales := estadisticasGenerales;
                           validacionProgresion := validacionProgresion |};
           mensaje := "Validación completa para "
                      ++ numberToString (of_nat (List.length inscripciones))
                      ++ " inscripciones";
           error := None |}
  end.

(** [obtenerValidacionCompleta]: the [try] block and its [catch]. *)
Definition obtenerValidacionCompleta (db : DB) (idEstudiante : value)
  : Efecto.M Consulta Respuesta :=
  Efecto.try_catch (cuerpo db idEstudiante)
    (fun message =>
       Efecto.ret {| success := false; data := None;
                     mensaje := message; error := Some message |}).
End WithNumber.
End ValidacionService.

(* ================================================================= *)
(** ** [universidad_backend/app/templates/calificacion.templates.js] *)

Module CalificacionesTemplate.
Import Model CalificacionService.
Local Open Scope string_scope.

Section WithNumber.
Context {JN : JSNumber}.

(** [_determinarNivelRendimiento] *)
Definition _determinarNivelRendimiento (promedio : num) : string :=
  if (promedio >= of_Z 90)%js then "Excelente"
  else if (promedio >= of_Z 80)%js then "Muy Bueno"
  else if (promedio >= of_Z 70)%js then "Bueno"
  else if (promedio >= of_Z 61)%js then "Satisfactorio"
  else "Insatisfactorio".

(** The two series returned by [_generarDatosGraficos]. *)
Record Serie (A : Type) := {
  labels : list string;
  datos : list A
}.
Record DatosGraficos := {
  distribucionNotas : Serie (option num);
  estadosAprobacion : Serie nat
}.

(** [_generarDatosGraficos] *)
Definition _generarDatosGraficos (cursos : list CursoConCalificaciones)
  : DatosGraficos :=
  let cursosConNota := filter conNota cursos in
  {| distribucionNotas :=
       {| labels := map (fun c => codigo_curso (curso c)) cursosConNota;
          datos := map (fun c => notaFinal c) cursosConNota |};
     estadosAprobacion :=
       {| labels := ["Aprobados"; "Reprobados"; "Pendientes"];
          datos :=
            [List.length (filter (fun c => aprobado (estado c)) cursos);
             List.length
               (filter (fun c => negb (aprobado (estado c)) && conNota c) cursos);
             List.length (filter (fun c => negb (conNota c)) cursos)] |} |}.
End WithNumber.
End CalificacionesTemplate.

(* ================================================================= *)
(** ** [parseInt] and [isNaN] *)

Module ParseInt.
(** The value of a hexadecimal digit. *)
Definition hexDigit (c : ascii) : option N :=
  let n := N_of_ascii c in
  if ((48 <=? n) && (n <=? 57))%N then Some (n - 48)%N
  else if ((97 <=? n) && (n <=? 102))%N then Some (n - 87)%N
  else if ((65 <=? n) && (n <=? 70))%N then Some (n - 55)%N
  else None.

Definition digitOf (radix : N) (c : ascii) : option N :=
  if (radix =? 16)%N then hexDigit c else StrDecimalLiteral.digit c.

(** Reads the digits of the radix at the head of [s]: their value and
    their number. *)
Fixpoint digits (radix : N) (s : string) (acc : N) (count : nat) : N * nat :=
  match s with
  | String c s' =>
      match digitOf radix c with
      | Some d => digits radix s' (radix * acc + d)%N (S count)
      | None => (acc, count)
      end
  | EmptyString => (acc, count)
  end.

(** [parseInt(string)] without a radix: leading white space, a sign, the
    prefix [0x] or [0X] for radix 16, then the longest run of digits; the
    sign and the integer read, or nothing where no digit follows. *)
Definition parse (s : string) : option (bool * N) :=
  let '(neg, s1) := StrDecimalLiteral.sign (StrDecimalLiteral.trimStart s) in
  let '(radix, s2) :=
    match s1 with
    | String "0"%char (String c s') =>
        if (Ascii.eqb c "x" || Ascii.eqb c "X")%char then (16%N, s') else (10%N, s1)
    | _ => (10%N, s1)
    end in
  let '(m, count) := digits radix s2 0%N 0%nat in
  match count with
  | O => None
  | S _ => Some (neg, m)
  end.
End ParseInt.

Section GlobalFunctions.
Context {JN : JSNumber}.

(** [parseInt(s)]: the Number of the integer read, NaN without digits.
    The integer is taken exactly, whatever the number of its digits. *)
Definition parseInt (s : string) : num :=
  match ParseInt.parse s with
  | Some (neg, m) => of_decimal neg m 0
  | None => nan
  end.

(** [isNaN(x)] on a Number. *)
Definition isNaN (x : num) : bool :=
  match compare x x with
  | None => true
  | Some _ => false
  end.
End GlobalFunctions.

(* ================================================================= *)
(** ** [app/controllers/calificacion.controller.js] *)

Module CalificacionController.
Import Model Async CalificacionService.
Local Open Scope string_scope.

Section WithNumber.
Context {JN : JSNumber}.
Variable numberToString : num -> string.

(** The three properties that [validarCalificaciones] reads off a
    [req.body] that is there; a property that the body lacks is
    [undefined]. *)
Record Body := {
  idEstudiante : value;
  año : value;
  numeroSemestre : value
}.

(** The JSON object of a response of [validarCalificaciones]; [data] and
    [error] are absent from some of them. *)
Record Json := {
  success : bool;
  data : option ValidacionCalificaciones.t;
  mensaje : string;
  error : option string
}.

(** What [res.status(code).json(object)] sends. *)
Record Response := {
  status : nat;
  json : Json
}.

(** [validarCalificaciones] on [req.body]: the [try] block and its
    [catch].  [req.body] is [undefined] where no parser has read a body,
    [None] here, and destructuring [undefined] throws a TypeError inside
    the [try]. *)
Definition validarCalificaciones (db : DB) (body : option Body) : M Response :=
  try_catch
    (match body with
     | None =>
         throw "Cannot destructure property 'idEstudiante' of 'req.body' as it is undefined."
     | Some body =>
         validacion <- validarCalificacionesExistentes numberToString db
                         (idEstudiante body) (año body) (numeroSemestre body) ;;
         ret {| status := 200;
                json := {| success := true;
                           data := Some validacion;
                           mensaje := ValidacionCalificaciones.mensaje validacion;
                           error := None |} |}
     end)
    (fun message =>
       ret {| status := 500;
              json := {| success := false;
                         data := None;
                         mensaje := "Error al validar calificaciones";
                         error := Some message |} |}).
End WithNumber.
End CalificacionController.

(* ================================================================= *)
(** ** [universidad_backend/app/controllers/validacion.controller.js] *)

Module ValidacionController.
Import Model.
Local Open Scope string_scope.
Local Open Scope efecto_scope.

Section WithNumber.
Context {JN : JSNumber} {JS : JSSubtraction JN}.
Variable numberToString : num -> string.
Variable toFixed : num -> nat -> string.
Variable stringToNumber : string -> num.

(** [progresion] in the executive summary. *)
Record ProgresionResumen := {
  nivel : string;
  requiereAtencion : bool;
  totalAlertas : nat
}.

(** The executive summary; [estudiante] stands for the full name that the
    service builds from the student's record. *)
Record Resumen := {
  estudiante : Estudiante;
  estadisticasGenerales : ValidacionService.EstadisticasGenerales;
  progresion : ProgresionResumen;
  ultimoSemestre : option ValidacionService.SemestreGrupo
}.

(** [cursosPorSemestre.length > 0
      ? cursosPorSemestre[cursosPorSemestre.length - 1].semestre : null] *)
Definition ultimo (cursosPorSemestre : list ValidacionService.Grupo)
  : option ValidacionService.SemestreGrupo :=
  match cursosPorSemestre with
  | [] => None
  | g :: resto => Some (ValidacionService.semestre (last resto g))
  end.

(** The JSON object of a response of [obtenerResumenValidacion]. *)
Record Json := {
  success : bool;
  data : option Resumen;
  mensaje : string;
  error : option string
}.

Record Response := {
  status : nat;
  json : Json
}.

(** [obtenerResumenValidacion] on the route parameter [idEstudiante]: the
    [try] block and its [catch].  Reading [datos.estudiante] throws a
    TypeError when [data] is absent. *)
Definition obtenerResumenValidacion (db : ValidacionService.DB)
    (idEstudiante : string) : Efecto.M ValidacionService.Consulta Response :=
  Efecto.try_catch
    (let idEst := parseInt idEstudiante in
     if isNaN idEst then
       Efecto.ret {| status := 400;
                     json := {| success := false; data := None;
                                mensaje := "ID de estudiante inválido";
                                error := None |} |}
     else
       resultado <- ValidacionService.obtenerValidacionCompleta
                      numberToString toFixed stringToNumber db (JNum idEst) ;;
       if ValidacionService.success resultado then
         match ValidacionService.data resultado with
         | None =>
             Efecto.throw "Cannot read properties of undefined (reading 'estudiante')"
         | Some datos =>
             let resumen :=
               {| estudiante := ValidacionService.estudiante datos;
                  estadisticasGenerales :=
                    ValidacionService.estadisticasGenerales datos;
                  progresion :=
                    {| nivel := ValidacionService.nivel
                                  (ValidacionService.validacionProgresion datos);
                       requiereAtencion :=
                         ValidacionService.requiereAtencion
                           (ValidacionService.validacionProgresion datos);
                       totalAlertas :=
                         List.length
                           (ValidacionService.alertas
                              (ValidacionService.validacionProgresion datos)) |};
                  ultimoSemestre :=
                    ultimo (ValidacionService.cursosPorSemestre datos) |} in
             Efecto.ret {| status := 200;
                           json := {| success := true; data := Some resumen;
                                      mensaje :=
                                        "Resumen de validación obtenido correctamente";
                                      error := None |} |}
         end
       else
         Efecto.ret {| status := 400;
                       json := {| success := false; data := None;
                                  mensaje := ValidacionService.mensaje resultado;
                                  error := ValidacionService.error resultado |} |})
    (fun message =>
       Efecto.ret {| status := 500;
                     json := {| success := false; data := None;
                                mensaje := "Error al obtener resumen";
                                error := Some message |} |}).
End WithNumber.
End ValidacionController.

(* ================================================================= *)
(** ** The specification's definitions *)

(** The functions of the specification over the interface of Numbers; the
    theorems compare them with the services.  They take the products, the
    quotients and the sums as the specification orders them, read scores
    and weights with [parseFloat], and round with the expression
    [Math.round(x * 100) / 100].  What these two mean is not settled here
    but against [SpecRacional] below, which uses neither. *)
Module Spec.
Import Model.
Local Open Scope string_scope.

Section WithNumber.
Context {JN : JSNumber}.

(** The sum of a list of Numbers, added from left to right from 0. *)
Definition suma (l : list num) : num := fold_left add l (of_Z 0).

(** The rounding of a Number to 2 decimal places as an expression over the
    interface: [Math.round(x * 100) / 100]. *)
Definition round2 (x : num) : num := (round (x * of_Z 100) / of_Z 100)%js.

(** An evaluation has a present score when its score is neither [null] nor
    [undefined]. *)
Definition present (e : Calificacion) : bool :=
  match nota e with
  | JNull | JUndefined => false
  | _ => true
  end.

Definition score (e : Calificacion) : num := parseFloat (nota e).
Definition weight (e : Calificacion) : num := parseFloat (ponderacion e).

(** weightedSum: the sum over score-bearing evaluations of
    score * weight / 100. *)
Definition weightedSum (evaluations : list Calificacion) : num :=
  suma (map (fun e => score e * weight e / of_Z 100)%js (filter present evaluations)).

(** weightTotal: the sum of the weights of the score-bearing evaluations. *)
Definition weightTotal (evaluations : list Calificacion) : num :=
  suma (map weight (filter present evaluations)).

(** The final grade before rounding: absent when no evaluation has a
    present score or when weightTotal is 0, and weightedSum * 100 /
    weightTotal otherwise. *)
Definition unroundedFinalGrade (evaluations : list Calificacion) : option num :=
  if negb (existsb present evaluations) then None
  else if (weightTotal evaluations === of_Z 0)%js then None
  else Some (weightedSum evaluations * of_Z 100 / weightTotal evaluations)%js.

(** computeFinalGrade as section 4.1 states it. *)
Definition computeFinalGrade (evaluations : list Calificacion) : option num :=
  option_map round2 (unroundedFinalGrade evaluations).

(** The simple weighted sum of all the evaluations: score * weight / 100
    added up, without renormalization. *)
Definition simpleWeightedSum (evaluations : list Calificacion) : num :=
  suma (map (fun e => score e * weight e / of_Z 100)%js evaluations).

(** [Number.isNaN]: NaN is the only Number that is not ordered with
    itself. *)
Definition isNaN (x : num) : bool :=
  match compare x x with
  | None => true
  | Some _ => false
  end.

(** A score is unparseable when it is present and [parseFloat] makes NaN of
    it. *)
Definition unparseable (e : Calificacion) : bool := present e && isNaN (score e).

(** The evaluations left when the unparseable scores are treated as
    absent. *)
Definition skipUnparseable (evaluations : list Calificacion) : list Calificacion :=
  filter (fun e => negb (unparseable e)) evaluations.

(** Two evaluations that [parseFloat] cannot tell apart: both scores are
    present or both absent, and scores and weights coerce to the same
    Numbers. *)
Definition sameCoerced (e e' : Calificacion) : Prop :=
  present e = present e' /\ score e = score e' /\ weight e = weight e'.

(** The approval status codes. *)
Definition UNGRADED := "SIN_CALIFICAR".
Definition PASSED := "APROBADO".
Definition FAILED := "REPROBADO".

(** classifyApproval as section 4.2 states it. *)
Definition classifyApproval (finalGrade : option num) : string :=
  match finalGrade with
  | None => UNGRADED
  | Some g => if (g >= of_Z 61)%js then PASSED else FAILED
  end.

(** An enrollment's final grade, status and credits. *)
Definition finalGrade (i : Inscripcion) : option num :=
  computeFinalGrade (calificaciones i).
Definition status (i : Inscripcion) : string := classifyApproval (finalGrade i).
Definition credits (i : Inscripcion) : num := creditos (curso i).

Definition graded (i : Inscripcion) : bool :=
  match finalGrade i with
  | Some _ => true
  | None => false
  end.
Definition passed (i : Inscripcion) : bool := String.eqb (status i) PASSED.
Definition failed (i : Inscripcion) : bool := String.eqb (status i) FAILED.

(** The final grade of a graded enrollment as a Number. *)
Definition grade (i : Inscripcion) : num :=
  match finalGrade i with
  | Some g => g
  | None => of_Z 0
  end.

(** weightedAverage: the sum of finalGrade * credits over the graded
    enrollments divided by the sum of their credits, rounded to 2 decimals;
    absent when no enrollment is graded. *)
Definition weightedAverage (enrollments : list Inscripcion) : option num :=
  match filter graded enrollments with
  | [] => None
  | gradedOnes =>
      Some (round2 (suma (map (fun i => grade i * credits i)%js gradedOnes)
                    / suma (map credits gradedOnes))%js)
  end.

End WithNumber.
End Spec.

(* ================================================================= *)
(** ** The specification in rational arithmetic *)

(** Sections 4.1 and 4.3 of the specification over the rationals, written
    from their words alone: nothing below goes through the interface of
    Numbers, its [round] or [parseFloat]. *)
Module SpecRacional.

(** An evaluation: a label, a score that may be absent, and a weight. *)
Record Evaluation := {
  label : string;
  score : option Q;
  weight : Q
}.

(** The sum of a list of rationals. *)
Definition sum (l : list Q) : Q := fold_right Qplus 0%Q l.

(** The score-bearing evaluations, each as its score and its weight. *)
Definition scoreBearing (evaluations : list Evaluation) : list (Q * Q) :=
  flat_map (fun e => match score e with
                     | Some s => [(s, weight e)]
                     | None => []
                     end) evaluations.

(** weightedSum: the sum over the score-bearing evaluations of
    score * weight / 100. *)
Definition weightedSum (evaluations : list Evaluation) : Q :=
  sum (map (fun sw => (fst sw * snd sw / 100)%Q) (scoreBearing evaluations)).

(** weightTotal: the sum of their weights. *)
Definition weightTotal (evaluations : list Evaluation) : Q :=
  sum (map snd (scoreBearing evaluations)).

(** The final grade before rounding: absent when no evaluation bears a
    score or when weightTotal is 0, and weightedSum * 100 / weightTotal
    otherwise. *)
Definition unroundedFinalGrade (evaluations : list Evaluation) : option Q :=
  match scoreBearing evaluations with
  | [] => None
  | _ :: _ =>
      if Qeq_bool (weightTotal evaluations) 0 then None
      else Some (weightedSum evaluations * 100 / weightTotal evaluations)%Q
  end.

(** [r] is [q] rounded to 2 decimal places, half up: [r] is a whole number
    of hundredths, and [q] lies at most half a hundredth below [r] and less
    than half a hundredth above it. *)
Definition roundedHalfUp2 (q r : Q) : Prop :=
  (exists k : Z, r == k # 100)%Q
  /\ (r - (1 # 200) <= q)%Q
  /\ (q < r + (1 # 200))%Q.

(** The rounding computed.  [hundredths q] is the number of hundredths
    nearest to [q], the upper one of two equally near: 100 q plus a half,
    rounded down. *)
Definition hundredths (q : Q) : Z := Qfloor (q * 100 + (1 # 2))%Q.
Definition halfUp2 (q : Q) : Q := hundredths q # 100.

(** [q] lies exactly on a half-cent, midway between two hundredths. *)
Definition halfCent (q : Q) : bool :=
  Qeq_bool (inject_Z (hundredths q)) (q * 100 + (1 # 2))%Q.

(** computeFinalGrade as section 4.1 states it. *)
Definition computeFinalGrade (evaluations : list Evaluation) : option Q :=
  option_map halfUp2 (unroundedFinalGrade evaluations).

(** An enrollment: the course, its credits and its evaluations. *)
Record Enrollment := {
  course : string;
  credits : positive;
  evaluations : list Evaluation
}.

(** The graded enrollments, each as its final grade and its credits. *)
Definition gradedOnes (enrollments : list Enrollment) : list (Q * Q) :=
  flat_map (fun i => match computeFinalGrade (evaluations i) with
                     | Some g => [(g, inject_Z (Zpos (credits i)))]
                     | None => []
                     end) enrollments.

(** The average before rounding: the sum of finalGrade * credits over the
    graded enrollments divided by the sum of their credits; absent when no
    enrollment is graded. *)
Definition unroundedAverage (enrollments : list Enrollment) : option Q :=
  match gradedOnes enrollments with
  | [] => None
  | g :: l =>
      Some (sum (map (fun gc => (fst gc * snd gc)%Q) (g :: l))
            / sum (map snd (g :: l)))%Q
  end.

(** weightedAverage as section 4.3 states it. *)
Definition weightedAverage (enrollments : list Enrollment) : option Q :=
  option_map halfUp2 (unroundedAverage enrollments).
End SpecRacional.

(** The data of the rational specification as the services receive them in
    exact arithmetic: scores, weights and credits as Numbers, an absent
    score as [null]. *)
Module Exactos.
Import Model.

Definition numero (q : Q) : @num Exact := ExactImpl.XFin (Q2Qc q).

Definition calificacion (e : SpecRacional.Evaluation) : @Calificacion Exact :=
  {| tipo_evaluacion := SpecRacional.label e;
     nota := match SpecRacional.score e with
             | Some s => JNum (numero s)
             | None => JNull
             end;
     ponderacion := JNum (numero (SpecRacional.weight e)) |}.

Definition inscripcion (term : @Semestre Exact) (i : SpecRacional.Enrollment)
  : @Inscripcion Exact :=
  {| curso := {| codigo_curso := SpecRacional.course i;
                 nombre_curso := SpecRacional.course i;
                 creditos := of_Z (Zpos (SpecRacional.credits i)) |};
     semestre := term;
     calificaciones := map calificacion (SpecRacional.evaluations i);
     estado := "ACTIVO"%string |}.
End Exactos.

(** The progression evaluator as section 4.4 states it. *)
Module SpecProgresion.
Import Model ValidacionService.
Local Open Scope string_scope.

Section WithNumber.
Context {JN : JSNumber}.
Variable numberToString : num -> string.
Variable toFixed : num -> nat -> string.

Definition totalCourses (g : Grupo) : nat := List.length (cursos g).
(** A passed course has a final grade of 61 or more; a failed course has a
    final grade and is not passed. *)
Definition passedCourses (g : Grupo) : nat := List.length (filter validado (cursos g)).
Definition failedCourses (g : Grupo) : nat := List.length (filter reprobado (cursos g)).
Definition totalCredits (g : Grupo) : num :=
  Spec.suma (map (fun c => creditos (curso c)) (cursos g)).

(** Low load: totalCredits < 12. *)
Definition lowLoad (g : Grupo) : bool := (totalCredits g < of_Z 12)%js.
(** Failures present: failedCourses > 0. *)
Definition hasFailures (g : Grupo) : bool := (0 <? failedCourses g)%nat.
(** The approval percentage of a semester with at least one course. *)
Definition passPercentage (g : Grupo) : num :=
  (of_nat (passedCourses g) / of_nat (totalCourses g) * of_Z 100)%js.
(** Low pass rate: at least one course, and the percentage below 75. *)
Definition lowPassRate (g : Grupo) : bool :=
  (0 <? totalCourses g)%nat && (passPercentage g < of_Z 75)%js.

(** The three alerts of a semester, each naming it by its label. *)
Definition lowLoadAlert (g : Grupo) : string :=
  descripcion (semestre g) ++ ": Carga académica baja ("
  ++ numberToString (totalCredits g) ++ " créditos)".
Definition failuresAlert (g : Grupo) : string :=
  descripcion (semestre g) ++ ": "
  ++ numberToString (of_nat (failedCourses g)) ++ " curso(s) reprobado(s)".
Definition lowPassRateAlert (g : Grupo) : string :=
  descripcion (semestre g) ++ ": Bajo porcentaje de aprobación ("
  ++ formatearNumero toFixed (passPercentage g) 1 ++ "%)".

(** Each check emits zero or one alert. *)
Definition alerts (g : Grupo) : list string :=
  ((if lowLoad g then [lowLoadAlert g] else [])
   ++ (if hasFailures g then [failuresAlert g] else [])
   ++ (if lowPassRate g then [lowPassRateAlert g] else []))%list.

(** The tier of an alert count. *)
Definition tier (alertCount : nat) : string :=
  match alertCount with
  | 0 => "EXCELENTE"
  | 1 | 2 => "BUENA"
  | 3 | 4 => "REGULAR"
  | _ => "DEFICIENTE"
  end.

End WithNumber.

(** The tiers. *)
Definition EXCELLENT := "EXCELENTE".
Definition GOOD := "BUENA".
Definition FAIR := "REGULAR".
Definition POOR := "DEFICIENTE".

(** The fixed recommendations. *)
Definition retake := "Considerar repetir cursos reprobados en próximas oportunidades".
Definition tutoring := "Solicitar tutoría académica para materias de mayor dificultad".
Definition increaseLoad := "Incrementar la carga académica para mantener progresión normal".
Definition studyMethods := "Revisar métodos de estudio y técnicas de aprendizaje".
Definition support := "Considerar apoyo psicopedagógico si es necesario".
Definition keepUp := "Mantener el excelente desempeño académico".
Definition extracurricular := "Considerar participar en actividades extracurriculares".

End SpecProgresion.

(** The input errors of section 7. *)
Module SpecEntrada.
Import Model Async CalificacionService.
Local Open Scope string_scope.

Section WithNumber.
Context {JN : JSNumber}.

(** A parameter is missing when it is [null] or [undefined]. *)
Definition missing (v : value) : bool :=
  match v with
  | JNull | JUndefined => true
  | _ => false
  end.

(** The failure result that carries [message]. *)
Definition failure (message : string) : Respuesta :=
  {| success := false; data := None; mensaje := message; error := Some message |}.

Definition invalidParameters : string :=
  "Parámetros requeridos: idEstudiante, año, numeroSemestre".
Definition invalidTerm : string := "Número de semestre debe ser 1 o 2".
Definition studentNotFound : string := "Estudiante no encontrado".

End WithNumber.
End SpecEntrada.

(** NaN absorbs the arithmetic of Numbers. *)
Class NaNLaws (JN : JSNumber) : Prop := {
  add_nan_l : forall x : num, (nan + x)%js = nan;
  add_nan_r : forall x : num, (x + nan)%js = nan;
  mul_nan_l : forall x : num, (nan * x)%js = nan;
  mul_nan_r : forall x : num, (x * nan)%js = nan;
  div_nan_l : forall x : num, (nan / x)%js = nan;
  div_nan_r : forall x : num, (x / nan)%js = nan;
  round_nan : round nan = nan;
  compare_nan_l : forall x : num, compare nan x = None
}.

(* ================================================================= *)
(** ** Concrete data on binary64 *)

Module Ejemplos.
Import Model.
Local Open Scope string_scope.

(** The binary64 Number that a decimal literal denotes. *)
Definition f64 (literal : string) : @num Float64 := parseFloatString literal.

(** The exact Number that a decimal literal denotes. *)
Definition exacto (literal : string) : @num Exact := parseFloatString literal.

(** An evaluation with a score and a weight given as Numbers. *)
Definition evaluacion {JN : JSNumber} (score weight : string) : Calificacion :=
  {| tipo_evaluacion := "Parcial";
     nota := JNum (parseFloatString score);
     ponderacion := JNum (parseFloatString weight) |}.

(** An evaluation whose score and weight arrive as strings. *)
Definition evaluacionTexto {JN : JSNumber} (score weight : string) : Calificacion :=
  {| tipo_evaluacion := "Parcial";
     nota := JStr score;
     ponderacion := JStr weight |}.

(** An evaluation that is not graded yet. *)
Definition evaluacionPendiente {JN : JSNumber} (weight : string) : Calificacion :=
  {| tipo_evaluacion := "Final";
     nota := JNull;
     ponderacion := JStr weight |}.

(** Scores 35.1 and 62.65 with weights 90 and 10: the weighted grade is
    37.855. *)
Definition notas37855 {JN : JSNumber} : list Calificacion :=
  [evaluacion "35.1" "90"; evaluacion "62.65" "10"].

(** Scores 90 and 80 with weights 50 and 50. *)
Definition notas9080 {JN : JSNumber} : list Calificacion :=
  [evaluacion "90" "50"; evaluacionTexto "80" "50"].

(** The binary64 Numbers that lie exactly on a half-cent are the odd
    multiples of 1/8: [octavo j] is j / 8, and [centavoSuperior j] the cent
    above it, (25 j + 1) / 200. *)
Definition octavo (j : N) : @num Float64 := of_decimal false (125 * j) (-3).
Definition centavoSuperior (j : N) : @num Float64 :=
  of_decimal false ((25 * j + 1) / 2) (-2).
Definition impares (n : nat) : list N :=
  map (fun i => (2 * N.of_nat i + 1)%N) (seq 0 n).

(** Two evaluations with scores a / 100 and b / 100 and weights w and
    100 - w, and a grid of such lists. *)
Definition dosNotas (a b w : N) : list (@Calificacion Float64) :=
  [ {| tipo_evaluacion := "Parcial";
       nota := JNum (of_decimal false a (-2));
       ponderacion := JNum (of_Z (Z.of_N w)) |};
    {| tipo_evaluacion := "Final";
       nota := JNum (of_decimal false b (-2));
       ponderacion := JNum (of_Z (100 - Z.of_N w)) |} ].
Definition rejilla (n : nat) : list (list (@Calificacion Float64)) :=
  flat_map
    (fun i => let a := (13 * N.of_nat i)%N in
              map (dosNotas a ((7 * a + 333) mod 10001)%N) [10; 30; 45]%N)
    (seq 0 n).

(** On a list of present scores whose weights sum to 100: the grade is the
    rounded simple weighted sum; the renormalized value differs from the
    simple weighted sum before the rounding. *)
Definition sinEfecto (evaluations : list (@Calificacion Float64)) : bool :=
  forallb Spec.present evaluations
  && (Spec.suma (map Spec.weight evaluations) === of_Z 100)%js
  && match CalificacionService._calcularNotaFinal evaluations with
     | Some g => (g === Spec.round2 (Spec.simpleWeightedSum evaluations))%js
     | None => false
     end.
Definition renormalizada (evaluations : list (@Calificacion Float64)) : bool :=
  match Spec.unroundedFinalGrade evaluations with
  | Some g => negb (g === Spec.simpleWeightedSum evaluations)%js
  | None => false
  end.

Definition semestre2024_1 : @Semestre Float64 :=
  {| id := JNum (f64 "1"); anio := JNum (f64 "2024"); numero_semestre := JNum (f64 "1") |}.

(** Course A: 4 credits, evaluations of score 90 and 80, weight 50 each. *)
Definition cursoA : @Inscripcion Float64 :=
  {| curso := {| codigo_curso := "A"; nombre_curso := "Course A"; creditos := f64 "4" |};
     semestre := semestre2024_1;
     calificaciones := [evaluacion "90" "50"; evaluacion "80" "50"];
     estado := "ACTIVE" |}.

(** Course B: 3 credits, no evaluations. *)
Definition cursoB : @Inscripcion Float64 :=
  {| curso := {| codigo_curso := "B"; nombre_curso := "Course B"; creditos := f64 "3" |};
     semestre := semestre2024_1;
     calificaciones := [];
     estado := "ACTIVE" |}.

(** An enrollment in one course of 9 credits, graded 90. *)
Definition inscripcion9 : @Inscripcion Float64 :=
  {| curso := {| codigo_curso := "C"; nombre_curso := "Course C"; creditos := f64 "9" |};
     semestre := semestre2024_1;
     calificaciones := [evaluacion "90" "100"];
     estado := "ACTIVE" |}.

(** A semester group with that single course: 9 credits, no failure. *)
Definition semestre9 (descripcion : string) : @ValidacionService.Grupo Float64 :=
  {| ValidacionService.semestre :=
       {| ValidacionService.año := JNum (f64 "2024");
          ValidacionService.numero := JNum (f64 "1");
          ValidacionService.descripcion := descripcion |};
     ValidacionService.cursos := [ValidacionService.cursoDeInscripcion inscripcion9] |}.

Definition cincoSemestres : list (@ValidacionService.Grupo Float64) :=
  [semestre9 "1° Semestre 2022"; semestre9 "2° Semestre 2022";
   semestre9 "1° Semestre 2023"; semestre9 "2° Semestre 2023";
   semestre9 "1° Semestre 2024"].

(** Four evaluations, one of them not graded yet: the weights of the
    graded ones sum to 85, and the grade before rounding, 69.475 * 100 / 85,
    has infinitely many decimals.  Scores and weights arrive as numbers and
    as the strings of DECIMAL columns. *)
Definition notasRenormalizadas : list (@Calificacion Float64) :=
  [evaluacionTexto "85.5" "30"; evaluacion "70.25" "30";
   evaluacionTexto "91.00" "25"; evaluacionPendiente "15"].

(** The same four evaluations for the rational specification. *)
Definition evaluacionesRenormalizadas : list SpecRacional.Evaluation :=
  [ {| SpecRacional.label := "Parcial"; SpecRacional.score := Some (855 # 10)%Q;
       SpecRacional.weight := 30%Q |};
    {| SpecRacional.label := "Parcial"; SpecRacional.score := Some (7025 # 100)%Q;
       SpecRacional.weight := 30%Q |};
    {| SpecRacional.label := "Parcial"; SpecRacional.score := Some 91%Q;
       SpecRacional.weight := 25%Q |};
    {| SpecRacional.label := "Final"; SpecRacional.score := None;
       SpecRacional.weight := 15%Q |} ].


(** Course D: 3 credits, one evaluation of score 70.5 and weight 100. *)
Definition cursoD : @Inscripcion Float64 :=
  {| curso := {| codigo_curso := "D"; nombre_curso := "Course D"; creditos := f64 "3" |};
     semestre := semestre2024_1;
     calificaciones := [evaluacionTexto "70.5" "100"];
     estado := "ACTIVO" |}.

(** Course A, Course D and Course B for the rational specification. *)
Definition matriculas : list SpecRacional.Enrollment :=
  [ {| SpecRacional.course := "A"; SpecRacional.credits := 4%positive;
       SpecRacional.evaluations :=
         [ {| SpecRacional.label := "Parcial"; SpecRacional.score := Some 90%Q;
              SpecRacional.weight := 50%Q |};
           {| SpecRacional.label := "Parcial"; SpecRacional.score := Some 80%Q;
              SpecRacional.weight := 50%Q |} ] |};
    {| SpecRacional.course := "D"; SpecRacional.credits := 3%positive;
       SpecRacional.evaluations :=
         [ {| SpecRacional.label := "Parcial"; SpecRacional.score := Some (705 # 10)%Q;
              SpecRacional.weight := 100%Q |} ] |};
    {| SpecRacional.course := "B"; SpecRacional.credits := 3%positive;
       SpecRacional.evaluations := [] |} ].

(** A stand-in for [Number.prototype.toString] and
    [Number.prototype.toFixed] where the digits do not matter. *)
Definition sinDigitos : @num Float64 -> string := fun _ => "#".
Definition sinDecimales : @num Float64 -> nat -> string := fun _ _ => "#".

(** A data-access layer that knows no semester and no student. *)
Definition sinDatos : @Async.DB Float64 :=
  {| Async.Semestre_findOne := fun _ _ => Async.Return None;
     Async.Estudiante_findByPk := fun _ => Async.Return None;
     Async.Inscripcion_findAll := fun _ _ => Async.Return [] |}.

(** A data-access layer that knows the semester but no student. *)
Definition sinEstudiante : @Async.DB Float64 :=
  {| Async.Semestre_findOne := fun _ _ => Async.Return (Some semestre2024_1);
     Async.Estudiante_findByPk := fun _ => Async.Return None;
     Async.Inscripcion_findAll := fun _ _ => Async.Return [] |}.

End Ejemplos.

(** Lists of evaluations whose scores and weights are given in hundredths,
    as DECIMAL(5,2) columns hold them: for the rational specification and
    on binary64. *)
Module Centesimos.
Import Model.
Local Open Scope string_scope.

Definition racionales (l : list (N * N)) : list SpecRacional.Evaluation :=
  map (fun sw => {| SpecRacional.label := "Parcial";
                    SpecRacional.score := Some (Z.of_N (fst sw) # 100)%Q;
                    SpecRacional.weight := (Z.of_N (snd sw) # 100)%Q |}) l.

Definition binarias (l : list (N * N)) : list (@Calificacion Float64) :=
  map (fun sw => {| tipo_evaluacion := "Parcial";
                    nota := JNum (of_decimal false (fst sw) (-2));
                    ponderacion := JNum (of_decimal false (snd sw) (-2)) |}) l.

(** The Number that a whole number of hundredths denotes. *)
Definition centavos (k : Z) : @num Float64 :=
  of_decimal (k <? 0)%Z (Z.abs_N k) (-2).

(** On binary64 [_calcularNotaFinal] is absent where the rational
    specification is, and otherwise returns the Number of the hundredths
    that the rational specification rounds to; where the grade before
    rounding lies exactly on a half-cent it may return the hundredth below
    instead. *)
Definition concuerda (l : list (N * N)) : bool :=
  match SpecRacional.unroundedFinalGrade (racionales l),
        CalificacionService._calcularNotaFinal (binarias l) with
  | None, None => true
  | Some q, Some g =>
      (g === centavos (SpecRacional.hundredths q))%js
      || (SpecRacional.halfCent q
          && (g === centavos (SpecRacional.hundredths q - 1))%js)
  | _, _ => false
  end.

(** The grade before rounding lies exactly on a half-cent. *)
Definition empate (l : list (N * N)) : bool :=
  match SpecRacional.unroundedFinalGrade (racionales l) with
  | Some q => SpecRacional.halfCent q
  | None => false
  end.

(** [_calcularNotaFinal] on binary64 returns the hundredth below the one
    that the rational specification rounds to. *)
Definition inferior (l : list (N * N)) : bool :=
  match SpecRacional.unroundedFinalGrade (racionales l),
        CalificacionService._calcularNotaFinal (binarias l) with
  | Some q, Some g => (g === centavos (SpecRacional.hundredths q - 1))%js
  | _, _ => false
  end.

(** The grade before rounding is not a whole number of hundredths. *)
Definition redondea (l : list (N * N)) : bool :=
  match SpecRacional.unroundedFinalGrade (racionales l) with
  | Some q => negb (Qeq_bool q (SpecRacional.halfUp2 q))
  | None => false
  end.

(** Weights that sum to 85, to 100 and to 75, with and without decimals,
    and weights that are all 0. *)
Definition pesos : list (list N) :=
  [[1000; 3000; 4500]; [40; 6740; 3220]; [3333; 3333; 3334];
   [2500; 2500; 2500]; [1250; 3750; 0]; [0; 0; 0]]%N.

(** Lists of two evaluations whose weights, w and 100 - w, have decimals. *)
Definition complementarias (n : nat) : list (list (N * N)) :=
  map (fun i => let a := ((13 * N.of_nat i) mod 10001)%N in
                let b := ((7 * a + 333) mod 10001)%N in
                let w := ((37 * N.of_nat i + 11) mod 10000)%N in
                [(a, w); (b, 10000 - w)]%N)
      (seq 0 n).

(** A grid of lists of three evaluations. *)
Definition rejilla (n : nat) : list (list (N * N)) :=
  flat_map
    (fun i => let a := ((13 * N.of_nat i) mod 10001)%N in
              let b := ((7 * a + 333) mod 10001)%N in
              let c := ((11 * a + 77) mod 10001)%N in
              map (fun ws => combine [a; b; c] ws) pesos)
    (seq 0 n).
End Centesimos.

(** Unfolds the operations of exact arithmetic. *)
Ltac exact_ops :=
  change (@mul Exact) with ExactImpl.mul in *;
  change (@div Exact) with ExactImpl.div in *;
  change (@add Exact) with ExactImpl.add in *;
  change (@round Exact) with ExactImpl.round in *;
  change (@compare Exact) with ExactImpl.compare in *;
  cbn [ExactImpl.mul ExactImpl.div ExactImpl.add ExactImpl.round ExactImpl.compare] in *.

(* ================================================================= *)
(** ** Reference notions for the academic record *)

Module SpecValidacion.
Import Model ValidacionService.
Local Open Scope string_scope.

Section WithNumber.
Context {JN : JSNumber}.
Variable numberToString : num -> string.

(** The key that the fields of a group spell. *)
Definition claveDeGrupo (g : Grupo) : string :=
  CalificacionService.toString numberToString (año (semestre g)) ++ "-"
  ++ CalificacionService.toString numberToString (numero (semestre g)).

(** The enrollment belongs to the semester of key [clave]. *)
Definition delSemestre (clave : string) (i : Inscripcion) : bool :=
  String.eqb (claveSemestre numberToString (Model.semestre i)) clave.

(** The enrollment is passed, failed, not graded. *)
Definition aprobada (i : Inscripcion) : bool := validado (cursoDeInscripcion i).
Definition reprobada (i : Inscripcion) : bool := reprobado (cursoDeInscripcion i).
Definition pendiente (i : Inscripcion) : bool :=
  match _calcularNotaFinal (Model.calificaciones i) with
  | None => true
  | Some _ => false
  end.
Definition calificada (i : Inscripcion) : bool := negb (pendiente i).

(** The final grade of the enrollment as a Number, and its credits. *)
Definition notaFinalDe (i : Inscripcion) : num :=
  match _calcularNotaFinal (Model.calificaciones i) with
  | Some notaFinal => notaFinal
  | None => of_Z 0
  end.
Definition creditosDe (i : Inscripcion) : num := creditos (Model.curso i).

(** The efficiency class by the counts of passed and of all courses: the
    class of the ratio passed / total against 9/10, 8/10, 7/10 and 6/10. *)
Definition clasePorConteo (aprobados total : nat) : string :=
  if (total =? 0)%nat then "Deficiente"
  else if (9 * total <=? 10 * aprobados)%nat then "Excelente"
  else if (8 * total <=? 10 * aprobados)%nat then "Muy Buena"
  else if (7 * total <=? 10 * aprobados)%nat then "Buena"
  else if (6 * total <=? 10 * aprobados)%nat then "Regular"
  else "Deficiente".

(** What the loop of [_agruparCursosPorSemestre] keeps true of the groups
    built from the enrollments [l]: the keys are distinct and are the keys
    of the enrollments in order of first appearance; a group spells its
    key, holds the courses of the enrollments of that key, in their order,
    and takes its year and term from one of them; the groups hold, together,
    the courses of all the enrollments. *)
Definition agrupados (grupos : Grupos) (l : list Inscripcion) : Prop :=
  NoDup (map fst grupos)
  /\ map fst grupos
     = unicos (map (fun i => claveSemestre numberToString (Model.semestre i)) l)
  /\ (forall i, In i l ->
        In (claveSemestre numberToString (Model.semestre i)) (map fst grupos))
  /\ (forall k g, In (k, g) grupos ->
        claveDeGrupo g = k
        /\ cursos g = map cursoDeInscripcion (filter (delSemestre k) l)
        /\ exists i, In i l
                     /\ año (semestre g) = anio (Model.semestre i)
                     /\ numero (semestre g) = numero_semestre (Model.semestre i))
  /\ Permutation (flat_map (fun kg => cursos (snd kg)) grupos)
                 (map cursoDeInscripcion l).

End WithNumber.
End SpecValidacion.

(* ================================================================= *)
(** ** The order of the semesters, in exact arithmetic *)

Module SpecOrden.
Import Model ValidacionService.

(** The year and the term of a group, when both are finite Numbers. *)
Definition periodo (g : @Grupo Exact) : option (Qc * Qc) :=
  match año (semestre g), numero (semestre g) with
  | JNum (ExactImpl.XFin a), JNum (ExactImpl.XFin n) => Some (a, n)
  | _, _ => None
  end.

(** The period of an enrollment, likewise. *)
Definition periodoDeInscripcion (i : @Inscripcion Exact) : option (Qc * Qc) :=
  match anio (Model.semestre i), numero_semestre (Model.semestre i) with
  | JNum (ExactImpl.XFin a), JNum (ExactImpl.XFin n) => Some (a, n)
  | _, _ => None
  end.

(** [g1] is of an earlier year than [g2], or of the same year and an
    earlier term; [noPosterior] also admits the same year and term. *)
Definition anterior (g1 g2 : @Grupo Exact) : Prop :=
  match periodo g1, periodo g2 with
  | Some (a1, n1), Some (a2, n2) => (a1 < a2 \/ (a1 = a2 /\ n1 < n2))%Qc
  | _, _ => False
  end.
Definition noPosterior (g1 g2 : @Grupo Exact) : Prop :=
  match periodo g1, periodo g2 with
  | Some (a1, n1), Some (a2, n2) => (a1 < a2 \/ (a1 = a2 /\ n1 <= n2))%Qc
  | _, _ => False
  end.
End SpecOrden.

(* ================================================================= *)
(** ** Concrete academic records *)

Module EjemplosValidacion.
Import Model.
Local Open Scope string_scope.

(** The decimal digits of an integer. *)
Definition digitos (z : Z) : string := NilZero.string_of_int (Z.to_int z).

(** Stand-ins for [Number.prototype.toString], exact on the integers, and
    for StringToNumber, exact on decimal literals. *)
Definition textoExacto (x : @num Exact) : string :=
  match x with
  | ExactImpl.XNaN => "NaN"
  | ExactImpl.XInf neg => if neg then "-Infinity" else "Infinity"
  | ExactImpl.XFin q => digitos (Qfloor q)
  end.
Definition texto64 (x : @num Float64) : string :=
  match Prim2SF x with
  | S754_zero _ => "0"
  | S754_infinity neg => if neg then "-Infinity" else "Infinity"
  | S754_nan => "NaN"
  | S754_finite s m e => digitos (cond_Zopp s (Z.shiftl (Zpos m) e))
  end.
Definition numero {JN : JSNumber} (s : string) : num := parseFloatString s.

(** The no-break space U+00A0, in UTF-8. *)
Definition espacioDuro : string :=
  String (ascii_of_nat 194) (String (ascii_of_nat 160) EmptyString).

Section WithNumber.
Context {JN : JSNumber}.

(** The semester of a year and a term. *)
Definition semestreDe (anio numero_semestre : string) : Semestre :=
  {| id := JNull;
     anio := JNum (parseFloatString anio);
     numero_semestre := JNum (parseFloatString numero_semestre) |}.

(** An enrollment in a course of 4 credits, with a single evaluation of
    weight 100 and the given score. *)
Definition inscripcionEn (anio numero_semestre codigo : string) (nota : value)
  : Inscripcion :=
  {| curso := {| codigo_curso := codigo; nombre_curso := codigo;
                 creditos := of_Z 4 |};
     semestre := semestreDe anio numero_semestre;
     calificaciones := [{| tipo_evaluacion := "Final"; nota := nota;
                           ponderacion := JStr "100" |}];
     estado := "ACTIVA" |}.

(** Five enrollments over three semesters, given out of order: a passed
    and a failed course in the second term of 2024, a passed one in the
    first term of 2023, a pending and a passed one in the first term of
    2024. *)
Definition historial : list Inscripcion :=
  [inscripcionEn "2024" "2" "MAT2" (JStr "75.50");
   inscripcionEn "2023" "1" "FIS1" (JNum (of_Z 88));
   inscripcionEn "2024" "2" "QUI2" (JStr "40");
   inscripcionEn "2024" "1" "PRG1" JNull;
   inscripcionEn "2024" "1" "EST1" (JStr "61")].
End WithNumber.
End EjemplosValidacion.

(* ================================================================= *)
(** ** The results of the two retrievals *)

Module SpecRespuesta.
Import Model.
Local Open Scope string_scope.

Section WithNumber.
Context {JN : JSNumber}.
Variable numberToString : num -> string.

(** The three parameters are given and the term is the Number 1 or 2. *)
Definition parametrosValidos (idEstudiante año numeroSemestre : value) : bool :=
  truthy idEstudiante && truthy año && truthy numeroSemestre
  && CalificacionService.includes_1_2 numeroSemestre.

(** The success result of [obtenerCalificacionesPorSemestre] for a
    student, a semester and the enrollments found. *)
Definition exito (estudiante : Estudiante) (semestre : Semestre)
    (inscripciones : list Inscripcion) : CalificacionService.Respuesta :=
  let cursos := map CalificacionService.procesarInscripcion inscripciones in
  {| CalificacionService.success := true;
     CalificacionService.data :=
       Some {| CalificacionService.estudiante := estudiante;
               CalificacionService.semestre := semestre;
               CalificacionService.cursos := cursos;
               CalificacionService.estadisticas :=
                 CalificacionService._calcularEstadisticasGenerales cursos |};
     CalificacionService.mensaje :=
       "Calificaciones obtenidas para "
       ++ numberToString (of_nat (List.length inscripciones)) ++ " cursos";
     CalificacionService.error := None |}.

(** The three queries of a retrieval that succeeds. *)
Definition consultas (idEstudiante año numeroSemestre : value) (semestre : Semestre)
  : list Async.Consulta :=
  [Async.SemestreFindOne año numeroSemestre;
   Async.EstudianteFindByPk idEstudiante;
   Async.InscripcionFindAll idEstudiante (id semestre)].

Variable toFixed : num -> nat -> string.
Variable stringToNumber : string -> num.
Context {JS : JSSubtraction JN}.

(** The failure and the success result of [obtenerValidacionCompleta]. *)
Definition falloValidacion (message : string) : ValidacionService.Respuesta :=
  {| ValidacionService.success := false;
     ValidacionService.data := None;
     ValidacionService.mensaje := message;
     ValidacionService.error := Some message |}.
Definition exitoValidacion (estudiante : Estudiante)
    (inscripciones : list Inscripcion) : ValidacionService.Respuesta :=
  let grupos := ValidacionService._agruparCursosPorSemestre
                  numberToString stringToNumber inscripciones in
  {| ValidacionService.success := true;
     ValidacionService.data :=
       Some {| ValidacionService.estudiante := estudiante;
               ValidacionService.cursosPorSemestre := grupos;
               ValidacionService.estadisticasGenerales :=
                 ValidacionService._calcularEstadisticasGenerales
                   numberToString inscripciones;
               ValidacionService.validacionProgresion :=
                 ValidacionService._validarProgresionAcademica
                   numberToString toFixed grupos |};
     ValidacionService.mensaje :=
       "Validación completa para "
       ++ numberToString (of_nat (List.length inscripciones)) ++ " inscripciones";
     ValidacionService.error := None |}.
End WithNumber.
End SpecRespuesta.

(* ================================================================= *)
(** ** The scale of the grades, in exact arithmetic *)

Module SpecEscala.
Import Model.

(** A finite Number between the integers [lo] and [hi]. *)
Definition entre (lo hi : Z) (x : @num Exact) : Prop :=
  match x with
  | ExactImpl.XFin q => (inject_Z lo <= this q /\ this q <= inject_Z hi)%Q
  | _ => False
  end.

(** An evaluation within the scale: when its score is present, the score
    and the weight coerce to Numbers between 0 and 100, as the columns
    [nota] and [ponderacion] validate them. *)
Definition enEscala (e : @Calificacion Exact) : Prop :=
  Spec.present e = true ->
  entre 0 100 (Spec.score e) /\ entre 0 100 (Spec.weight e).
End SpecEscala.

(* ================================================================= *)
(** ** Decimal digits *)

Module SpecDigitos.
(** The string holds decimal digits only. *)
Fixpoint soloDigitos (s : string) : bool :=
  match s with
  | EmptyString => true
  | String c s' =>
      match StrDecimalLiteral.digit c with
      | Some _ => soloDigitos s'
      | None => false
      end
  end.

(** The string does not start with a decimal digit. *)
Definition sinDigito (s : string) : bool :=
  match s with
  | EmptyString => true
  | String c _ =>
      match StrDecimalLiteral.digit c with
      | Some _ => false
      | None => true
      end
  end.

(** The integer that the decimal digits of [s] write, after the digits
    already read as [acc]. *)
Fixpoint valor (s : string) (acc : N) : N :=
  match s with
  | EmptyString => acc
  | String c s' =>
      match StrDecimalLiteral.digit c with
      | Some d => valor s' (10 * acc + d)%N
      | None => acc
      end
  end.

(** The string starts with a digit from 1 to 9. *)
Definition empiezaSinCero (s : string) : bool :=
  match s with
  | EmptyString => false
  | String c _ =>
      match StrDecimalLiteral.digit c with
      | Some d => negb (d =? 0)%N
      | None => false
      end
  end.

(** The string is empty or starts with an ASCII character that is neither
    white space, nor a sign, nor a decimal digit. *)
Definition sinEntero (s : string) : bool :=
  match s with
  | EmptyString => true
  | String c _ =>
      (nat_of_ascii c <? 128)%nat
      && negb (StrDecimalLiteral.isWhiteSpace c)
      && negb (Ascii.eqb c "+" || Ascii.eqb c "-")
      && match StrDecimalLiteral.digit c with
         | Some _ => false
         | None => true
         end
  end.
End SpecDigitos.

(* ================================================================= *)
(** ** Lemmas on the accumulating loops *)

Section LoopLemmas.
Context {JN : JSNumber}.
Import Model.

Lemma length_zero_iff_nil (A : Type) (l : list A) :
  (List.length l =? 0)%nat = true <-> l = [].
Proof.
  destruct l; simpl; split; intros H; try reflexivity; discriminate.
Qed.

(** The [forEach] of [_calcularNotaFinal] computes two independent
    left-to-right sums. *)
Lemma fold_acumular (l : list Calificacion) (a b : num) :
  fold_left CalificacionService.acumular l (a, b) =
  (fold_left add (map (fun e => Spec.score e * Spec.weight e / of_Z 100)%js l) a,
   fold_left add (map Spec.weight l) b).
Proof.
  revert a b.
  induction l as [|e l IH]; intros a b; simpl.
  - reflexivity.
  - rewrite IH. reflexivity.
Qed.

Lemma filter_tieneNota (l : list Calificacion) :
  filter CalificacionService.tieneNota l = filter Spec.present l.
Proof. reflexivity. Qed.

Lemma existsb_filter_nil (A : Type) (f : A -> bool) (l : list A) :
  existsb f l = false <-> filter f l = [].
Proof.
  induction l as [|x l IH]; simpl.
  - tauto.
  - destruct (f x); simpl.
    + split; intros H; discriminate.
    + exact IH.
Qed.

Lemma filter_idempotent (A : Type) (f : A -> bool) (l : list A) :
  filter f (filter f l) = filter f l.
Proof.
  induction l as [|x l IH]; simpl; [reflexivity|].
  destruct (f x) eqn:Hx; simpl.
  - rewrite Hx, IH. reflexivity.
  - exact IH.
Qed.

Lemma existsb_filter_same (A : Type) (f : A -> bool) (l : list A) :
  existsb f (filter f l) = existsb f l.
Proof.
  induction l as [|x l IH]; simpl; [reflexivity|].
  destruct (f x) eqn:Hx; simpl.
  - rewrite Hx. reflexivity.
  - exact IH.
Qed.

(** [_calcularNotaFinal] computes the specification's computeFinalGrade. *)
Lemma calcularNotaFinal_computeFinalGrade (l : list Calificacion) :
  CalificacionService._calcularNotaFinal l = Spec.computeFinalGrade l.
Proof.
  unfold CalificacionService._calcularNotaFinal, Spec.computeFinalGrade,
    Spec.unroundedFinalGrade.
  rewrite filter_tieneNota.
  destruct (existsb Spec.present l) eqn:Hex; simpl.
  - assert (Hne : filter Spec.present l <> []).
    { intros Hnil. apply existsb_filter_nil in Hnil. congruence. }
    destruct l as [|e l']; [discriminate Hex|].
    cbn [List.length Nat.eqb].
    destruct (filter Spec.present (e :: l')) as [|e0 l0] eqn:Hf; [congruence|].
    cbn [List.length Nat.eqb].
    rewrite fold_acumular.
    unfold Spec.weightTotal, Spec.weightedSum, Spec.suma, Spec.round2.
    rewrite Hf.
    destruct (fold_left add (map Spec.weight (e0 :: l0)) (of_Z 0) === of_Z 0)%js;
      reflexivity.
  - apply existsb_filter_nil in Hex.
    destruct l as [|e l']; [reflexivity|].
    cbn [List.length Nat.eqb]. rewrite Hex. reflexivity.
Qed.

(** Evaluations without a present score do not count. *)
Lemma computeFinalGrade_filter (l : list Calificacion) :
  Spec.computeFinalGrade (filter Spec.present l) = Spec.computeFinalGrade l.
Proof.
  unfold Spec.computeFinalGrade, Spec.unroundedFinalGrade, Spec.weightTotal,
    Spec.weightedSum.
  rewrite filter_idempotent, existsb_filter_same. reflexivity.
Qed.


End LoopLemmas.

(* ================================================================= *)
(** ** Exact arithmetic *)

Section ExactLemmas.

Lemma this_Q2Qc (q : Q) : (this (Q2Qc q) == q)%Q.
Proof. simpl. apply Qred_correct. Qed.

Lemma this_plus (x y : Qc) : (this (x + y)%Qc == this x + this y)%Q.
Proof. apply Qred_correct. Qed.

Lemma this_mult (x y : Qc) : (this (x * y)%Qc == this x * this y)%Q.
Proof. apply Qred_correct. Qed.

Lemma this_div (x y : Qc) : (this (x / y)%Qc == this x / this y)%Q.
Proof.
  unfold Qcdiv. rewrite this_mult. unfold Qcinv. rewrite this_Q2Qc. reflexivity.
Qed.

Lemma Qfloor_Qeq (x y : Q) : (x == y)%Q -> Qfloor x = Qfloor y.
Proof.
  intros H. apply Z.le_antisymm; apply Qfloor_resp_le; rewrite H; apply Qle_refl.
Qed.

Lemma XFin_eq (p q : Qc) : (this p == this q)%Q -> ExactImpl.XFin p = ExactImpl.XFin q.
Proof. intros H. f_equal. apply Qc_is_canon. exact H. Qed.

Lemma Exact_of_Z (z : Z) : @of_Z Exact z = ExactImpl.XFin (Q2Qc (inject_Z z)).
Proof.
  unfold of_Z. simpl. unfold ExactImpl.of_decimal.
  destruct (z <? 0)%Z eqn:Hz.
  - apply Z.ltb_lt in Hz. rewrite N2Z.inj_abs_N, Z.abs_neq by lia.
    rewrite Z.opp_involutive. reflexivity.
  - apply Z.ltb_ge in Hz. rewrite N2Z.inj_abs_N, Z.abs_eq by lia. reflexivity.
Qed.

Lemma Exact_of_nat (n : nat) :
  @of_nat Exact n = ExactImpl.XFin (Q2Qc (inject_Z (Z.of_nat n))).
Proof. apply Exact_of_Z. Qed.

Lemma is_zero_false (q : Qc) : q <> Q2Qc (inject_Z 0) -> ExactImpl.is_zero q = false.
Proof.
  intros Hq. unfold ExactImpl.is_zero.
  destruct (q ?= 0)%Qc eqn:Hc; try reflexivity.
  apply Qceq_alt in Hc. exfalso. apply Hq. rewrite Hc. apply Qc_is_canon. reflexivity.
Qed.

Lemma hundred_nonzero : Q2Qc (inject_Z 100) <> Q2Qc (inject_Z 0).
Proof. intros H. apply Q2Qc_eq_iff in H. discriminate H. Qed.



(** Rounding to 2 decimals in exact arithmetic: floor (100 q + 1/2) / 100. *)
Lemma Exact_round2 (q : Qc) :
  @Spec.round2 Exact (ExactImpl.XFin q)
  = ExactImpl.XFin
      (Q2Qc (inject_Z (Qfloor (q * inject_Z 100 + (1 # 2))%Q) / inject_Z 100)).
Proof.
  unfold Spec.round2. rewrite Exact_of_Z.
  assert (Hz : ExactImpl.is_zero (Q2Qc (inject_Z 100)) = false)
    by exact (is_zero_false hundred_nonzero).
  set (h := Q2Qc (inject_Z 100)) in *.
  exact_ops. rewrite Hz. f_equal.
  apply Qc_is_canon.
  rewrite this_div, !this_Q2Qc.
  rewrite (Qfloor_Qeq (x := this (q * h + Q2Qc (1 # 2))%Qc)
                      (y := (q * inject_Z 100 + (1 # 2))%Q)).
  - unfold h. rewrite this_Q2Qc. reflexivity.
  - rewrite this_plus, this_mult. unfold h. rewrite !this_Q2Qc. reflexivity.
Qed.

(** On a half-cent boundary the exact result is the upper cent. *)
Lemma Exact_round2_half (k : Z) :
  @Spec.round2 Exact (ExactImpl.XFin (Q2Qc ((2 * k + 1) # 200)))
  = ExactImpl.XFin (Q2Qc ((k + 1) # 100)).
Proof.
  rewrite Exact_round2. f_equal. apply Q2Qc_eq_iff.
  rewrite (Qfloor_Qeq (y := inject_Z (k + 1))).
  - rewrite Qfloor_Z. symmetry. apply Qmake_Qdiv.
  - rewrite this_Q2Qc. unfold Qeq, Qplus, Qmult, inject_Z.
    cbn [Qnum Qden Pos.mul]. lia.
Qed.

(** In exact arithmetic the percentage test is the test of the ratio. *)
Lemma Exact_percentage (passed total : nat) :
  (0 < total)%nat ->
  ((@of_nat Exact passed / of_nat total * of_Z 100 < of_Z 75)%js = true
   <-> (Z.of_nat passed # Pos.of_nat total < 3 # 4)%Q).
Proof.
  intros Htotal.
  rewrite !Exact_of_nat, !Exact_of_Z. unfold ltb.
  assert (Hz : ExactImpl.is_zero (Q2Qc (inject_Z (Z.of_nat total))) = false).
  { apply is_zero_false. intros H. apply Q2Qc_eq_iff in H.
    unfold Qeq, inject_Z in H. cbn [Qnum Qden] in H. lia. }
  exact_ops. rewrite Hz. exact_ops.
  set (x := (Q2Qc (inject_Z (Z.of_nat passed)) / Q2Qc (inject_Z (Z.of_nat total))
             * Q2Qc (inject_Z 100))%Qc).
  assert (Hx : (this x == (Z.of_nat passed # Pos.of_nat total) * inject_Z 100)%Q).
  { unfold x. rewrite this_mult, this_div, !this_Q2Qc.
    rewrite (Qmake_Qdiv (Z.of_nat passed) (Pos.of_nat total)).
    replace (Z.pos (Pos.of_nat total)) with (Z.of_nat total); [reflexivity|].
    rewrite <- (Nat2Pos.id total) at 1 by lia. apply positive_nat_Z. }
  split.
  - intros H.
    destruct (x ?= Q2Qc (inject_Z 75))%Qc eqn:Hc; try discriminate H.
    apply Qclt_alt in Hc. unfold Qclt in Hc. rewrite Hx, this_Q2Qc in Hc.
    change (inject_Z 100) with 100%Q in Hc. change (inject_Z 75) with 75%Q in Hc.
    lra.
  - intros H.
    assert (Hc : (x < Q2Qc (inject_Z 75))%Qc).
    { unfold Qclt. rewrite Hx, this_Q2Qc.
      change (inject_Z 100) with 100%Q. change (inject_Z 75) with 75%Q. lra. }
    assert (Hc' : (x ?= Q2Qc (inject_Z 75))%Qc = Lt) by (apply Qclt_alt; exact Hc).
    rewrite Hc'. reflexivity.
Qed.

(** Integer literals add exactly. *)
Lemma Exact_add_of_Z (a b : Z) : (@of_Z Exact a + of_Z b)%js = of_Z (a + b).
Proof.
  rewrite !Exact_of_Z. exact_ops. apply XFin_eq.
  rewrite this_plus, !this_Q2Qc, inject_Z_plus. reflexivity.
Qed.

Lemma Exact_fold_add_of_Z (l : list Z) (a : Z) :
  fold_left add (map (@of_Z Exact) l) (of_Z a) = of_Z (fold_left Z.add l a).
Proof.
  revert a. induction l as [|z l IH]; intros a; cbn [fold_left map]; [reflexivity|].
  rewrite Exact_add_of_Z. apply IH.
Qed.

Lemma Exact_gtb_of_Z (a : Z) : (0 < a)%Z -> (@of_Z Exact a > of_Z 0)%js = true.
Proof.
  intros Ha. rewrite !Exact_of_Z. unfold gtb. exact_ops.
  assert (H : (Q2Qc (inject_Z a) ?= Q2Qc (inject_Z 0))%Qc = Gt).
  { apply Qcgt_alt. unfold Qclt. rewrite !this_Q2Qc.
    unfold Qlt, inject_Z. cbn [Qnum Qden]. lia. }
  rewrite H. reflexivity.
Qed.

Lemma fold_add_positive (l : list Z) (a : Z) :
  Forall (fun z => 0 < z)%Z l ->
  (a <= fold_left Z.add l a)%Z /\ (l <> [] -> a < fold_left Z.add l a)%Z.
Proof.
  revert a. induction l as [|z l IH]; intros a Hall; simpl.
  - split; [lia|congruence].
  - inversion Hall as [|? ? Hz Hl]; subst.
    destruct (IH (a + z)%Z Hl) as [H1 _]. split; [lia|intros _; lia].
Qed.

(** In exact arithmetic, positive integers sum to a positive Number. *)
Lemma Exact_suma_positive (l : list (@num Exact)) :
  Forall (fun x => exists c : positive, x = of_Z (Zpos c)) l ->
  l <> [] ->
  (Spec.suma l > of_Z 0)%js = true.
Proof.
  intros Hall Hne.
  assert (Hl : exists zs, l = map (@of_Z Exact) zs /\ Forall (fun z => 0 < z)%Z zs).
  { clear Hne. induction Hall as [|x l (c & ->) _ (zs & -> & Hzs)].
    - exists []. split; [reflexivity|constructor].
    - exists (Zpos c :: zs). split; [reflexivity|]. constructor; [lia|exact Hzs]. }
  destruct Hl as (zs & -> & Hzs).
  unfold Spec.suma. rewrite Exact_fold_add_of_Z. apply Exact_gtb_of_Z.
  apply (fold_add_positive 0 Hzs).
  destruct zs; [contradiction Hne; reflexivity|discriminate].
Qed.

End ExactLemmas.

(* ================================================================= *)
(** ** NaN in the two arithmetics *)

#[export] Instance Float64_NaNLaws : NaNLaws Float64.
Proof.
  split; simpl.
  - intros x. apply Prim2SF_inj. rewrite add_spec. reflexivity.
  - intros x. apply Prim2SF_inj. rewrite add_spec.
    destruct (Prim2SF x); reflexivity.
  - intros x. apply Prim2SF_inj. rewrite mul_spec. reflexivity.
  - intros x. apply Prim2SF_inj. rewrite mul_spec.
    destruct (Prim2SF x); reflexivity.
  - intros x. apply Prim2SF_inj. rewrite div_spec. reflexivity.
  - intros x. apply Prim2SF_inj. rewrite div_spec.
    destruct (Prim2SF x); reflexivity.
  - reflexivity.
  - intros x. unfold Float64Impl.compare. rewrite compare_spec. reflexivity.
Qed.

#[export] Instance Exact_NaNLaws : NaNLaws Exact.
Proof.
  split; simpl; try reflexivity; intros [ | | ]; reflexivity.
Qed.

(* ================================================================= *)
(** ** Coercion and unparseable scores *)

Section Coercion.
Context {JN : JSNumber}.
Import Model.

(** Evaluations that coerce alike have the same score-bearing terms. *)
Lemma sameCoerced_terms (l l' : list Calificacion) :
  Forall2 Spec.sameCoerced l l' ->
  map (fun e => Spec.score e * Spec.weight e / of_Z 100)%js (filter Spec.present l)
  = map (fun e => Spec.score e * Spec.weight e / of_Z 100)%js (filter Spec.present l')
  /\ map Spec.weight (filter Spec.present l) = map Spec.weight (filter Spec.present l')
  /\ existsb Spec.present l = existsb Spec.present l'.
Proof.
  induction 1 as [|e e' l l' (Hp & Hs & Hw) _ (IH1 & IH2 & IH3)]; simpl.
  - repeat split.
  - rewrite <- Hp, IH3.
    destruct (Spec.present e); simpl.
    + rewrite IH1, IH2, Hs, Hw. repeat split.
    + repeat split; assumption.
Qed.

(** Once NaN, a left-to-right sum stays NaN. *)
Lemma fold_add_nan {L : NaNLaws JN} (l : list num) : fold_left add l nan = nan.
Proof.
  induction l as [|x l IH]; simpl; [reflexivity|].
  rewrite add_nan_l. exact IH.
Qed.

(** A NaN term makes the sum NaN. *)
Lemma fold_add_In_nan {L : NaNLaws JN} (l : list num) (a : num) :
  In nan l -> fold_left add l a = nan.
Proof.
  revert a.
  induction l as [|x l IH]; intros a Hin; simpl in *; [contradiction|].
  destruct Hin as [Hx | Hin].
  - subst x. rewrite add_nan_r. apply fold_add_nan.
  - apply IH. exact Hin.
Qed.

End Coercion.

(* ================================================================= *)
(** ** Semester statistics *)

Section Estadisticas.
Context {JN : JSNumber}.
Import Model.

Lemma filter_map_compose (A B : Type) (f : B -> bool) (g : A -> B) (l : list A) :
  filter f (map g l) = map g (filter (fun x => f (g x)) l).
Proof.
  induction l as [|x l IH]; simpl; [reflexivity|].
  destruct (f (g x)); simpl; rewrite IH; reflexivity.
Qed.

Lemma filter_filter_andb (A : Type) (f g : A -> bool) (l : list A) :
  filter f (filter g l) = filter (fun x => g x && f x) l.
Proof.
  induction l as [|x l IH]; simpl; [reflexivity|].
  destruct (g x); simpl; [destruct (f x)|]; rewrite IH; reflexivity.
Qed.

Lemma procesar_notaFinal (i : Inscripcion) :
  CalificacionService.notaFinal (CalificacionService.procesarInscripcion i)
  = Spec.finalGrade i.
Proof.
  unfold CalificacionService.procesarInscripcion, Spec.finalGrade. simpl.
  apply calcularNotaFinal_computeFinalGrade.
Qed.

Lemma procesar_conNota (i : Inscripcion) :
  CalificacionService.conNota (CalificacionService.procesarInscripcion i)
  = Spec.graded i.
Proof.
  unfold CalificacionService.conNota, Spec.graded.
  rewrite procesar_notaFinal. reflexivity.
Qed.

(** The [aprobado] flag of a processed enrollment says that its status is
    PASSED. *)
Lemma procesar_aprobado (i : Inscripcion) :
  aprobado (CalificacionService.estado (CalificacionService.procesarInscripcion i))
  = Spec.passed i.
Proof.
  unfold Spec.passed, Spec.status, Spec.finalGrade.
  unfold CalificacionService.procesarInscripcion. simpl.
  rewrite calcularNotaFinal_computeFinalGrade.
  destruct (Spec.computeFinalGrade (calificaciones i)) as [g|]; simpl.
  - destruct (g >= of_Z 61)%js; reflexivity.
  - reflexivity.
Qed.

Lemma passed_graded (i : Inscripcion) :
  Spec.passed i = Spec.graded i && Spec.passed i.
Proof.
  unfold Spec.passed, Spec.graded, Spec.status.
  destruct (Spec.finalGrade i); reflexivity.
Qed.

Lemma failed_graded (i : Inscripcion) :
  Spec.failed i = Spec.graded i && negb (Spec.passed i).
Proof.
  unfold Spec.failed, Spec.passed, Spec.graded, Spec.status.
  destruct (Spec.finalGrade i) as [g|]; simpl; [|reflexivity].
  destruct (g >= of_Z 61)%js; reflexivity.
Qed.

(** The [forEach] of [_calcularEstadisticasGenerales] computes three
    left-to-right sums. *)
Lemma fold_acumularCurso (l : list CalificacionService.CursoConCalificaciones)
    (a b c : num) :
  fold_left CalificacionService.acumularCurso l (a, b, c)
  = (fold_left add
       (map (fun x => CalificacionService.toNumber (CalificacionService.notaFinal x)
                      * creditos (CalificacionService.curso x))%js l) a,
     fold_left add (map (fun x => creditos (CalificacionService.curso x)) l) b,
     fold_left add
       (map (fun x => creditos (CalificacionService.curso x))
            (filter (fun x => aprobado (CalificacionService.estado x)) l)) c).
Proof.
  revert a b c.
  induction l as [|x l IH]; intros a b c; simpl; [reflexivity|].
  rewrite IH.
  destruct (aprobado (CalificacionService.estado x)); reflexivity.
Qed.

Lemma fold_creditos (l : list CalificacionService.CursoConCalificaciones) (a : num) :
  fold_left (fun sum c => sum + creditos (CalificacionService.curso c))%js l a
  = fold_left add (map (fun x => creditos (CalificacionService.curso x)) l) a.
Proof.
  revert a. induction l as [|x l IH]; intros a; simpl; [reflexivity|]. apply IH.
Qed.

(** The statistics in the terms of the specification, whatever the
    credits. *)
Lemma estadisticas_unfold (ins : list Inscripcion) :
  CalificacionService.estadisticasDeInscripciones ins
  = {| CalificacionService.totalCursos := List.length ins;
       CalificacionService.cursosCalificados := List.length (filter Spec.graded ins);
       CalificacionService.cursosAprobados := List.length (filter Spec.passed ins);
       CalificacionService.cursosReprobados := List.length (filter Spec.failed ins);
       CalificacionService.promedioGeneral :=
         match filter Spec.graded ins with
         | [] => None
         | gradedOnes =>
             let sumaNotas :=
               Spec.suma (map (fun i => Spec.grade i * Spec.credits i)%js gradedOnes) in
             let creditosConNota := Spec.suma (map Spec.credits gradedOnes) in
             Some (Spec.round2
                     (if (creditosConNota > of_Z 0)%js
                      then (sumaNotas / creditosConNota)%js
                      else of_Z 0))
         end;
       CalificacionService.creditosTotales := Spec.suma (map Spec.credits ins);
       CalificacionService.creditosAprobados :=
         Spec.suma (map Spec.credits (filter Spec.passed ins)) |}.
Proof.
  unfold CalificacionService.estadisticasDeInscripciones,
    CalificacionService._calcularEstadisticasGenerales.
  rewrite filter_map_compose.
  rewrite (filter_ext _ _ procesar_conNota).
  rewrite fold_creditos, !length_map, map_map.
  change (fun x => creditos (CalificacionService.curso
                               (CalificacionService.procesarInscripcion x)))
    with (@Spec.credits JN).
  fold (Spec.suma (map Spec.credits ins)).
  assert (Hpass : filter Spec.passed (filter Spec.graded ins) = filter Spec.passed ins).
  { rewrite filter_filter_andb. apply filter_ext. intros i.
    symmetry. apply passed_graded. }
  assert (Hfail : filter (fun i => negb (Spec.passed i)) (filter Spec.graded ins)
                  = filter Spec.failed ins).
  { rewrite filter_filter_andb. apply filter_ext. intros i.
    symmetry. apply failed_graded. }
  destruct (filter Spec.graded ins) as [|i0 l0] eqn:Hg.
  - simpl. f_equal.
    + simpl in Hpass. rewrite <- Hpass. reflexivity.
    + simpl in Hfail. rewrite <- Hfail. reflexivity.
    + simpl in Hpass. rewrite <- Hpass. reflexivity.
  - cbn [List.length Nat.eqb map].
    rewrite <- (map_cons CalificacionService.procesarInscripcion i0 l0).
    rewrite fold_acumularCurso.
    rewrite !filter_map_compose, !length_map, !map_map.
    rewrite (filter_ext _ _ procesar_aprobado).
    rewrite (filter_ext (fun x => negb (aprobado (CalificacionService.estado
                                   (CalificacionService.procesarInscripcion x))))
                        (fun i => negb (Spec.passed i))
                        (fun i => f_equal negb (procesar_aprobado i))).
    rewrite Hpass, Hfail.
    assert (Hterm : map (fun x =>
                      CalificacionService.toNumber
                        (CalificacionService.notaFinal
                           (CalificacionService.procesarInscripcion x))
                      * creditos (CalificacionService.curso
                                    (CalificacionService.procesarInscripcion x)))%js
                      (i0 :: l0)
                    = map (fun i => Spec.grade i * Spec.credits i)%js (i0 :: l0)).
    { apply map_ext. intros i. rewrite procesar_notaFinal. reflexivity. }
    rewrite Hterm.
    reflexivity.
Qed.

End Estadisticas.

(* ================================================================= *)
(** ** Strings *)

Section StringLemmas.
Local Open Scope string_scope.

Lemma startsWith_append (p s : string) : JSString.startsWith p (p ++ s) = true.
Proof.
  induction p as [|c p IH]; simpl; [reflexivity|].
  rewrite Ascii.eqb_refl. exact IH.
Qed.

Lemma includes_append (a p b : string) : JSString.includes (a ++ p ++ b) p = true.
Proof.
  induction a as [|c a IH]; simpl.
  - destruct (p ++ b) eqn:Heq; simpl; rewrite <- Heq, startsWith_append; reflexivity.
  - rewrite IH. apply orb_true_r.
Qed.

Lemma append_assoc (a b c : string) : (a ++ b) ++ c = a ++ b ++ c.
Proof.
  induction a as [|x a IH]; simpl; [reflexivity|]. rewrite IH. reflexivity.
Qed.

End StringLemmas.

(* ================================================================= *)
(** ** The progression evaluator *)

Section Progresion.
Context {JN : JSNumber}.
Variable numberToString : num -> string.
Variable toFixed : num -> nat -> string.
Import Model ValidacionService SpecProgresion.

Lemma fold_creditos_validado (l : list CursoValidado) (a : num) :
  fold_left (fun sum c => sum + creditos (curso c))%js l a
  = fold_left add (map (fun c => creditos (curso c)) l) a.
Proof.
  revert a. induction l as [|x l IH]; intros a; simpl; [reflexivity|]. apply IH.
Qed.

(** One semester: each check appends its alert or nothing, and moves its
    counter. *)
Lemma revisarSemestre_step (al : list string) (bajo rep : nat) (g : Grupo) :
  revisarSemestre numberToString toFixed (al, bajo, rep) g
  = ((al ++ alerts numberToString toFixed g)%list,
     bajo + (if lowLoad g then 1 else 0),
     rep + (if hasFailures g then 1 else 0)).
Proof.
  unfold revisarSemestre, alerts, lowLoadAlert, failuresAlert, lowPassRateAlert,
    lowLoad, hasFailures, lowPassRate, passPercentage, totalCredits, failedCourses,
    passedCourses, totalCourses, Spec.suma, push.
  rewrite fold_creditos_validado.
  set (credits := fold_left add (map (fun c => creditos (curso c)) (cursos g)) (of_Z 0)).
  set (failed := List.length (filter reprobado (cursos g))).
  set (passed := List.length (filter validado (cursos g))).
  set (total := List.length (cursos g)).
  destruct (credits < of_Z 12)%js; destruct (0 <? failed)%nat;
    destruct (0 <? total)%nat eqn:Htotal; cbn [andb];
    try (destruct (of_nat passed / of_nat total * of_Z 100 < of_Z 75)%js);
    try (destruct (of_Z 0 < of_Z 75)%js);
    cbn [andb];
    rewrite ?Nat.add_0_r, ?Nat.add_1_r, ?app_nil_r, <- ?app_assoc;
    reflexivity.
Qed.

(** The [forEach] over the semesters: the alerts of the semesters in
    order, and the two counters. *)
Lemma revisarSemestre_fold (gs : list Grupo) (al : list string) (bajo rep : nat) :
  fold_left (revisarSemestre numberToString toFixed) gs (al, bajo, rep)
  = ((al ++ flat_map (alerts numberToString toFixed) gs)%list,
     bajo + List.length (filter lowLoad gs),
     rep + List.length (filter hasFailures gs)).
Proof.
  revert al bajo rep.
  induction gs as [|g gs IH]; intros al bajo rep;
    cbn [fold_left flat_map filter List.length].
  - rewrite app_nil_r, !Nat.add_0_r. reflexivity.
  - rewrite revisarSemestre_step, IH.
    rewrite <- app_assoc.
    destruct (lowLoad g); destruct (hasFailures g); cbn [List.length];
      rewrite ?Nat.add_0_r, <- ?Nat.add_assoc; reflexivity.
Qed.

(** The result of the evaluator, field by field. *)
Lemma progresion_unfold (gs : list Grupo) :
  let r := _validarProgresionAcademica numberToString toFixed gs in
  let al := flat_map (alerts numberToString toFixed) gs in
  alertas r = al
  /\ nivel r = tier (List.length al)
  /\ requiereAtencion r = (2 <? List.length al)
  /\ semestresConReprobados r = List.length (filter hasFailures gs)
  /\ recomendaciones r
     = _generarRecomendaciones al (List.length (filter hasFailures gs)).
Proof.
  unfold _validarProgresionAcademica. rewrite revisarSemestre_fold.
  simpl app. simpl Nat.add.
  generalize (flat_map (alerts numberToString toFixed) gs). intros al.
  destruct al as [|a1 [|a2 [|a3 [|a4 [|a5 al]]]]]; repeat split.
Qed.

Lemma progresion_alertas (gs : list Grupo) :
  alertas (_validarProgresionAcademica numberToString toFixed gs)
  = flat_map (alerts numberToString toFixed) gs.
Proof. apply (progresion_unfold gs). Qed.

Lemma progresion_semestresConReprobados (gs : list Grupo) :
  semestresConReprobados (_validarProgresionAcademica numberToString toFixed gs)
  = List.length (filter hasFailures gs).
Proof. apply (progresion_unfold gs). Qed.

Lemma progresion_recomendaciones (gs : list Grupo) :
  recomendaciones (_validarProgresionAcademica numberToString toFixed gs)
  = _generarRecomendaciones (flat_map (alerts numberToString toFixed) gs)
                            (List.length (filter hasFailures gs)).
Proof. apply (progresion_unfold gs). Qed.

Lemma progresion_nivel_tier (gs : list Grupo) :
  nivel (_validarProgresionAcademica numberToString toFixed gs)
  = tier (List.length (flat_map (alerts numberToString toFixed) gs)).
Proof. apply (progresion_unfold gs). Qed.

Lemma progresion_requiereAtencion (gs : list Grupo) :
  requiereAtencion (_validarProgresionAcademica numberToString toFixed gs)
  = (2 <? List.length (flat_map (alerts numberToString toFixed) gs)).
Proof. apply (progresion_unfold gs). Qed.

(** Every alert of a semester starts with the semester's label. *)
Lemma alerts_label (g : Grupo) (a : string) :
  In a (alerts numberToString toFixed g) ->
  JSString.startsWith (descripcion (semestre g)) a = true.
Proof.
  unfold alerts, lowLoadAlert, failuresAlert, lowPassRateAlert.
  intros Hin.
  repeat (apply in_app_or in Hin; destruct Hin as [Hin | Hin]);
    [destruct (lowLoad g) | destruct (hasFailures g) | destruct (lowPassRate g)];
    simpl in Hin; try contradiction;
    destruct Hin as [<- | []]; apply startsWith_append.
Qed.

(** For a course built from an enrollment, [validado] says that the status
    is PASSED and [reprobado] that it is FAILED. *)
Lemma cursoDeInscripcion_status (i : Inscripcion) :
  validado (cursoDeInscripcion i)
  = String.eqb (codigo (estado (cursoDeInscripcion i))) Spec.PASSED
  /\ reprobado (cursoDeInscripcion i)
     = String.eqb (codigo (estado (cursoDeInscripcion i))) Spec.FAILED.
Proof.
  unfold reprobado, cursoDeInscripcion. simpl.
  destruct (_calcularNotaFinal (calificaciones i)) as [g|]; simpl.
  - destruct (g >= of_Z 61)%js; split; reflexivity.
  - split; reflexivity.
Qed.

End Progresion.

(* ================================================================= *)
(** ** Recommendations *)

Section Recomendaciones.
Context {JN : JSNumber}.
Variable numberToString : num -> string.
Variable toFixed : num -> nat -> string.
Import Model ValidacionService SpecProgresion.
Local Open Scope string_scope.

Lemma lowLoadAlert_includes (g : Grupo) :
  JSString.includes (lowLoadAlert numberToString g) "Carga académica baja" = true.
Proof.
  assert (Heq : lowLoadAlert numberToString g
                = (descripcion (semestre g) ++ ": ") ++ "Carga académica baja"
                  ++ " (" ++ numberToString (totalCredits g) ++ " créditos)").
  { unfold lowLoadAlert. rewrite append_assoc. reflexivity. }
  rewrite Heq. apply includes_append.
Qed.

Lemma lowPassRateAlert_includes (g : Grupo) :
  JSString.includes (lowPassRateAlert toFixed g) "Bajo porcentaje" = true.
Proof.
  assert (Heq : lowPassRateAlert toFixed g
                = (descripcion (semestre g) ++ ": ") ++ "Bajo porcentaje"
                  ++ " de aprobación ("
                  ++ formatearNumero toFixed (passPercentage g) 1 ++ "%)").
  { unfold lowPassRateAlert. rewrite append_assoc. reflexivity. }
  rewrite Heq. apply includes_append.
Qed.

Lemma alerts_lowLoad (gs : list Grupo) :
  existsb lowLoad gs = true ->
  existsb (fun a => JSString.includes a "Carga académica baja")
          (flat_map (alerts numberToString toFixed) gs) = true.
Proof.
  intros H. apply existsb_exists in H. destruct H as (g & Hin & Hg).
  apply existsb_exists. exists (lowLoadAlert numberToString g). split.
  - apply in_flat_map. exists g. split; [exact Hin|].
    unfold alerts. rewrite Hg. left. reflexivity.
  - apply lowLoadAlert_includes.
Qed.

Lemma alerts_lowPassRate (gs : list Grupo) :
  existsb lowPassRate gs = true ->
  existsb (fun a => JSString.includes a "Bajo porcentaje")
          (flat_map (alerts numberToString toFixed) gs) = true.
Proof.
  intros H. apply existsb_exists in H. destruct H as (g & Hin & Hg).
  apply existsb_exists. exists (lowPassRateAlert toFixed g). split.
  - apply in_flat_map. exists g. split; [exact Hin|].
    unfold alerts. rewrite Hg. apply in_or_app. right. apply in_or_app. right.
    left. reflexivity.
  - apply lowPassRateAlert_includes.
Qed.

Lemma filter_length_existsb (A : Type) (f : A -> bool) (l : list A) :
  (0 <? List.length (filter f l))%nat = existsb f l.
Proof.
  induction l as [|x l IH]; simpl; [reflexivity|].
  destruct (f x); simpl; [reflexivity|exact IH].
Qed.

(** Without alerts no semester has a failed course. *)
Lemma no_alerts_no_failures (gs : list Grupo) :
  flat_map (alerts numberToString toFixed) gs = [] ->
  List.length (filter hasFailures gs) = 0.
Proof.
  induction gs as [|g gs IH]; simpl; [reflexivity|].
  intros H. apply app_eq_nil in H. destruct H as [Hg Hgs].
  unfold alerts in Hg.
  destruct (hasFailures g).
  - apply app_eq_nil in Hg. destruct Hg as [_ Hg]. discriminate Hg.
  - apply IH. exact Hgs.
Qed.

(** What [_generarRecomendaciones] returns, by the three categories. *)
Lemma generarRecomendaciones_cases (alertas : list string) (n : nat) :
  _generarRecomendaciones alertas n
  = let failures := (0 <? n)%nat in
    let load := existsb (fun a => JSString.includes a "Carga académica baja") alertas in
    let rate := existsb (fun a => JSString.includes a "Bajo porcentaje") alertas in
    match failures, load, rate with
    | false, false, false => [keepUp; extracurricular]
    | _, _, _ =>
        ((if failures then [retake; tutoring] else [])
         ++ (if load then [increaseLoad] else [])
         ++ (if rate then [studyMethods; support] else []))%list
    end.
Proof.
  unfold _generarRecomendaciones. cbv zeta.
  destruct (0 <? n)%nat;
    destruct (existsb (fun a => JSString.includes a "Carga académica baja") alertas);
    destruct (existsb (fun a => JSString.includes a "Bajo porcentaje") alertas);
    reflexivity.
Qed.

End Recomendaciones.

(* ================================================================= *)
(** ** Input errors of the per-semester retrieval *)

Section Entrada.
Context {JN : JSNumber}.
Variable numberToString : num -> string.
Import Model Async CalificacionService SpecEntrada.

Lemma missing_falsy (v : value) : missing v = true -> truthy v = false.
Proof. destruct v; simpl; intros H; try discriminate H; reflexivity. Qed.

(** With a falsy parameter the body throws before any query. *)
Lemma falsy_parameter (db : DB) (idEstudiante año numeroSemestre : value)
    (log : list Consulta) :
  truthy idEstudiante && truthy año && truthy numeroSemestre = false ->
  obtenerCalificacionesPorSemestre numberToString db idEstudiante año numeroSemestre log
  = (Return (failure invalidParameters), log).
Proof.
  intros H.
  unfold obtenerCalificacionesPorSemestre, cuerpo, try_catch, bind, throw, ret.
  destruct (truthy idEstudiante); destruct (truthy año);
    destruct (truthy numeroSemestre); try discriminate H; reflexivity.
Qed.

(** With a term number other than the Numbers 1 and 2 the body throws
    before any query. *)
Lemma term_not_1_2 (db : DB) (idEstudiante año numeroSemestre : value)
    (log : list Consulta) :
  truthy idEstudiante && truthy año && truthy numeroSemestre = true ->
  includes_1_2 numeroSemestre = false ->
  obtenerCalificacionesPorSemestre numberToString db idEstudiante año numeroSemestre log
  = (Return (failure invalidTerm), log).
Proof.
  intros H Hterm.
  unfold obtenerCalificacionesPorSemestre, cuerpo, try_catch, bind, throw, ret.
  destruct (truthy idEstudiante); destruct (truthy año);
    destruct (truthy numeroSemestre); try discriminate H.
  rewrite Hterm. reflexivity.
Qed.

(** With valid parameters the first query is the semester lookup, and its
    answer decides. *)
Lemma valid_parameters (db : DB) (idEstudiante año numeroSemestre : value)
    (log : list Consulta) :
  truthy idEstudiante && truthy año && truthy numeroSemestre = true ->
  includes_1_2 numeroSemestre = true ->
  obtenerCalificacionesPorSemestre numberToString db idEstudiante año numeroSemestre log
  = match Semestre_findOne db año numeroSemestre with
    | Throw message =>
        (Return (failure message), push log (SemestreFindOne año numeroSemestre))
    | Return None =>
        (Return (failure ("Semestre " ++ toString numberToString numeroSemestre ++ "/"
                          ++ toString numberToString año ++ " no encontrado")),
         push log (SemestreFindOne año numeroSemestre))
    | Return (Some semestre) =>
        match Estudiante_findByPk db idEstudiante with
        | Throw message =>
            (Return (failure message),
             push (push log (SemestreFindOne año numeroSemestre))
                  (EstudianteFindByPk idEstudiante))
        | Return None =>
            (Return (failure studentNotFound),
             push (push log (SemestreFindOne año numeroSemestre))
                  (EstudianteFindByPk idEstudiante))
        | Return (Some estudiante) =>
            obtenerCalificacionesPorSemestre numberToString db idEstudiante año
              numeroSemestre log
        end
    end.
Proof.
  intros H Hterm.
  unfold obtenerCalificacionesPorSemestre, cuerpo, try_catch, bind, throw, ret, await.
  destruct (truthy idEstudiante); destruct (truthy año);
    destruct (truthy numeroSemestre); try discriminate H.
  rewrite Hterm. cbn [negb orb].
  destruct (Semestre_findOne db año numeroSemestre) as [[semestre|]|message];
    try reflexivity.
  destruct (Estudiante_findByPk db idEstudiante) as [[estudiante|]|message];
    reflexivity.
Qed.

(** Whatever the body throws is caught: the retrieval returns. *)
Lemma always_returns (db : DB) (idEstudiante año numeroSemestre : value)
    (log : list Consulta) :
  exists (r : Respuesta) (log' : list Consulta),
    obtenerCalificacionesPorSemestre numberToString db idEstudiante año numeroSemestre log
    = (Return r, log').
Proof.
  unfold obtenerCalificacionesPorSemestre, try_catch.
  destruct (cuerpo numberToString db idEstudiante año numeroSemestre log)
    as [[r | message] log'].
  - exists r, log'. reflexivity.
  - eexists. eexists. reflexivity.
Qed.

End Entrada.

(* ================================================================= *)
(** ** The services in exact arithmetic and the rational specification *)

Section Racionales.
Import Model.

Lemma numero_eq (p q : Q) : (p == q)%Q -> Exactos.numero p = Exactos.numero q.
Proof. intros H. unfold Exactos.numero. f_equal. apply Q2Qc_eq_iff. exact H. Qed.

Lemma numero_of_Z (z : Z) : @of_Z Exact z = Exactos.numero (inject_Z z).
Proof. apply Exact_of_Z. Qed.

Lemma numero_add (p q : Q) :
  (Exactos.numero p + Exactos.numero q)%js = Exactos.numero (p + q).
Proof.
  unfold Exactos.numero. exact_ops. apply XFin_eq.
  rewrite this_plus, !this_Q2Qc. reflexivity.
Qed.

Lemma numero_mul (p q : Q) :
  (Exactos.numero p * Exactos.numero q)%js = Exactos.numero (p * q).
Proof.
  unfold Exactos.numero. exact_ops. apply XFin_eq.
  rewrite this_mult, !this_Q2Qc. reflexivity.
Qed.

Lemma numero_div (p q : Q) :
  ~ (q == 0)%Q ->
  (Exactos.numero p / Exactos.numero q)%js = Exactos.numero (p / q).
Proof.
  intros Hq. unfold Exactos.numero. exact_ops.
  rewrite is_zero_false.
  - apply XFin_eq. rewrite this_div, !this_Q2Qc. reflexivity.
  - intros H. apply Q2Qc_eq_iff in H. exact (Hq H).
Qed.

Lemma numero_eqb_cero (q : Q) : (Exactos.numero q === of_Z 0)%js = Qeq_bool q 0.
Proof.
  rewrite numero_of_Z. unfold eqb, Exactos.numero. exact_ops.
  unfold Qccompare. 
  destruct (Qeq_bool q 0) eqn:E.
  - apply Qeq_bool_iff in E.
    assert (H : (this (Q2Qc q) ?= this (Q2Qc (inject_Z 0)))%Q = Eq).
    { apply Qeq_alt. rewrite !this_Q2Qc. exact E. }
    rewrite H. reflexivity.
  - destruct (this (Q2Qc q) ?= this (Q2Qc (inject_Z 0)))%Q eqn:H; try reflexivity.
    apply Qeq_alt in H. rewrite !this_Q2Qc in H.
    apply Qeq_bool_iff in H. change (inject_Z 0) with 0%Q in H. congruence.
Qed.

(** A Number is read back unchanged. *)
Lemma parseFloat_numero (q : Q) : parseFloat (JNum (Exactos.numero q)) = Exactos.numero q.
Proof.
  unfold parseFloat. rewrite numero_eqb_cero.
  destruct (Qeq_bool q 0) eqn:E; [|reflexivity].
  rewrite numero_of_Z. apply numero_eq. symmetry. apply Qeq_bool_iff. exact E.
Qed.

(** The left-to-right sum of the service is the sum of the rationals. *)
Lemma suma_numeros (l : list Q) (a : Q) :
  fold_left add (map Exactos.numero l) (Exactos.numero a)
  = Exactos.numero (a + SpecRacional.sum l).
Proof.
  revert a. induction l as [|x l IH]; intros a; cbn [map fold_left SpecRacional.sum fold_right].
  - apply numero_eq. ring.
  - rewrite numero_add, IH. apply numero_eq. fold (SpecRacional.sum l). ring.
Qed.

Lemma Spec_suma_numeros (l : list Q) :
  Spec.suma (map Exactos.numero l) = Exactos.numero (SpecRacional.sum l).
Proof.
  unfold Spec.suma. rewrite numero_of_Z, suma_numeros. apply numero_eq.
  change (inject_Z 0) with 0%Q. ring.
Qed.

Lemma present_calificacion (l : list SpecRacional.Evaluation) :
  existsb Spec.present (map Exactos.calificacion l)
  = match SpecRacional.scoreBearing l with
    | [] => false
    | _ :: _ => true
    end.
Proof.
  induction l as [|e l IH]; [reflexivity|].
  unfold SpecRacional.scoreBearing. cbn [map existsb flat_map].
  unfold Spec.present at 1. cbn [Exactos.calificacion nota].
  destruct (SpecRacional.score e); [reflexivity|].
  cbn [orb app]. exact IH.
Qed.

Lemma terminos_calificacion (l : list SpecRacional.Evaluation) :
  map (fun e => Spec.score e * Spec.weight e / of_Z 100)%js
      (filter Spec.present (map Exactos.calificacion l))
  = map Exactos.numero
        (map (fun sw => (fst sw * snd sw / 100)%Q) (SpecRacional.scoreBearing l)).
Proof.
  induction l as [|e l IH]; [reflexivity|].
  unfold SpecRacional.scoreBearing. cbn [map filter flat_map].
  unfold Spec.present at 1. cbn [Exactos.calificacion nota].
  destruct (SpecRacional.score e) as [s|] eqn:Hs.
  - cbn [app map fst snd]. f_equal; [|exact IH].
    unfold Spec.score, Spec.weight. cbn [Exactos.calificacion nota ponderacion].
    try rewrite Hs.
    rewrite !parseFloat_numero, numero_mul, numero_of_Z, numero_div.
    + reflexivity.
    + discriminate.
  - cbn [app]. exact IH.
Qed.

Lemma pesos_calificacion (l : list SpecRacional.Evaluation) :
  map Spec.weight (filter Spec.present (map Exactos.calificacion l))
  = map Exactos.numero (map snd (SpecRacional.scoreBearing l)).
Proof.
  induction l as [|e l IH]; [reflexivity|].
  unfold SpecRacional.scoreBearing. cbn [map filter flat_map].
  unfold Spec.present at 1. cbn [Exactos.calificacion nota].
  destruct (SpecRacional.score e) as [s|] eqn:Hs.
  - cbn [app map fst snd]. f_equal; [|exact IH].
    unfold Spec.weight. cbn [Exactos.calificacion ponderacion]. apply parseFloat_numero.
  - cbn [app]. exact IH.
Qed.

(** The grade before rounding, in exact arithmetic, is the one of the
    rational specification. *)
Lemma unrounded_racional (l : list SpecRacional.Evaluation) :
  Spec.unroundedFinalGrade (map Exactos.calificacion l)
  = option_map Exactos.numero (SpecRacional.unroundedFinalGrade l).
Proof.
  unfold Spec.unroundedFinalGrade, SpecRacional.unroundedFinalGrade.
  rewrite present_calificacion.
  unfold Spec.weightTotal, Spec.weightedSum.
  rewrite terminos_calificacion, pesos_calificacion, !Spec_suma_numeros.
  fold (SpecRacional.weightedSum l). fold (SpecRacional.weightTotal l).
  destruct (SpecRacional.scoreBearing l) as [|sw rest]; [reflexivity|].
  cbn [negb]. rewrite numero_eqb_cero.
  destruct (Qeq_bool (SpecRacional.weightTotal l) 0) eqn:E; [reflexivity|].
  cbn [option_map]. f_equal.
  rewrite numero_of_Z, numero_mul, numero_div; [reflexivity|].
  intros H. apply Qeq_bool_iff in H. congruence.
Qed.

(** [Math.round(x * 100) / 100] in exact arithmetic is the rounding of the
    rational specification. *)
Lemma round2_numero (q : Q) :
  Spec.round2 (Exactos.numero q) = Exactos.numero (SpecRacional.halfUp2 q).
Proof.
  unfold Exactos.numero. rewrite Exact_round2. apply XFin_eq.
  rewrite !this_Q2Qc. unfold SpecRacional.halfUp2, SpecRacional.hundredths.
  symmetry. apply (Qmake_Qdiv (Qfloor (q * 100 + (1 # 2))%Q) 100).
Qed.

(** The rounding computed is the rounding described. *)
Lemma halfUp2_rounded (q : Q) : SpecRacional.roundedHalfUp2 q (SpecRacional.halfUp2 q).
Proof.
  unfold SpecRacional.roundedHalfUp2, SpecRacional.halfUp2, SpecRacional.hundredths.
  set (k := Qfloor (q * 100 + (1 # 2))%Q).
  assert (Hle : (inject_Z k <= q * 100 + (1 # 2))%Q) by apply Qfloor_le.
  assert (Hlt : (q * 100 + (1 # 2) < inject_Z (k + 1))%Q) by apply Qlt_floor.
  rewrite inject_Z_plus in Hlt.
  assert (Hk : (k # 100 == inject_Z k * (1 # 100))%Q).
  { unfold Qeq, Qmult, inject_Z. cbn [Qnum Qden]. lia. }
  split; [exists k; reflexivity|].
  rewrite Hk. change (inject_Z 1) with 1%Q in Hlt.
  clearbody k. clear Hk.
  set (x := inject_Z k) in *. clearbody x.
  split; lra.
Qed.

(** Only one rational is a given rational rounded to 2 decimal places. *)
Lemma roundedHalfUp2_unique (q r : Q) :
  SpecRacional.roundedHalfUp2 q r -> (r == SpecRacional.halfUp2 q)%Q.
Proof.
  intros [[k Hk] [Hlo Hhi]].
  unfold SpecRacional.halfUp2, SpecRacional.hundredths.
  assert (Hk' : (k # 100 == inject_Z k * (1 # 100))%Q).
  { unfold Qeq, Qmult, inject_Z. cbn [Qnum Qden]. lia. }
  rewrite Hk in Hlo, Hhi. rewrite Hk' in Hlo, Hhi. rewrite Hk.
  assert (Hfloor : Qfloor (q * 100 + (1 # 2))%Q = k).
  { apply Z.le_antisymm.
    - apply Z.lt_succ_r. rewrite Zlt_Qlt.
      apply Qle_lt_trans with (q * 100 + (1 # 2))%Q; [apply Qfloor_le|].
      unfold Z.succ. rewrite inject_Z_plus. change (inject_Z 1) with 1%Q. lra.
    - rewrite <- (Qfloor_Z k). apply Qfloor_resp_le. lra. }
  rewrite Hfloor. reflexivity.
Qed.

(** [_calcularNotaFinal] in exact arithmetic computes the final grade of
    the rational specification. *)
Lemma calcularNotaFinal_racional (l : list SpecRacional.Evaluation) :
  CalificacionService._calcularNotaFinal (map Exactos.calificacion l)
  = option_map Exactos.numero (SpecRacional.computeFinalGrade l).
Proof.
  rewrite calcularNotaFinal_computeFinalGrade.
  unfold Spec.computeFinalGrade, SpecRacional.computeFinalGrade.
  rewrite unrounded_racional.
  destruct (SpecRacional.unroundedFinalGrade l) as [q|]; [|reflexivity].
  cbn [option_map]. f_equal. apply round2_numero.
Qed.

End Racionales.

Section PromedioRacional.
Import Model.

(** With the positive integer credits of the data model the average of
    the service is the rounded quotient. *)
Lemma promedioGeneral_exacto (enrollments : list (@Inscripcion Exact)) :
  Forall (fun i => exists c : positive, Spec.credits i = of_Z (Zpos c)) enrollments ->
  CalificacionService.promedioGeneral
    (CalificacionService.estadisticasDeInscripciones enrollments)
  = Spec.weightedAverage enrollments.
Proof.
  intros Hpos.
  rewrite estadisticas_unfold. cbn [CalificacionService.promedioGeneral].
  unfold Spec.weightedAverage.
  destruct (filter Spec.graded enrollments) as [|i0 l0] eqn:Hg; [reflexivity|].
  assert (Hsum : (Spec.suma (map Spec.credits (i0 :: l0)) > of_Z 0)%js = true).
  { apply Exact_suma_positive; [|discriminate].
    apply Forall_map. rewrite <- Hg.
    apply Forall_forall. intros i Hi. apply filter_In in Hi.
    rewrite Forall_forall in Hpos. apply Hpos. apply Hi. }
  cbv zeta. rewrite Hsum. reflexivity.
Qed.

Lemma finalGrade_inscripcion (term : Semestre) (i : SpecRacional.Enrollment) :
  Spec.finalGrade (Exactos.inscripcion term i)
  = option_map Exactos.numero
      (SpecRacional.computeFinalGrade (SpecRacional.evaluations i)).
Proof.
  unfold Spec.finalGrade. cbn [Exactos.inscripcion calificaciones].
  rewrite <- calcularNotaFinal_computeFinalGrade.
  apply calcularNotaFinal_racional.
Qed.

Lemma graded_inscripcion (term : Semestre) (i : SpecRacional.Enrollment) :
  Spec.graded (Exactos.inscripcion term i)
  = match SpecRacional.computeFinalGrade (SpecRacional.evaluations i) with
    | Some _ => true
    | None => false
    end.
Proof.
  unfold Spec.graded. rewrite finalGrade_inscripcion.
  destruct (SpecRacional.computeFinalGrade (SpecRacional.evaluations i)); reflexivity.
Qed.

Lemma grade_inscripcion (term : Semestre) (i : SpecRacional.Enrollment) (g : Q) :
  SpecRacional.computeFinalGrade (SpecRacional.evaluations i) = Some g ->
  Spec.grade (Exactos.inscripcion term i) = Exactos.numero g.
Proof.
  intros H. unfold Spec.grade. rewrite finalGrade_inscripcion, H. reflexivity.
Qed.

Lemma credits_inscripcion (term : Semestre) (i : SpecRacional.Enrollment) :
  Spec.credits (Exactos.inscripcion term i)
  = Exactos.numero (inject_Z (Zpos (SpecRacional.credits i))).
Proof. apply numero_of_Z. Qed.

Lemma notas_inscripcion (term : Semestre) (l : list SpecRacional.Enrollment) :
  map (fun i => Spec.grade i * Spec.credits i)%js
      (filter Spec.graded (map (Exactos.inscripcion term) l))
  = map Exactos.numero
        (map (fun gc => (fst gc * snd gc)%Q) (SpecRacional.gradedOnes l)).
Proof.
  induction l as [|i l IH]; [reflexivity|].
  unfold SpecRacional.gradedOnes. cbn [map filter flat_map].
  rewrite graded_inscripcion.
  destruct (SpecRacional.computeFinalGrade (SpecRacional.evaluations i)) as [g|] eqn:E.
  - cbn [app map fst snd]. f_equal; [|exact IH].
    rewrite (grade_inscripcion term i E), credits_inscripcion. apply numero_mul.
  - cbn [app]. exact IH.
Qed.

Lemma creditos_inscripcion (term : Semestre) (l : list SpecRacional.Enrollment) :
  map Spec.credits (filter Spec.graded (map (Exactos.inscripcion term) l))
  = map Exactos.numero (map snd (SpecRacional.gradedOnes l)).
Proof.
  induction l as [|i l IH]; [reflexivity|].
  unfold SpecRacional.gradedOnes. cbn [map filter flat_map].
  rewrite graded_inscripcion.
  destruct (SpecRacional.computeFinalGrade (SpecRacional.evaluations i)) as [g|] eqn:E.
  - cbn [app map fst snd]. f_equal; try exact IH; apply credits_inscripcion.
  - cbn [app]. exact IH.
Qed.

(** A sum of positive rationals is positive. *)
Lemma sum_positive (l : list Q) :
  Forall (fun c => (0 < c)%Q) l -> l <> [] -> (0 < SpecRacional.sum l)%Q.
Proof.
  intros Hall Hne. induction Hall as [|c l Hc Hl IH]; [contradiction Hne; reflexivity|].
  cbn [SpecRacional.sum fold_right]. fold (SpecRacional.sum l).
  destruct l as [|c' l'].
  - cbn. lra.
  - assert (H : (0 < SpecRacional.sum (c' :: l'))%Q) by (apply IH; discriminate).
    lra.
Qed.

Lemma gradedOnes_positive (l : list SpecRacional.Enrollment) :
  Forall (fun c => (0 < c)%Q) (map snd (SpecRacional.gradedOnes l)).
Proof.
  induction l as [|i l IH]; [constructor|].
  unfold SpecRacional.gradedOnes. cbn [flat_map].
  destruct (SpecRacional.computeFinalGrade (SpecRacional.evaluations i)) as [g|].
  - cbn [app map snd]. constructor; [|exact IH].
    unfold Qlt, inject_Z. cbn [Qnum Qden]. lia.
  - cbn [app]. exact IH.
Qed.

(** The average of the specification over Numbers, in exact arithmetic, is
    the one of the rational specification. *)
Lemma weightedAverage_racional (term : Semestre) (l : list SpecRacional.Enrollment) :
  Spec.weightedAverage (map (Exactos.inscripcion term) l)
  = option_map Exactos.numero (SpecRacional.weightedAverage l).
Proof.
  unfold Spec.weightedAverage, SpecRacional.weightedAverage,
    SpecRacional.unroundedAverage.
  pose proof (notas_inscripcion term l) as Hn.
  pose proof (creditos_inscripcion term l) as Hc.
  pose proof (gradedOnes_positive l) as Hpos.
  destruct (filter Spec.graded (map (Exactos.inscripcion term) l)) as [|i0 l0];
    destruct (SpecRacional.gradedOnes l) as [|g0 r0];
    try discriminate Hn.
  - reflexivity.
  - cbn [option_map]. f_equal.
    rewrite Hn, Hc, !Spec_suma_numeros, numero_div.
    + apply round2_numero.
    + assert (H : (0 < SpecRacional.sum (map snd (g0 :: r0)))%Q)
        by (apply sum_positive; [exact Hpos|discriminate]).
      lra.
Qed.

(** [promedioGeneral] in exact arithmetic is the weighted average of the
    rational specification. *)
Lemma promedioGeneral_racional (term : Semestre) (l : list SpecRacional.Enrollment) :
  CalificacionService.promedioGeneral
    (CalificacionService.estadisticasDeInscripciones (map (Exactos.inscripcion term) l))
  = option_map Exactos.numero (SpecRacional.weightedAverage l).
Proof.
  rewrite promedioGeneral_exacto; [apply weightedAverage_racional|].
  apply Forall_forall. intros i Hi. apply in_map_iff in Hi.
  destruct Hi as (e & <- & _). exists (SpecRacional.credits e). reflexivity.
Qed.
End PromedioRacional.

(* ================================================================= *)
(** ** Theorems *)

(** C1.  For every list of evaluations and in every arithmetic, binary64
    included, [_calcularNotaFinal] has the shape of the specification's
    computeFinalGrade: absent when no evaluation has a present score (in
    particular on the empty list), absent when the weights of the
    score-bearing evaluations sum to 0, and otherwise
    weightedSum * 100 / weightTotal put through [Math.round(x * 100) / 100],
    both sums ranging over the score-bearing evaluations only; evaluations
    with an absent score are skipped, so removing them changes nothing.
    What the scores, the weights and the rounding are is settled against
    the rational specification, which is written without [parseFloat] and
    [Math.round]: on every list of evaluations with rational scores and
    weights, [_calcularNotaFinal] in exact arithmetic is absent exactly
    where the rational final grade is, and otherwise returns that grade
    rounded to 2 decimal places, half up: the one whole number of
    hundredths that lies at most half a hundredth above the grade and less
    than half a hundredth below it ([roundedHalfUp2_unique]).  On binary64,
    four evaluations with scores and weights given as numbers and as
    strings, one of them not graded, give 81.74, where the grade before
    rounding is 81.735294117647044 and the rational specification gives
    81.74 as well; and on a grid of 1200 lists of DECIMAL(5,2) scores and
    weights, 876 of which need rounding, [_calcularNotaFinal] is absent
    where the rational specification is and otherwise returns the Number of
    the hundredths that the rational specification rounds to, except on 6
    lists, all among the 47 whose grade before rounding lies exactly on a
    half-cent, where it returns the hundredth below. *)
Theorem calcularNotaFinal_is_computeFinalGrade :
  (forall (JN : JSNumber) (evaluations : list Model.Calificacion),
      CalificacionService._calcularNotaFinal evaluations
        = Spec.computeFinalGrade evaluations
      /\ CalificacionService._calcularNotaFinal evaluations
        = CalificacionService._calcularNotaFinal (filter Spec.present evaluations))
  /\ (forall evaluations : list SpecRacional.Evaluation,
        match SpecRacional.unroundedFinalGrade evaluations with
        | None =>
            CalificacionService._calcularNotaFinal
              (map Exactos.calificacion evaluations) = None
        | Some q =>
            exists r : Q,
              CalificacionService._calcularNotaFinal
                (map Exactos.calificacion evaluations) = Some (Exactos.numero r)
              /\ SpecRacional.roundedHalfUp2 q r
        end)
  /\ (CalificacionService._calcularNotaFinal Ejemplos.notasRenormalizadas
        = Some (Ejemplos.f64 "81.74")
      /\ Spec.unroundedFinalGrade Ejemplos.notasRenormalizadas
         = Some (Ejemplos.f64 "81.735294117647044")
      /\ SpecRacional.computeFinalGrade Ejemplos.evaluacionesRenormalizadas
         = Some (8174 # 100)%Q)
  /\ forallb Centesimos.concuerda (Centesimos.rejilla 200) = true
  /\ List.length (filter Centesimos.redondea (Centesimos.rejilla 200)) = 876
  /\ List.length (filter Centesimos.empate (Centesimos.rejilla 200)) = 47
  /\ List.length (filter Centesimos.inferior (Centesimos.rejilla 200)) = 6.
Proof.
  split.
  { intros JN evaluations. split.
    - apply calcularNotaFinal_computeFinalGrade.
    - rewrite !calcularNotaFinal_computeFinalGrade.
      symmetry. apply computeFinalGrade_filter. }
  split.
  { intros evaluations.
    rewrite calcularNotaFinal_racional. unfold SpecRacional.computeFinalGrade.
    destruct (SpecRacional.unroundedFinalGrade evaluations) as [q|]; [|reflexivity].
    exists (SpecRacional.halfUp2 q). split; [reflexivity|].
    apply halfUp2_rounded. }
  split; [split; [|split]; vm_compute; reflexivity|].
  split; [vm_compute; reflexivity|].
  split; [vm_compute; reflexivity|].
  split; vm_compute; reflexivity.
Qed.

(** C2.  [_determinarEstadoAprobacion] maps an absent grade to UNGRADED
    with passed = false, every grade greater than or equal to 61 to PASSED
    with passed = true, and every grade strictly below 61 to FAILED with
    passed = false, in every arithmetic; on binary64, 61 is PASSED and 60.99
    is FAILED: the threshold is inclusive at 61. *)
Theorem determinarEstadoAprobacion_threshold :
  forall JN : JSNumber,
    (Model.codigo (CalificacionService._determinarEstadoAprobacion None) = Spec.UNGRADED
     /\ Model.aprobado (CalificacionService._determinarEstadoAprobacion None) = false)
    /\ (forall g : num,
          (g >= of_Z 61)%js = true ->
          Model.codigo (CalificacionService._determinarEstadoAprobacion (Some g)) = Spec.PASSED
          /\ Model.aprobado (CalificacionService._determinarEstadoAprobacion (Some g)) = true)
    /\ (forall g : num,
          (g < of_Z 61)%js = true ->
          Model.codigo (CalificacionService._determinarEstadoAprobacion (Some g)) = Spec.FAILED
          /\ Model.aprobado (CalificacionService._determinarEstadoAprobacion (Some g)) = false)
    /\ Model.codigo (CalificacionService._determinarEstadoAprobacion
                       (Some (Ejemplos.f64 "61"))) = Spec.PASSED
    /\ Model.codigo (CalificacionService._determinarEstadoAprobacion
                       (Some (Ejemplos.f64 "60.99"))) = Spec.FAILED.
Proof.
  intros JN.
  assert (Hge : forall g : num,
             (g >= of_Z 61)%js = true ->
             CalificacionService._determinarEstadoAprobacion (Some g)
             = {| Model.codigo := "APROBADO"; Model.descripcion := "Aprobado";
                  Model.aprobado := true; Model.color := "success" |}).
  { intros g Hg. unfold CalificacionService._determinarEstadoAprobacion.
    rewrite Hg. reflexivity. }
  assert (Hlt : forall g : num,
             (g < of_Z 61)%js = true ->
             CalificacionService._determinarEstadoAprobacion (Some g)
             = {| Model.codigo := "REPROBADO"; Model.descripcion := "Reprobado";
                  Model.aprobado := false; Model.color := "danger" |}).
  { intros g Hg. unfold CalificacionService._determinarEstadoAprobacion.
    unfold ltb in Hg. unfold geb.
    destruct (compare g (of_Z 61)) as [[ | | ]|]; try discriminate Hg.
    reflexivity. }
  split; [split; reflexivity|].
  split; [intros g Hg; rewrite (Hge g Hg); split; reflexivity|].
  split; [intros g Hg; rewrite (Hlt g Hg); split; reflexivity|].
  split; vm_compute; reflexivity.
Qed.

(** C3.  For the enrollments of one term, in every arithmetic: totalCourses
    counts all enrollments, gradedCourses those with a present final grade,
    passedCourses and failedCourses those whose status is PASSED and FAILED,
    totalCredits sums the credits of all enrollments, ungraded included,
    passedCredits those of the passed enrollments, and weightedAverage is
    absent when no enrollment is graded and otherwise, the graded credits
    summing to a positive Number, the sum of finalGrade * credits over the
    graded enrollments divided by the sum of their credits, rounded to 2
    decimals.  The credit counts of the data model are positive integers:
    in exact arithmetic they sum to a positive Number, and weightedAverage
    is that quotient for every group of enrollments.  On binary64, Course A
    (4 credits, scores 90 and 80 of weight 50) and Course B (3 credits, no
    evaluations) give totalCourses 2, gradedCourses 1, passedCourses 1,
    failedCourses 0, weightedAverage 85, totalCredits 7 and
    passedCredits 4.  What the rounding to 2 decimals is, is settled against
    the rational specification, which is written without [Math.round]: on
    every group of enrollments with positive integer credits and rational
    scores and weights, [promedioGeneral] in exact arithmetic is absent
    exactly where the rational average is, and otherwise is that average
    rounded to 2 decimal places, half up.  On binary64, Course A, Course D
    (3 credits, score 70.5) and Course B give the average 551.5 / 7 rounded
    to 78.79, as the rational specification does. *)
Theorem estadisticas_semestre :
  forall (JN : JSNumber) (enrollments : list Model.Inscripcion),
    let st := CalificacionService.estadisticasDeInscripciones enrollments in
    CalificacionService.totalCursos st = List.length enrollments
    /\ CalificacionService.cursosCalificados st
       = List.length (filter Spec.graded enrollments)
    /\ CalificacionService.cursosAprobados st
       = List.length (filter Spec.passed enrollments)
    /\ CalificacionService.cursosReprobados st
       = List.length (filter Spec.failed enrollments)
    /\ CalificacionService.creditosTotales st
       = Spec.suma (map Spec.credits enrollments)
    /\ CalificacionService.creditosAprobados st
       = Spec.suma (map Spec.credits (filter Spec.passed enrollments))
    /\ (filter Spec.graded enrollments = [] ->
        CalificacionService.promedioGeneral st = None)
    /\ ((Spec.suma (map Spec.credits (filter Spec.graded enrollments)) > of_Z 0)%js = true ->
        CalificacionService.promedioGeneral st = Spec.weightedAverage enrollments)
    /\ (forall exactEnrollments : list (@Model.Inscripcion Exact),
          Forall (fun i => exists c : positive, Spec.credits i = of_Z (Zpos c))
                 exactEnrollments ->
          CalificacionService.promedioGeneral
            (CalificacionService.estadisticasDeInscripciones exactEnrollments)
          = Spec.weightedAverage exactEnrollments)
    /\ (let scenario :=
          CalificacionService.estadisticasDeInscripciones
            [Ejemplos.cursoA; Ejemplos.cursoB] in
        CalificacionService.totalCursos scenario = 2
        /\ CalificacionService.cursosCalificados scenario = 1
        /\ CalificacionService.cursosAprobados scenario = 1
        /\ CalificacionService.cursosReprobados scenario = 0
        /\ CalificacionService.creditosTotales scenario = Ejemplos.f64 "7"
        /\ CalificacionService.creditosAprobados scenario = Ejemplos.f64 "4"
        /\ CalificacionService.promedioGeneral scenario = Some (Ejemplos.f64 "85.00"))
    /\ (forall (term : @Model.Semestre Exact)
               (rationalEnrollments : list SpecRacional.Enrollment),
          let promedio :=
            CalificacionService.promedioGeneral
              (CalificacionService.estadisticasDeInscripciones
                 (map (Exactos.inscripcion term) rationalEnrollments)) in
          match SpecRacional.unroundedAverage rationalEnrollments with
          | None => promedio = None
          | Some q =>
              exists r : Q,
                promedio = Some (Exactos.numero r) /\ SpecRacional.roundedHalfUp2 q r
          end)
    /\ (CalificacionService.promedioGeneral
          (CalificacionService.estadisticasDeInscripciones
             [Ejemplos.cursoA; Ejemplos.cursoD; Ejemplos.cursoB])
        = Some (Ejemplos.f64 "78.79")
        /\ SpecRacional.weightedAverage Ejemplos.matriculas = Some (7879 # 100)%Q).
Proof.
  intros JN enrollments st. subst st.
  rewrite estadisticas_unfold. cbn [CalificacionService.totalCursos
    CalificacionService.cursosCalificados CalificacionService.cursosAprobados
    CalificacionService.cursosReprobados CalificacionService.promedioGeneral
    CalificacionService.creditosTotales CalificacionService.creditosAprobados].
  repeat (split; [reflexivity|]).
  split; [intros ->; reflexivity|].
  split.
  { unfold Spec.weightedAverage.
    destruct (filter Spec.graded enrollments) as [|i0 l0]; [reflexivity|].
    intros ->. reflexivity. }
  split; [exact promedioGeneral_exacto|].
  split; [cbv zeta; repeat split; vm_compute; reflexivity|].
  split.
  { intros term rationalEnrollments. cbv zeta.
    rewrite promedioGeneral_racional. unfold SpecRacional.weightedAverage.
    destruct (SpecRacional.unroundedAverage rationalEnrollments) as [q|];
      [|reflexivity].
    exists (SpecRacional.halfUp2 q). split; [reflexivity|].
    apply halfUp2_rounded. }
  split; vm_compute; reflexivity.
Qed.

(** C3 (witness): Course A and Course B on binary64; the graded credits
    sum to 4. *)
Lemma estadisticas_semestre_witness :
  let enrollments := [Ejemplos.cursoA; Ejemplos.cursoB] in
  (Spec.suma (map Spec.credits (filter Spec.graded enrollments)) > of_Z 0)%js = true
  /\ CalificacionService.promedioGeneral
       (CalificacionService.estadisticasDeInscripciones enrollments)
     = Spec.weightedAverage enrollments.
Proof.
  intros enrollments.
  assert (H : (Spec.suma (map Spec.credits (filter Spec.graded enrollments)) > of_Z 0)%js
              = true) by (vm_compute; reflexivity).
  split; [exact H|].
  pose proof (estadisticas_semestre enrollments)
    as (_ & _ & _ & _ & _ & _ & _ & Havg & _).
  exact (Havg H).
Defined.

(** C4.  For every ordered sequence of semester groups, in every
    arithmetic, the alerts of the progression evaluator are those of the
    semesters in order, each semester contributing: the low-load alert
    exactly when its credits sum to less than 12, the failures alert exactly
    when it has at least one failed course, and the low-approval alert
    exactly when it has at least one course and the passed courses over the
    total, times 100, are below 75; the semesters-with-failures counter
    counts the semesters with a failed course; every alert starts with the
    label of its semester; a course built from an enrollment is failed when
    its status is FAILED.  In exact arithmetic the percentage test is the
    ratio of passed courses to total courses being strictly below 0.75. *)
Theorem progresion_alertas_por_semestre :
  forall (JN : JSNumber) (numberToString : num -> string)
         (toFixed : num -> nat -> string) (semesters : list ValidacionService.Grupo),
    let r := ValidacionService._validarProgresionAcademica numberToString toFixed
               semesters in
    ValidacionService.alertas r
      = flat_map (SpecProgresion.alerts numberToString toFixed) semesters
    /\ ValidacionService.semestresConReprobados r
       = List.length (filter SpecProgresion.hasFailures semesters)
    /\ (forall (g : ValidacionService.Grupo) (a : string),
          In a (SpecProgresion.alerts numberToString toFixed g) ->
          JSString.startsWith
            (ValidacionService.descripcion (ValidacionService.semestre g)) a = true)
    /\ (forall i : Model.Inscripcion,
          ValidacionService.reprobado (ValidacionService.cursoDeInscripcion i)
          = String.eqb
              (Model.codigo
                 (ValidacionService.estado (ValidacionService.cursoDeInscripcion i)))
              Spec.FAILED)
    /\ (forall g : @ValidacionService.Grupo Exact,
          SpecProgresion.lowPassRate g = true
          <-> (0 < SpecProgresion.totalCourses g)%nat
              /\ (Z.of_nat (SpecProgresion.passedCourses g)
                    # Pos.of_nat (SpecProgresion.totalCourses g) < 3 # 4)%Q).
Proof.
  intros JN numberToString toFixed semesters r. subst r.
  split; [apply progresion_alertas|].
  split; [apply progresion_semestresConReprobados|].
  split; [intros g a; apply alerts_label|].
  split; [intros i; apply cursoDeInscripcion_status|].
  intros g. unfold SpecProgresion.lowPassRate, SpecProgresion.passPercentage.
  destruct (0 <? SpecProgresion.totalCourses g) eqn:Htotal; cbn [andb].
  - apply Nat.ltb_lt in Htotal.
    rewrite (Exact_percentage _ Htotal). tauto.
  - apply Nat.ltb_ge in Htotal. split; [discriminate|]. intros [H _]. lia.
Qed.

(** C5.  For every progression evaluation, in every arithmetic, the tier
    is that of the alert count: EXCELLENT for 0 alerts, GOOD for 1 or 2,
    FAIR for 3 or 4, POOR for 5 or more; the needs-attention flag is true
    exactly when the count exceeds 2.  On binary64, five semesters of 9
    credits without failure contribute one alert each: the tier is POOR and
    the flag is true; one such semester alone gives one alert, the tier GOOD
    and the flag false. *)
Theorem progresion_nivel :
  forall (JN : JSNumber) (numberToString : num -> string)
         (toFixed : num -> nat -> string) (semesters : list ValidacionService.Grupo),
    let r := ValidacionService._validarProgresionAcademica numberToString toFixed
               semesters in
    ValidacionService.nivel r
      = SpecProgresion.tier (List.length (ValidacionService.alertas r))
    /\ ValidacionService.requiereAtencion r
       = (2 <? List.length (ValidacionService.alertas r))
    /\ (forall (numberToString : @num Float64 -> string)
               (toFixed : @num Float64 -> nat -> string),
          let five := ValidacionService._validarProgresionAcademica
                        numberToString toFixed Ejemplos.cincoSemestres in
          map (@List.length string)
              (map (SpecProgresion.alerts numberToString toFixed) Ejemplos.cincoSemestres)
            = [1; 1; 1; 1; 1]
          /\ List.length (ValidacionService.alertas five) = 5
          /\ ValidacionService.nivel five = SpecProgresion.POOR
          /\ ValidacionService.requiereAtencion five = true)
    /\ (forall (numberToString : @num Float64 -> string)
               (toFixed : @num Float64 -> nat -> string),
          let one := ValidacionService._validarProgresionAcademica
                       numberToString toFixed [Ejemplos.semestre9 "1° Semestre 2024"] in
          List.length (ValidacionService.alertas one) = 1
          /\ ValidacionService.nivel one = SpecProgresion.GOOD
          /\ ValidacionService.requiereAtencion one = false).
Proof.
  intros JN numberToString toFixed semesters r. subst r.
  rewrite progresion_nivel_tier, progresion_requiereAtencion, progresion_alertas.
  split; [reflexivity|]. split; [reflexivity|].
  split.
  - intros nts tf five. subst five.
    repeat split; vm_compute; reflexivity.
  - intros nts tf one. subst one.
    repeat split; vm_compute; reflexivity.
Qed.

(** C6.  What the rounding does on a half-cent.  In exact arithmetic every
    value on a 0.005 boundary rounds to the upper cent, as the specification asks.
    On binary64 a final grade computed as 85.555 rounds to 85.56, and so
    does every binary64 Number below 1000 that lies exactly on a half-cent;
    but scores 35.1 and 62.65 with weights 90 and 10 give the pre-rounding
    Number 37.855, and [_calcularNotaFinal] returns 37.85, the lower cent,
    where exact arithmetic gives 37.86. *)
Theorem redondeo_medio_centavo :
  (forall k : Z,
      @Spec.round2 Exact (ExactImpl.XFin (Q2Qc ((2 * k + 1) # 200)))
      = ExactImpl.XFin (Q2Qc ((k + 1) # 100)))
  /\ (Spec.round2 (Ejemplos.f64 "85.555") = Ejemplos.f64 "85.56"
      /\ CalificacionService._calcularNotaFinal
           [@Ejemplos.evaluacionTexto Float64 "85.555" "100"]
         = Some (Ejemplos.f64 "85.56"))
  /\ forallb (fun j => (Spec.round2 (Ejemplos.octavo j) === Ejemplos.centavoSuperior j)%js)
             (Ejemplos.impares 4000) = true
  /\ (Spec.unroundedFinalGrade (@Ejemplos.notas37855 Float64)
        = Some (Ejemplos.f64 "37.855")
      /\ CalificacionService._calcularNotaFinal (@Ejemplos.notas37855 Float64)
         = Some (Ejemplos.f64 "37.85")
      /\ (Ejemplos.f64 "37.85" === Ejemplos.f64 "37.86")%js = false)
  /\ (Spec.unroundedFinalGrade (@Ejemplos.notas37855 Exact)
        = Some (Ejemplos.exacto "37.855")
      /\ CalificacionService._calcularNotaFinal (@Ejemplos.notas37855 Exact)
         = Some (Ejemplos.exacto "37.86")).
Proof.
  split; [exact Exact_round2_half|].
  split; [split; vm_compute; reflexivity|].
  split; [vm_compute; reflexivity|].
  split; [repeat split; vm_compute; reflexivity|].
  split; vm_compute; f_equal; apply XFin_eq; reflexivity.
Qed.

(** C7 (counterexample).  On binary64, the list with the single evaluation
    of score ["abc"] and weight ["100"]: the score is present and
    unparseable, the evaluation is not skipped and the grade returned is
    NaN, whereas with the evaluation skipped the grade is absent. *)
Lemma unparseable_score_not_skipped :
  let evaluations := [@Ejemplos.evaluacionTexto Float64 "abc" "100"] in
  CalificacionService._calcularNotaFinal evaluations = Some nan
  /\ Spec.isNaN (@nan Float64) = true
  /\ List.length (Spec.skipUnparseable evaluations) = 0
  /\ CalificacionService._calcularNotaFinal (Spec.skipUnparseable evaluations) = None.
Proof.
  cbv zeta. repeat split; vm_compute; reflexivity.
Qed.

(** C7 (amended).  In every arithmetic where NaN absorbs the operations
    (binary64 is one): [_calcularNotaFinal] returns, on every list, [null]
    or a Number; it reads scores and weights through [parseFloat], so that
    lists that coerce alike get the same grade, whether the values arrive as
    numbers or as numeric strings; it skips exactly the evaluations whose
    score is [null] or [undefined]; and an evaluation whose score is present
    but unparseable is not skipped: the grade is then NaN, unless the weight
    total is 0 and the grade absent; an unparseable weight beside a present
    score makes the grade NaN as well. *)
Theorem calcularNotaFinal_coercion :
  forall (JN : JSNumber) (L : NaNLaws JN) (evaluations : list Model.Calificacion),
    (exists r : option num, CalificacionService._calcularNotaFinal evaluations = r)
    /\ (forall evaluations' : list Model.Calificacion,
          Forall2 Spec.sameCoerced evaluations evaluations' ->
          CalificacionService._calcularNotaFinal evaluations
          = CalificacionService._calcularNotaFinal evaluations')
    /\ CalificacionService._calcularNotaFinal evaluations
       = CalificacionService._calcularNotaFinal (filter Spec.present evaluations)
    /\ ((exists e, In e evaluations /\ Spec.present e = true /\ Spec.score e = nan) ->
        CalificacionService._calcularNotaFinal evaluations
        = if (Spec.weightTotal evaluations === of_Z 0)%js then None else Some nan)
    /\ ((exists e, In e evaluations /\ Spec.present e = true /\ Spec.weight e = nan) ->
        CalificacionService._calcularNotaFinal evaluations = Some nan).
Proof.
  intros JN L evaluations.
  split; [eexists; reflexivity|].
  split.
  { intros evaluations' Hsame.
    rewrite !calcularNotaFinal_computeFinalGrade.
    unfold Spec.computeFinalGrade, Spec.unroundedFinalGrade, Spec.weightTotal,
      Spec.weightedSum.
    destruct (sameCoerced_terms Hsame) as (-> & -> & ->). reflexivity. }
  split.
  { rewrite !calcularNotaFinal_computeFinalGrade.
    symmetry. apply computeFinalGrade_filter. }
  split.
  { intros (e & Hin & Hp & Hs).
    rewrite calcularNotaFinal_computeFinalGrade.
    unfold Spec.computeFinalGrade, Spec.unroundedFinalGrade.
    assert (Hex : existsb Spec.present evaluations = true).
    { apply existsb_exists. exists e. split; assumption. }
    rewrite Hex. simpl.
    destruct (Spec.weightTotal evaluations === of_Z 0)%js; [reflexivity|].
    assert (Hsum : Spec.weightedSum evaluations = nan).
    { unfold Spec.weightedSum, Spec.suma. apply fold_add_In_nan.
      apply in_map_iff. exists e. split.
      - rewrite Hs, mul_nan_l, div_nan_l. reflexivity.
      - apply filter_In. split; assumption. }
    rewrite Hsum. cbn [option_map]. unfold Spec.round2.
    rewrite mul_nan_l, div_nan_l, mul_nan_l, round_nan, div_nan_l. reflexivity. }
  intros (e & Hin & Hp & Hw).
  rewrite calcularNotaFinal_computeFinalGrade.
  unfold Spec.computeFinalGrade, Spec.unroundedFinalGrade.
  assert (Hex : existsb Spec.present evaluations = true).
  { apply existsb_exists. exists e. split; assumption. }
  rewrite Hex. simpl.
  assert (Htotal : Spec.weightTotal evaluations = nan).
  { unfold Spec.weightTotal, Spec.suma. apply fold_add_In_nan.
    apply in_map_iff. exists e. split; [exact Hw|].
    apply filter_In. split; assumption. }
  rewrite Htotal. unfold eqb. rewrite compare_nan_l.
  cbn [option_map]. unfold Spec.round2.
  rewrite div_nan_r, mul_nan_l, round_nan, div_nan_l. reflexivity.
Qed.

(** C7 (witness): the amended statement on binary64, at a list with an
    unparseable score beside a numeric string and a number. *)
Lemma calcularNotaFinal_coercion_witness :
  let evaluations :=
    [@Ejemplos.evaluacionTexto Float64 "abc" "40";
     Ejemplos.evaluacionTexto "90" "30";
     Ejemplos.evaluacion "80" "30"] in
  (exists e, In e evaluations /\ Spec.present e = true /\ Spec.score e = nan)
  /\ CalificacionService._calcularNotaFinal evaluations
     = if (Spec.weightTotal evaluations === of_Z 0)%js then None else Some nan.
Proof.
  intros evaluations.
  assert (H : exists e, In e evaluations /\ Spec.present e = true /\ Spec.score e = nan).
  { exists (@Ejemplos.evaluacionTexto Float64 "abc" "40").
    split; [left; reflexivity|]. split; reflexivity. }
  split; [exact H|].
  exact (proj1 (proj2 (proj2 (proj2
           (calcularNotaFinal_coercion Float64_NaNLaws evaluations)))) H).
Defined.




(** The same equation evaluated on binary64, on lists whose weight total
    is exactly 100 as the service adds it up: it holds at three lists, at
    the 2310 lists of a grid of cent-valued scores with whole weights, and
    at 1000 lists with weights w and 100 - w that have decimals, although on
    some lists of the grid the renormalized value differs from the simple
    weighted sum before it is rounded. *)
Lemma pesos_100_binary64 :
  forallb Ejemplos.sinEfecto
    [Ejemplos.notas9080; Ejemplos.notas37855;
     [Ejemplos.evaluacion "70.38" "30"; Ejemplos.evaluacion "91.07" "45";
      Ejemplos.evaluacionTexto "55.5" "25"]]
  = true
  /\ forallb Ejemplos.sinEfecto (Ejemplos.rejilla 770) = true
  /\ existsb Ejemplos.renormalizada (Ejemplos.rejilla 770) = true
  /\ forallb (fun l => Ejemplos.sinEfecto (Centesimos.binarias l))
             (Centesimos.complementarias 1000) = true.
Proof.
  split; [vm_compute; reflexivity|].
  split; [vm_compute; reflexivity|].
  split; vm_compute; reflexivity.
Qed.

(** C9.  For every data-access layer and every log of earlier queries, in
    every arithmetic: with a missing student id, year or term number the
    retrieval returns the failure result that carries the required-parameters
    message; with a term number that is not the Number 1 or 2 it returns a
    failure result that carries that message or the message that the term
    must be 1 or 2, the latter when the three parameters are given; in both
    cases it returns rather than throws and the log is unchanged: no query is
    sent.  With valid parameters, a semester that is not found gives the
    failure result naming the semester, after that single query, and a
    student that is not found gives the student-not-found failure result,
    after the two lookups.  On every input the retrieval returns a result:
    whatever is thrown inside is caught. *)
Theorem obtenerCalificaciones_entrada_invalida :
  forall (JN : JSNumber) (numberToString : num -> string) (db : Async.DB)
         (idEstudiante año numeroSemestre : value) (log : list Async.Consulta),
    let run :=
      CalificacionService.obtenerCalificacionesPorSemestre numberToString db
        idEstudiante año numeroSemestre log in
    (SpecEntrada.missing idEstudiante || SpecEntrada.missing año
       || SpecEntrada.missing numeroSemestre = true ->
     run = (Async.Return (SpecEntrada.failure SpecEntrada.invalidParameters), log))
    /\ (CalificacionService.includes_1_2 numeroSemestre = false ->
        exists message : string,
          run = (Async.Return (SpecEntrada.failure message), log)
          /\ (message = SpecEntrada.invalidParameters
              \/ message = SpecEntrada.invalidTerm
                 /\ truthy idEstudiante && truthy año && truthy numeroSemestre = true))
    /\ (truthy idEstudiante && truthy año && truthy numeroSemestre = true ->
        CalificacionService.includes_1_2 numeroSemestre = true ->
        (Async.Semestre_findOne db año numeroSemestre = Async.Return None ->
         run = (Async.Return
                  (SpecEntrada.failure
                     ("Semestre " ++ CalificacionService.toString numberToString numeroSemestre
                      ++ "/" ++ CalificacionService.toString numberToString año
                      ++ " no encontrado")%string),
                push log (Async.SemestreFindOne año numeroSemestre)))
        /\ (forall semestre : Model.Semestre,
              Async.Semestre_findOne db año numeroSemestre = Async.Return (Some semestre) ->
              Async.Estudiante_findByPk db idEstudiante = Async.Return None ->
              run = (Async.Return (SpecEntrada.failure SpecEntrada.studentNotFound),
                     push (push log (Async.SemestreFindOne año numeroSemestre))
                          (Async.EstudianteFindByPk idEstudiante))))
    /\ (exists (r : CalificacionService.Respuesta) (log' : list Async.Consulta),
          run = (Async.Return r, log')).
Proof.
  intros JN numberToString db idEstudiante año numeroSemestre log run. subst run.
  split; [|split; [|split]].
  - intros Hmissing. apply falsy_parameter.
    apply orb_true_iff in Hmissing. destruct Hmissing as [Hmissing | Hn].
    + apply orb_true_iff in Hmissing. destruct Hmissing as [Hi | Ha].
      * rewrite (missing_falsy _ Hi). reflexivity.
      * rewrite (missing_falsy _ Ha). apply andb_false_iff. left.
        apply andb_false_r.
    + rewrite (missing_falsy _ Hn). apply andb_false_r.
  - intros Hterm.
    destruct (truthy idEstudiante && truthy año && truthy numeroSemestre) eqn:Hall.
    + exists SpecEntrada.invalidTerm. split.
      * apply term_not_1_2; assumption.
      * right. split; reflexivity.
    + exists SpecEntrada.invalidParameters. split.
      * apply falsy_parameter. exact Hall.
      * left. reflexivity.
  - intros Hall Hterm. split.
    + intros Hsem. rewrite (valid_parameters _ _ _ _ _ _ Hall Hterm), Hsem.
      reflexivity.
    + intros semestre Hsem Hest.
      rewrite (valid_parameters _ _ _ _ _ _ Hall Hterm), Hsem, Hest.
      reflexivity.
  - apply always_returns.
Qed.

(** C9 (witness): on binary64, a missing year; the term number 3; and the
    term number 1 of 2024 asked of a data-access layer that knows no
    semester, then of one that knows the semester and no student. *)
Lemma obtenerCalificaciones_entrada_invalida_witness :
  let id := JNum (Ejemplos.f64 "7") in
  let y := JNum (Ejemplos.f64 "2024") in
  let run := CalificacionService.obtenerCalificacionesPorSemestre Ejemplos.sinDigitos in
  run Ejemplos.sinDatos id JUndefined (JNum (Ejemplos.f64 "1")) []
    = (Async.Return (SpecEntrada.failure SpecEntrada.invalidParameters), [])
  /\ (exists message : string,
        run Ejemplos.sinDatos id y (JNum (Ejemplos.f64 "3")) []
          = (Async.Return (SpecEntrada.failure message), [])
        /\ (message = SpecEntrada.invalidParameters
            \/ message = SpecEntrada.invalidTerm
               /\ truthy id && truthy y && truthy (JNum (Ejemplos.f64 "3")) = true))
  /\ run Ejemplos.sinEstudiante id y (JNum (Ejemplos.f64 "1")) []
     = (Async.Return (SpecEntrada.failure SpecEntrada.studentNotFound),
        [Async.SemestreFindOne y (JNum (Ejemplos.f64 "1"));
         Async.EstudianteFindByPk id]).
Proof.
  intros id y run.
  pose proof (obtenerCalificaciones_entrada_invalida Ejemplos.sinDigitos
                Ejemplos.sinDatos id JUndefined (JNum (Ejemplos.f64 "1")) [])
    as (H1 & _ & _ & _).
  pose proof (obtenerCalificaciones_entrada_invalida Ejemplos.sinDigitos
                Ejemplos.sinDatos id y (JNum (Ejemplos.f64 "3")) [])
    as (_ & H2 & _ & _).
  pose proof (obtenerCalificaciones_entrada_invalida Ejemplos.sinDigitos
                Ejemplos.sinEstudiante id y (JNum (Ejemplos.f64 "1")) [])
    as (_ & _ & H3 & _).
  split; [apply H1; reflexivity|].
  split; [apply H2; reflexivity|].
  apply (proj2 (H3 eq_refl eq_refl) Ejemplos.semestre2024_1); reflexivity.
Defined.

(** C10.  The recommendations are never empty, on every alert list and
    every count of semesters with failures: failures present contribute the
    retake and tutoring recommendations, a low-load alert the increase of
    the course load, a low-approval alert the study-method review and the
    psycho-pedagogical support, and when none of the three applies the two
    positive-reinforcement recommendations are returned instead.  For the
    progression evaluator, in every arithmetic: a semester with a failed
    course, a semester of low load and a semester of low approval each bring
    their recommendations, and without any alert the recommendations are the
    two positive ones. *)
Theorem recomendaciones_no_vacias :
  forall (alertas : list string) (semestresConReprobados : nat),
    let recs := ValidacionService._generarRecomendaciones alertas semestresConReprobados in
    recs <> []
    /\ ((0 < semestresConReprobados)%nat ->
        In SpecProgresion.retake recs /\ In SpecProgresion.tutoring recs)
    /\ (existsb (fun a => JSString.includes a "Carga académica baja") alertas = true ->
        In SpecProgresion.increaseLoad recs)
    /\ (existsb (fun a => JSString.includes a "Bajo porcentaje") alertas = true ->
        In SpecProgresion.studyMethods recs /\ In SpecProgresion.support recs)
    /\ (semestresConReprobados = 0%nat ->
        existsb (fun a => JSString.includes a "Carga académica baja") alertas = false ->
        existsb (fun a => JSString.includes a "Bajo porcentaje") alertas = false ->
        recs = [SpecProgresion.keepUp; SpecProgresion.extracurricular])
    /\ (forall (JN : JSNumber) (numberToString : num -> string)
               (toFixed : num -> nat -> string)
               (semesters : list ValidacionService.Grupo),
          let r := ValidacionService._validarProgresionAcademica numberToString toFixed
                     semesters in
          ValidacionService.recomendaciones r <> []
          /\ (existsb SpecProgresion.hasFailures semesters = true ->
              In SpecProgresion.retake (ValidacionService.recomendaciones r)
              /\ In SpecProgresion.tutoring (ValidacionService.recomendaciones r))
          /\ (existsb SpecProgresion.lowLoad semesters = true ->
              In SpecProgresion.increaseLoad (ValidacionService.recomendaciones r))
          /\ (existsb SpecProgresion.lowPassRate semesters = true ->
              In SpecProgresion.studyMethods (ValidacionService.recomendaciones r)
              /\ In SpecProgresion.support (ValidacionService.recomendaciones r))
          /\ (ValidacionService.alertas r = [] ->
              ValidacionService.recomendaciones r
              = [SpecProgresion.keepUp; SpecProgresion.extracurricular])).
Proof.
  assert (Hfun : forall (alertas : list string) (n : nat),
             let recs := ValidacionService._generarRecomendaciones alertas n in
             recs <> []
             /\ ((0 <? n)%nat = true ->
                 In SpecProgresion.retake recs /\ In SpecProgresion.tutoring recs)
             /\ (existsb (fun a => JSString.includes a "Carga académica baja") alertas
                 = true -> In SpecProgresion.increaseLoad recs)
             /\ (existsb (fun a => JSString.includes a "Bajo porcentaje") alertas = true ->
                 In SpecProgresion.studyMethods recs /\ In SpecProgresion.support recs)
             /\ ((0 <? n)%nat = false ->
                 existsb (fun a => JSString.includes a "Carga académica baja") alertas
                 = false ->
                 existsb (fun a => JSString.includes a "Bajo porcentaje") alertas = false ->
                 recs = [SpecProgresion.keepUp; SpecProgresion.extracurricular])).
  { intros alertas n recs. subst recs.
    rewrite generarRecomendaciones_cases. cbv zeta.
    destruct (0 <? n)%nat;
      destruct (existsb (fun a => JSString.includes a "Carga académica baja") alertas);
      destruct (existsb (fun a => JSString.includes a "Bajo porcentaje") alertas);
      cbn [app];
      (split; [discriminate|]);
      (split; [intros H; try discriminate H; split; simpl; tauto|]);
      (split; [intros H; try discriminate H; simpl; tauto|]);
      (split; [intros H; try discriminate H; split; simpl; tauto|]);
      intros H1 H2 H3; try discriminate; reflexivity. }
  intros alertas n recs.
  destruct (Hfun alertas n) as (Hne & Hf & Hl & Hr & Hnone). fold recs in Hne, Hf, Hl, Hr, Hnone.
  split; [exact Hne|].
  split; [intros Hn; apply Hf; apply Nat.ltb_lt; exact Hn|].
  split; [exact Hl|]. split; [exact Hr|].
  split; [intros Hn; apply Hnone; subst n; reflexivity|].
  intros JN numberToString toFixed semesters r. subst r.
  rewrite progresion_recomendaciones, progresion_alertas.
  destruct (Hfun (flat_map (SpecProgresion.alerts numberToString toFixed) semesters)
                 (List.length (filter SpecProgresion.hasFailures semesters)))
    as (Hne' & Hf' & Hl' & Hr' & Hnone').
  split; [exact Hne'|].
  split; [intros H; apply Hf'; rewrite filter_length_existsb; exact H|].
  split; [intros H; apply Hl'; apply alerts_lowLoad; exact H|].
  split; [intros H; apply Hr'; apply alerts_lowPassRate; exact H|].
  intros Hnil. apply Hnone'.
  - rewrite (no_alerts_no_failures _ _ _ Hnil). reflexivity.
  - rewrite Hnil. reflexivity.
  - rewrite Hnil. reflexivity.
Qed.

(** C10 (witness): one semester with failures and a low-load alert. *)
Lemma recomendaciones_no_vacias_witness :
  let alertas := ["1° Semestre 2024: Carga académica baja (9 créditos)"%string] in
  let recs := ValidacionService._generarRecomendaciones alertas 1 in
  recs <> []
  /\ In SpecProgresion.retake recs /\ In SpecProgresion.tutoring recs
  /\ In SpecProgresion.increaseLoad recs.
Proof.
  intros alertas recs.
  pose proof (recomendaciones_no_vacias alertas 1) as (Hne & Hf & Hl & _).
  destruct (Hf Nat.lt_0_1) as [Hretake Htutoring].
  split; [exact Hne|].
  split; [exact Hretake|].
  split; [exact Htutoring|].
  apply Hl. reflexivity.
Defined.

(* ================================================================= *)
(** ** Lemmas on the statistics of the academic record *)

Section EstadisticasGenerales.
Context {JN : JSNumber}.
Variable numberToString : num -> string.
Import Model ValidacionService SpecValidacion.

(** One step of the [forEach], by the class of the enrollment. *)
Lemma contarInscripcion_step (i : Inscripcion) (a r p : nat) (ct ca s cc : num) :
  contarInscripcion (a, r, p, ct, ca, s, cc) i
  = ((a + if aprobada i then 1 else 0)%nat,
     (r + if reprobada i then 1 else 0)%nat,
     (p + if pendiente i then 1 else 0)%nat,
     (ct + creditosDe i)%js,
     (if aprobada i then ca + creditosDe i else ca)%js,
     (if calificada i then s + notaFinalDe i * creditosDe i else s)%js,
     (if calificada i then cc + creditosDe i else cc)%js).
Proof.
  unfold contarInscripcion, aprobada, reprobada, calificada, pendiente,
    notaFinalDe, creditosDe, cursoDeInscripcion, reprobado.
  cbn [validado notaFinal].
  destruct (_calcularNotaFinal (calificaciones i)) as [g|].
  - destruct (g >= of_Z 61)%js; cbn [negb];
      rewrite ?Nat.add_0_r, ?Nat.add_1_r; reflexivity.
  - cbn [negb]. rewrite ?Nat.add_0_r, ?Nat.add_1_r. reflexivity.
Qed.

(** The [forEach] of [_calcularEstadisticasGenerales] counts the three
    classes of enrollments and computes four left-to-right sums. *)
Lemma fold_contarInscripcion (l : list Inscripcion)
    (a r p : nat) (ct ca s cc : num) :
  fold_left contarInscripcion l (a, r, p, ct, ca, s, cc)
  = ((a + List.length (filter aprobada l))%nat,
     (r + List.length (filter reprobada l))%nat,
     (p + List.length (filter pendiente l))%nat,
     fold_left add (map creditosDe l) ct,
     fold_left add (map creditosDe (filter aprobada l)) ca,
     fold_left add (map (fun i => notaFinalDe i * creditosDe i)%js
                        (filter calificada l)) s,
     fold_left add (map creditosDe (filter calificada l)) cc).
Proof.
  revert a r p ct ca s cc.
  induction l as [|i l IH]; intros a r p ct ca s cc.
  - simpl. rewrite !Nat.add_0_r. reflexivity.
  - cbn [fold_left filter map].
    rewrite contarInscripcion_step, IH.
    destruct (aprobada i), (reprobada i), (pendiente i), (calificada i);
      cbn [List.length map fold_left];
      rewrite ?Nat.add_0_r, ?Nat.add_1_r, <- ?plus_n_Sm; reflexivity.
Qed.
End EstadisticasGenerales.

(* ================================================================= *)
(** ** Lemmas on the grouping by semester *)

Section Agrupar.
Context {JN : JSNumber}.
Variable numberToString : num -> string.
Import Model ValidacionService SpecValidacion.

Lemma buscar_None (grupos : Grupos) (clave : string) :
  buscar grupos clave = None <-> ~ In clave (map fst grupos).
Proof.
  induction grupos as [|[k g] resto IH]; simpl.
  - tauto.
  - destruct (String.eqb k clave) eqn:E.
    + apply String.eqb_eq in E. split; [discriminate|]. intros H. exfalso. auto.
    + apply String.eqb_neq in E. rewrite IH. tauto.
Qed.

Lemma buscar_existsb (grupos : Grupos) (clave : string) :
  existsb (String.eqb clave) (map fst grupos)
  = match buscar grupos clave with Some _ => true | None => false end.
Proof.
  induction grupos as [|[k g] resto IH]; simpl; [reflexivity|].
  rewrite (String.eqb_sym clave k).
  destruct (String.eqb k clave); [reflexivity|exact IH].
Qed.

Lemma agregarCurso_claves (grupos : Grupos) (clave : string) (c : CursoValidado) :
  map fst (agregarCurso grupos clave c) = map fst grupos.
Proof.
  induction grupos as [|[k g] resto IH]; simpl; [reflexivity|].
  destruct (String.eqb k clave); simpl; [reflexivity|].
  rewrite IH. reflexivity.
Qed.

(** With distinct keys, [agregarCurso] changes the group of the key and no
    other. *)
Lemma agregarCurso_In (grupos : Grupos) (clave : string) (c : CursoValidado)
    (k : string) (g : Grupo) :
  NoDup (map fst grupos) ->
  In (k, g) (agregarCurso grupos clave c) ->
  (k <> clave /\ In (k, g) grupos)
  \/ (k = clave
      /\ exists g0, In (k, g0) grupos
                    /\ g = {| semestre := semestre g0; cursos := push (cursos g0) c |}).
Proof.
  induction grupos as [|[k0 g0] resto IH]; simpl; [tauto|].
  intros Hnd Hin. inversion Hnd as [|? ? Hnotin Hnd']; subst.
  destruct (String.eqb k0 clave) eqn:E.
  - apply String.eqb_eq in E. subst k0.
    destruct Hin as [Heq | Hin].
    + inversion Heq; subst. right. split; [reflexivity|].
      exists g0. split; [left; reflexivity|reflexivity].
    + left. split.
      * intros ->. apply Hnotin. apply (in_map fst) in Hin. exact Hin.
      * right. exact Hin.
  - apply String.eqb_neq in E.
    destruct Hin as [Heq | Hin].
    + inversion Heq; subst. left. split; [exact E|left; reflexivity].
    + destruct (IH Hnd' Hin) as [[Hne H] | [-> (g1 & H & ->)]].
      * left. split; [exact Hne|right; exact H].
      * right. split; [reflexivity|]. exists g1. split; [right; exact H|reflexivity].
Qed.

(** Adding a course to a group that exists adds it to the courses of all
    the groups, taken together. *)
Lemma agregarCurso_cursos (grupos : Grupos) (clave : string) (c : CursoValidado) :
  In clave (map fst grupos) ->
  Permutation (flat_map (fun kg => cursos (snd kg)) (agregarCurso grupos clave c))
              (c :: flat_map (fun kg => cursos (snd kg)) grupos).
Proof.
  induction grupos as [|[k g] resto IH]; simpl; [tauto|].
  intros Hin.
  destruct (String.eqb k clave) eqn:E.
  - cbn [flat_map snd cursos]. unfold push.
    rewrite <- app_assoc. cbn [app].
    apply Permutation_sym. apply Permutation_cons_app.
    apply Permutation_refl.
  - apply String.eqb_neq in E.
    destruct Hin as [Heq | Hin]; [contradiction|].
    cbn [flat_map snd].
    apply Permutation_trans with (cursos g ++ c :: flat_map (fun kg => cursos (snd kg)) resto).
    + apply Permutation_app_head. apply IH. exact Hin.
    + apply Permutation_sym. apply Permutation_cons_app. apply Permutation_refl.
Qed.

Lemma agrupados_nil : agrupados numberToString [] [].
Proof.
  repeat split; simpl; try constructor; intros; contradiction.
Qed.

Lemma delSemestre_snoc (k : string) (l : list Inscripcion) (i : Inscripcion) :
  filter (delSemestre numberToString k) (l ++ [i])
  = filter (delSemestre numberToString k) l
    ++ (if String.eqb (claveSemestre numberToString (Model.semestre i)) k
        then [i] else []).
Proof.
  rewrite filter_app. reflexivity.
Qed.

Lemma agrupados_step (grupos : Grupos) (l : list Inscripcion) (i : Inscripcion) :
  agrupados numberToString grupos l ->
  agrupados numberToString (agruparInscripcion numberToString grupos i) (l ++ [i]).
Proof.
  intros (Hnd & Hkeys & Hall & Hgroups & Hperm).
  unfold agruparInscripcion.
  set (k := claveSemestre numberToString (Model.semestre i)).
  set (nuevo := {| semestre := _; cursos := [] |}).
  set (grupos1 := match buscar grupos k with Some _ => grupos | None => push grupos (k, nuevo) end).
  assert (Hkeys1 : map fst grupos1
                   = if existsb (String.eqb k) (map fst grupos)
                     then map fst grupos else push (map fst grupos) k).
  { subst grupos1. rewrite buscar_existsb.
    destruct (buscar grupos k); [reflexivity|].
    unfold push. rewrite map_app. reflexivity. }
  assert (Hnd1 : NoDup (map fst grupos1)).
  { subst grupos1. destruct (buscar grupos k) eqn:Hb; [exact Hnd|].
    unfold push. rewrite map_app. simpl.
    apply NoDup_app_remove_l with (l := []). simpl.
    apply Permutation_NoDup with (l := k :: map fst grupos).
    - apply Permutation_cons_append.
    - constructor; [|exact Hnd]. apply buscar_None. exact Hb. }
  assert (Hin1 : In k (map fst grupos1)).
  { subst grupos1. destruct (buscar grupos k) eqn:Hb.
    - destruct (in_dec string_dec k (map fst grupos)) as [H|H]; [exact H|].
      apply buscar_None in H. congruence.
    - unfold push. rewrite map_app. apply in_or_app. right. left. reflexivity. }
  assert (Hgroups1 : forall k' g, In (k', g) grupos1 ->
            In (k', g) grupos \/ (k' = k /\ g = nuevo /\ buscar grupos k = None)).
  { subst grupos1. intros k' g Hin. destruct (buscar grupos k) eqn:Hb.
    - left. exact Hin.
    - unfold push in Hin. apply in_app_or in Hin. destruct Hin as [H | [H | []]].
      + left. exact H.
      + inversion H; subst. right. auto. }
  assert (Hperm1 : Permutation (flat_map (fun kg => cursos (snd kg)) grupos1)
                               (map cursoDeInscripcion l)).
  { subst grupos1. destruct (buscar grupos k); [exact Hperm|].
    unfold push. rewrite flat_map_app. simpl. rewrite app_nil_r. exact Hperm. }
  repeat split.
  - rewrite agregarCurso_claves. exact Hnd1.
  - rewrite agregarCurso_claves, Hkeys1, map_app. unfold unicos.
    rewrite fold_left_app. cbn [map fold_left].
    fold (unicos (map (fun i0 => claveSemestre numberToString (Model.semestre i0)) l)).
    rewrite <- Hkeys. reflexivity.
  - intros i' Hi'. rewrite agregarCurso_claves.
    apply in_app_or in Hi'. destruct Hi' as [Hi' | [<- | []]].
    + specialize (Hall i' Hi'). rewrite Hkeys1.
      destruct (existsb (String.eqb k) (map fst grupos)); [exact Hall|].
      unfold push. apply in_or_app. left. exact Hall.
    + exact Hin1.
  - destruct (agregarCurso_In _ _ _ _ _ Hnd1 H) as [[Hne Hg] | [-> (g0 & Hg & ->)]].
    + destruct (Hgroups1 _ _ Hg) as [Hold | (-> & _)]; [|contradiction].
      apply Hgroups in Hold. apply Hold.
    + destruct (Hgroups1 _ _ Hg) as [Hold | (_ & -> & _)].
      * apply Hgroups in Hold. apply Hold.
      * reflexivity.
  - destruct (agregarCurso_In _ _ _ _ _ Hnd1 H) as [[Hne Hg] | [-> (g0 & Hg & ->)]].
    + destruct (Hgroups1 _ _ Hg) as [Hold | (-> & _)]; [|contradiction].
      apply Hgroups in Hold. destruct Hold as (_ & Hc & _).
      rewrite delSemestre_snoc.
      assert (E : String.eqb k k0 = false).
      { apply String.eqb_neq. intros E. apply Hne. symmetry. exact E. }
      fold k. rewrite E, app_nil_r. exact Hc.
    + rewrite delSemestre_snoc. fold k. rewrite String.eqb_refl.
      rewrite map_app. cbn [cursos map]. unfold push. f_equal.
      destruct (Hgroups1 _ _ Hg) as [Hold | (_ & -> & Hb)].
      * apply Hgroups in Hold. apply Hold.
      * cbn [cursos].
        assert (Hnone : filter (delSemestre numberToString k) l = []).
        { apply existsb_filter_nil.
          destruct (existsb (delSemestre numberToString k) l) eqn:Hex; [|reflexivity].
          apply existsb_exists in Hex. destruct Hex as (i' & Hi' & Hd).
          apply String.eqb_eq in Hd. specialize (Hall i' Hi'). rewrite Hd in Hall.
          apply buscar_None in Hb. contradiction. }
        rewrite Hnone. reflexivity.
  - destruct (agregarCurso_In _ _ _ _ _ Hnd1 H) as [[Hne Hg] | [-> (g0 & Hg & ->)]].
    + destruct (Hgroups1 _ _ Hg) as [Hold | (-> & _)]; [|contradiction].
      apply Hgroups in Hold. destruct Hold as (_ & _ & (i' & Hi' & Ha & Hn)).
      exists i'. split; [apply in_or_app; left; exact Hi'|]. split; assumption.
    + destruct (Hgroups1 _ _ Hg) as [Hold | (_ & -> & _)].
      * apply Hgroups in Hold. destruct Hold as (_ & _ & (i' & Hi' & Ha & Hn)).
        exists i'. split; [apply in_or_app; left; exact Hi'|]. split; assumption.
      * exists i. split; [apply in_or_app; right; left; reflexivity|].
        split; reflexivity.
  - rewrite map_app. cbn [map].
    apply Permutation_trans
      with (cursoDeInscripcion i :: flat_map (fun kg => cursos (snd kg)) grupos1).
    + apply agregarCurso_cursos. exact Hin1.
    + apply Permutation_trans with (cursoDeInscripcion i :: map cursoDeInscripcion l).
      * apply perm_skip. exact Hperm1.
      * apply Permutation_cons_append.
Qed.

Lemma agrupados_fold (l : list Inscripcion) (grupos : Grupos) (l0 : list Inscripcion) :
  agrupados numberToString grupos l0 ->
  agrupados numberToString (fold_left (agruparInscripcion numberToString) l grupos) (l0 ++ l).
Proof.
  revert grupos l0.
  induction l as [|i l IH]; intros grupos l0 H; simpl.
  - rewrite app_nil_r. exact H.
  - replace (l0 ++ i :: l) with ((l0 ++ [i]) ++ l)
      by (rewrite <- app_assoc; reflexivity).
    apply IH. apply agrupados_step. exact H.
Qed.
End Agrupar.

(* ================================================================= *)
(** ** Lemmas on the sort *)

Section Sort.
Context {JN : JSNumber}.
Import ValidacionService.

Lemma insertar_Permutation (A : Type) (comparefn : A -> A -> num) (x : A) (l : list A) :
  Permutation (insertar comparefn x l) (x :: l).
Proof.
  induction l as [|y l IH]; simpl.
  - apply Permutation_refl.
  - destruct (comparefn x y > of_Z 0)%js.
    + apply Permutation_trans with (y :: x :: l).
      * apply perm_skip. exact IH.
      * apply perm_swap.
    + apply Permutation_refl.
Qed.

(** Whatever the comparator, [sort] rearranges the array. *)
Lemma sort_Permutation (A : Type) (comparefn : A -> A -> num) (l : list A) :
  Permutation (sort comparefn l) l.
Proof.
  induction l as [|x l IH]; simpl.
  - apply Permutation_refl.
  - apply Permutation_trans with (x :: sort comparefn l).
    + apply insertar_Permutation.
    + apply perm_skip. exact IH.
Qed.
End Sort.

Section Agrupados.
Context {JN : JSNumber} {JS : JSSubtraction JN}.
Variable numberToString : num -> string.
Variable stringToNumber : string -> num.
Import Model ValidacionService SpecValidacion.

Lemma agrupados_fold_nil (l : list Inscripcion) :
  agrupados numberToString (fold_left (agruparInscripcion numberToString) l []) l.
Proof.
  exact (agrupados_fold l (agrupados_nil numberToString)).
Qed.

(** The groups returned are those of the loop, rearranged. *)
Lemma agrupar_Permutation (l : list Inscripcion) :
  Permutation (_agruparCursosPorSemestre numberToString stringToNumber l)
              (map snd (fold_left (agruparInscripcion numberToString) l [])).
Proof.
  unfold _agruparCursosPorSemestre. apply sort_Permutation.
Qed.

Lemma agrupados_claves (grupos : Grupos) (l : list Inscripcion) :
  agrupados numberToString grupos l ->
  map (claveDeGrupo numberToString) (map snd grupos) = map fst grupos.
Proof.
  intros (_ & _ & _ & Hg & _).
  induction grupos as [|[k g] resto IH]; simpl; [reflexivity|].
  f_equal.
  - apply (Hg k g). left. reflexivity.
  - apply IH. intros k' g' H. apply Hg. right. exact H.
Qed.

Lemma agrupados_In (grupos : Grupos) (g : Grupo) :
  In g (map snd grupos) -> exists k, In (k, g) grupos.
Proof.
  intros H. apply in_map_iff in H. destruct H as ([k g'] & <- & H).
  exists k. exact H.
Qed.

(** No two groups returned spell the same key. *)
Lemma agrupar_NoDup (l : list Inscripcion) :
  NoDup (map (claveDeGrupo numberToString)
             (_agruparCursosPorSemestre numberToString stringToNumber l)).
Proof.
  pose proof (agrupados_fold_nil l) as Hinv.
  pose proof (agrupados_claves Hinv) as Hclaves.
  destruct Hinv as (Hnd & _).
  apply Permutation_NoDup
    with (l := map fst (fold_left (agruparInscripcion numberToString) l [])).
  - rewrite <- Hclaves. apply Permutation_sym. apply Permutation_map.
    apply agrupar_Permutation.
  - exact Hnd.
Qed.
End Agrupados.

(* ================================================================= *)
(** ** Lemmas on the counters of the academic record *)

Section Contadores.
Context {JN : JSNumber}.
Variable numberToString : num -> string.
Import Model ValidacionService SpecValidacion.

(** An enrollment is in exactly one of the three classes. *)
Lemma clases_length (l : list Inscripcion) :
  (List.length (filter aprobada l) + List.length (filter reprobada l)
   + List.length (filter pendiente l) = List.length l)%nat.
Proof.
  induction l as [|i l IH]; simpl; [reflexivity|].
  unfold aprobada at 1, reprobada at 1, pendiente at 1.
  unfold cursoDeInscripcion, reprobado. cbn [validado notaFinal].
  destruct (_calcularNotaFinal (calificaciones i)) as [g|].
  - destruct (g >= of_Z 61)%js; simpl; lia.
  - simpl. lia.
Qed.

Lemma estadisticasGenerales_counts (l : list Inscripcion) :
  let st := _calcularEstadisticasGenerales numberToString l in
  totalCursos st = List.length l
  /\ cursosAprobados st = List.length (filter aprobada l)
  /\ cursosReprobados st = List.length (filter reprobada l)
  /\ cursosPendientes st = List.length (filter pendiente l)
  /\ totalSemestres st
     = List.length
         (unicos (map (fun i => claveSemestre numberToString (Model.semestre i)) l)).
Proof.
  cbv zeta. unfold _calcularEstadisticasGenerales.
  rewrite fold_contarInscripcion. cbn [totalCursos cursosAprobados cursosReprobados cursosPendientes
                  totalSemestres Nat.add].
  repeat split; reflexivity.
Qed.

Lemma Permutation_filter_length (A : Type) (f : A -> bool) (l l' : list A) :
  Permutation l l' -> List.length (filter f l) = List.length (filter f l').
Proof.
  intros H. induction H as [|x l l' _ IH|x y l|l l' l'' _ IH1 _ IH2]; simpl.
  - reflexivity.
  - destruct (f x); simpl; congruence.
  - destruct (f x), (f y); reflexivity.
  - congruence.
Qed.
End Contadores.

(* ================================================================= *)
(** ** Lemmas on the order of the groups *)

Section Orden.
Variable numberToString : @num Exact -> string.
Variable stringToNumber : string -> @num Exact.
Import Model ValidacionService SpecValidacion SpecOrden.

Lemma Exact_sub_positive (a b : Qc) :
  (@sub Exact _ (ExactImpl.XFin a) (ExactImpl.XFin b) > of_Z 0)%js = true
  <-> (b < a)%Qc.
Proof.
  unfold gtb. cbn [compare Exact ExactImpl.compare sub Exact_sub Exact_minus].
  rewrite Exact_of_Z. cbn [ExactImpl.compare].
  unfold Qccompare, Qclt.
  pose proof (this_Q2Qc (inject_Z 0)) as H0.
  assert (Hm : (this (a - b)%Qc == this a - this b)%Q).
  { unfold Qcminus, Qcopp. rewrite this_plus. rewrite this_Q2Qc. reflexivity. }
  destruct (this (a - b)%Qc ?= this (Q2Qc (inject_Z 0)))%Q eqn:E.
  - apply Qeq_alt in E. rewrite Hm, H0 in E. split; [discriminate|].
    intros Hlt. exfalso. unfold inject_Z in E. lra.
  - apply Qlt_alt in E. rewrite Hm, H0 in E. split; [discriminate|].
    intros Hlt. exfalso. unfold inject_Z in E. lra.
  - apply Qgt_alt in E. rewrite Hm, H0 in E. split; [|reflexivity].
    intros _. unfold inject_Z in E. lra.
Qed.

Lemma Exact_eqb_XFin (a b : Qc) :
  (@eqb Exact (ExactImpl.XFin a) (ExactImpl.XFin b)) = true <-> a = b.
Proof.
  unfold eqb. cbn [compare Exact ExactImpl.compare].
  destruct (a ?= b)%Qc eqn:E.
  - apply Qceq_alt in E. tauto.
  - split; [discriminate|]. intros ->.
    assert (H := proj1 (Qceq_alt b b) eq_refl). congruence.
  - split; [discriminate|]. intros ->.
    assert (H := proj1 (Qceq_alt b b) eq_refl). congruence.
Qed.

(** On groups with a period, the comparator is positive exactly when the
    first group is later than the second one. *)
Lemma compararGrupos_positive (g1 g2 : @Grupo Exact) (a1 n1 a2 n2 : Qc) :
  periodo g1 = Some (a1, n1) -> periodo g2 = Some (a2, n2) ->
  ((compararGrupos stringToNumber g1 g2 > of_Z 0)%js = true
   <-> (a2 < a1 \/ (a1 = a2 /\ n2 < n1))%Qc).
Proof.
  unfold periodo, compararGrupos. intros H1 H2.
  destruct (año (semestre g1)) as [| | |[| |x1]|]; try discriminate.
  destruct (numero (semestre g1)) as [| | |[| |y1]|]; try discriminate.
  destruct (año (semestre g2)) as [| | |[| |x2]|]; try discriminate.
  destruct (numero (semestre g2)) as [| | |[| |y2]|]; try discriminate.
  inversion H1; inversion H2; subst.
  unfold strictNotEqual, toNumber.
  destruct (@eqb Exact (ExactImpl.XFin a1) (ExactImpl.XFin a2)) eqn:E; cbn [negb].
  - apply Exact_eqb_XFin in E. subst a2. rewrite Exact_sub_positive.
    split; [intros H; right; split; [reflexivity|exact H]|].
    intros [H | [_ H]]; [|exact H]. exfalso. apply (Qclt_not_eq _ _ H). reflexivity.
  - rewrite Exact_sub_positive.
    split; [intros H; left; exact H|].
    intros [H | [-> _]]; [exact H|].
    exfalso. assert (Ht : @eqb Exact (ExactImpl.XFin a2) (ExactImpl.XFin a2) = true)
      by (apply Exact_eqb_XFin; reflexivity). congruence.
Qed.

Lemma noPosterior_total (g1 g2 : @Grupo Exact) (p1 p2 : Qc * Qc) :
  periodo g1 = Some p1 -> periodo g2 = Some p2 ->
  if (compararGrupos stringToNumber g1 g2 > of_Z 0)%js
  then noPosterior g2 g1 else noPosterior g1 g2.
Proof.
  destruct p1 as [a1 n1], p2 as [a2 n2]. intros H1 H2.
  pose proof (compararGrupos_positive g1 g2 H1 H2) as Hc.
  unfold noPosterior. rewrite H1, H2.
  destruct (compararGrupos stringToNumber g1 g2 > of_Z 0)%js.
  - destruct (proj1 Hc eq_refl) as [H | [-> H]].
    + left. exact H.
    + right. split; [reflexivity|]. apply Qclt_le_weak. exact H.
  - destruct (Qc_dec a1 a2) as [[Hlt | Hgt] | Heq].
    + left. exact Hlt.
    + exfalso. assert (false = true) by (apply Hc; left; exact Hgt). discriminate.
    + right. split; [exact Heq|].
      destruct (Qclt_le_dec n2 n1) as [Hn | Hn]; [|exact Hn].
      exfalso. assert (false = true) by (apply Hc; right; split; assumption).
      discriminate.
Qed.

Lemma noPosterior_trans (g1 g2 g3 : @Grupo Exact) :
  noPosterior g1 g2 -> noPosterior g2 g3 -> noPosterior g1 g3.
Proof.
  unfold noPosterior.
  destruct (periodo g1) as [[a1 n1]|]; [|tauto].
  destruct (periodo g2) as [[a2 n2]|]; [|tauto].
  destruct (periodo g3) as [[a3 n3]|]; [|tauto].
  intros [H12 | [-> H12]] [H23 | [-> H23]].
  - left. apply Qclt_trans with a2; assumption.
  - left. exact H12.
  - left. exact H23.
  - right. split; [reflexivity|]. apply Qcle_trans with n2; assumption.
Qed.

Lemma insertar_noPosterior (x : @Grupo Exact) (l : list (@Grupo Exact)) :
  periodo x <> None -> Forall (fun g => periodo g <> None) l ->
  StronglySorted noPosterior l ->
  StronglySorted noPosterior (insertar (compararGrupos stringToNumber) x l).
Proof.
  intros Hx Hl Hs.
  induction Hs as [|y l Hs IH Hy]; cbn [insertar].
  - constructor; constructor.
  - inversion Hl as [|? ? Hpy Hl']; subst.
    destruct (periodo x) as [px|] eqn:Ex; [|contradiction].
    destruct (periodo y) as [py|] eqn:Ey; [|contradiction].
    pose proof (noPosterior_total x y Ex Ey) as Ht.
    destruct (compararGrupos stringToNumber x y > of_Z 0)%js.
    + constructor.
      * apply IH. exact Hl'.
      * apply (Permutation_Forall (x := x :: l)).
        -- apply Permutation_sym. apply insertar_Permutation.
        -- constructor; [exact Ht|exact Hy].
    + constructor.
      * constructor; assumption.
      * constructor; [exact Ht|].
        apply Forall_impl with (P := noPosterior y); [|exact Hy].
        intros z Hz. apply noPosterior_trans with y; assumption.
Qed.

Lemma sort_noPosterior (l : list (@Grupo Exact)) :
  Forall (fun g => periodo g <> None) l ->
  StronglySorted noPosterior (sort (compararGrupos stringToNumber) l).
Proof.
  induction l as [|x l IH]; intros H.
  - constructor.
  - inversion H as [|? ? Hx Hl]; subst.
    change (sort (compararGrupos stringToNumber) (x :: l))
      with (insertar (compararGrupos stringToNumber) x
                     (sort (compararGrupos stringToNumber) l)).
    apply insertar_noPosterior.
    + exact Hx.
    + apply (Permutation_Forall (x := l)); [|exact Hl].
      apply Permutation_sym. apply sort_Permutation.
    + apply IH. exact Hl.
Qed.

(** Groups of the same period spell the same key. *)
Lemma periodo_clave (g1 g2 : @Grupo Exact) (p : Qc * Qc) :
  periodo g1 = Some p -> periodo g2 = Some p ->
  claveDeGrupo numberToString g1 = claveDeGrupo numberToString g2.
Proof.
  unfold periodo, claveDeGrupo.
  destruct (año (semestre g1)) as [| | |[| |x1]|]; try discriminate.
  destruct (numero (semestre g1)) as [| | |[| |y1]|]; try discriminate.
  destruct (año (semestre g2)) as [| | |[| |x2]|]; try discriminate.
  destruct (numero (semestre g2)) as [| | |[| |y2]|]; try discriminate.
  intros H1 H2. inversion H1; inversion H2; subst. inversion H3. reflexivity.
Qed.

(** Sorted groups with distinct keys are strictly sorted. *)
Lemma noPosterior_anterior (l : list (@Grupo Exact)) :
  NoDup (map (claveDeGrupo numberToString) l) ->
  StronglySorted noPosterior l -> StronglySorted anterior l.
Proof.
  intros Hnd Hs. induction Hs as [|x l Hs IH Hx]; [constructor|].
  simpl in Hnd. inversion Hnd as [|? ? Hnotin Hnd']; subst.
  constructor; [apply IH; exact Hnd'|].
  apply Forall_forall. intros y Hy.
  rewrite Forall_forall in Hx. specialize (Hx y Hy).
  unfold noPosterior in Hx. unfold anterior.
  destruct (periodo x) as [[a1 n1]|] eqn:E1; [|contradiction].
  destruct (periodo y) as [[a2 n2]|] eqn:E2; [|contradiction].
  destruct Hx as [H | [-> H]]; [left; exact H|].
  right. split; [reflexivity|].
  destruct (Qc_dec n1 n2) as [[Hlt | Hgt] | Heq].
  - exact Hlt.
  - exfalso. apply (Qcle_not_lt _ _ H). exact Hgt.
  - subst n2. exfalso. apply Hnotin.
    rewrite (periodo_clave x y E1 E2).
    apply in_map. exact Hy.
Qed.

(** Every group takes its period from an enrollment. *)
Lemma agrupados_periodo (grupos : Grupos) (l : list Inscripcion) :
  agrupados numberToString grupos l ->
  Forall (fun i => periodoDeInscripcion i <> None) l ->
  Forall (fun g => periodo g <> None) (map snd grupos).
Proof.
  intros (_ & _ & _ & Hg & _) Hl.
  apply Forall_forall. intros g Hin.
  destruct (agrupados_In _ _ Hin) as (k & Hk).
  destruct (Hg k g Hk) as (_ & _ & (i & Hi & Ha & Hn)).
  rewrite Forall_forall in Hl. specialize (Hl i Hi).
  unfold periodo. unfold periodoDeInscripcion in Hl.
  rewrite Ha, Hn. exact Hl.
Qed.
End Orden.

(* ================================================================= *)
(** ** Lemmas on thresholds in exact arithmetic *)

Section Umbrales.

(** In exact arithmetic the percentage of [a] over [t] reaches the
    integer [k] exactly when k * t <= 100 * a. *)
Lemma Exact_percentage_geb (a t : nat) (k : Z) :
  (0 < t)%nat ->
  ((@of_nat Exact a / of_nat t * of_Z 100 >= of_Z k)%js = true
   <-> (k * Z.of_nat t <= 100 * Z.of_nat a)%Z).
Proof.
  intros Ht.
  rewrite !Exact_of_nat, !Exact_of_Z. unfold geb.
  assert (Hz : ExactImpl.is_zero (Q2Qc (inject_Z (Z.of_nat t))) = false).
  { apply is_zero_false. intros H. apply Q2Qc_eq_iff in H.
    unfold Qeq, inject_Z in H. cbn [Qnum Qden] in H. lia. }
  exact_ops. rewrite Hz. exact_ops.
  set (x := (Q2Qc (inject_Z (Z.of_nat a)) / Q2Qc (inject_Z (Z.of_nat t))
             * Q2Qc (inject_Z 100))%Qc).
  assert (Hpos : Z.pos (Pos.of_nat t) = Z.of_nat t).
  { rewrite <- (Nat2Pos.id t) at 2 by lia. symmetry. apply positive_nat_Z. }
  assert (Hx : (this x == (Z.of_nat a * 100) # Pos.of_nat t)%Q).
  { unfold x. rewrite this_mult, this_div, !this_Q2Qc.
    rewrite <- Hpos, <- (Qmake_Qdiv (Z.of_nat a) (Pos.of_nat t)).
    unfold Qeq, Qmult, inject_Z. cbn [Qnum Qden].
    rewrite Pos.mul_1_r. reflexivity. }
  assert (Hsign : (inject_Z k <= this x)%Q <-> (k * Z.of_nat t <= 100 * Z.of_nat a)%Z).
  { rewrite Hx. unfold Qle, inject_Z. cbn [Qnum Qden]. rewrite Hpos. lia. }
  rewrite <- Hsign.
  unfold Qccompare.
  rewrite (Qcompare_comp _ _ (Qeq_refl (this x)) _ _ (this_Q2Qc (inject_Z k))).
  destruct (this x ?= inject_Z k)%Q eqn:E.
  - apply Qeq_alt in E. split; [intros _; lra|reflexivity].
  - apply Qlt_alt in E. split; [discriminate|]. intros H. exfalso. lra.
  - apply Qgt_alt in E. split; [intros _; lra|reflexivity].
Qed.

Lemma Exact_percentage_geb_tenths (a t k : nat) :
  (0 < t)%nat ->
  (@of_nat Exact a / of_nat t * of_Z 100 >= of_Z (Z.of_nat (10 * k)))%js
  = (k * t <=? 10 * a)%nat.
Proof.
  intros Ht.
  pose proof (Exact_percentage_geb a (Z.of_nat (10 * k)) Ht) as H.
  destruct (k * t <=? 10 * a)%nat eqn:E.
  - apply H. apply Nat.leb_le in E. lia.
  - apply Nat.leb_gt in E.
    destruct (@of_nat Exact a / of_nat t * of_Z 100 >= of_Z (Z.of_nat (10 * k)))%js;
      [|reflexivity].
    assert (Hle : (Z.of_nat (10 * k) * Z.of_nat t <= 100 * Z.of_nat a)%Z)
      by (apply H; reflexivity).
    lia.
Qed.
End Umbrales.

(* ================================================================= *)
(** ** Lemmas on the two retrievals *)

Section Retrievals.
Context {JN : JSNumber}.
Variable numberToString : num -> string.
Import Model Async SpecEntrada SpecRespuesta.

(** [obtenerCalificacionesPorSemestre], case by case. *)
Lemma obtenerCalificaciones_cases (db : DB) (idEstudiante año numeroSemestre : value)
    (log : list Consulta) :
  CalificacionService.obtenerCalificacionesPorSemestre numberToString db
    idEstudiante año numeroSemestre log
  = if negb (truthy idEstudiante && truthy año && truthy numeroSemestre)
    then (Return (failure invalidParameters), log)
    else if negb (CalificacionService.includes_1_2 numeroSemestre)
    then (Return (failure invalidTerm), log)
    else
      match Semestre_findOne db año numeroSemestre with
      | Throw message =>
          (Return (failure message), push log (SemestreFindOne año numeroSemestre))
      | Return None =>
          (Return (failure ("Semestre "
                            ++ CalificacionService.toString numberToString numeroSemestre
                            ++ "/" ++ CalificacionService.toString numberToString año
                            ++ " no encontrado")),
           push log (SemestreFindOne año numeroSemestre))
      | Return (Some semestre) =>
          match Estudiante_findByPk db idEstudiante with
          | Throw message =>
              (Return (failure message),
               push (push log (SemestreFindOne año numeroSemestre))
                    (EstudianteFindByPk idEstudiante))
          | Return None =>
              (Return (failure studentNotFound),
               push (push log (SemestreFindOne año numeroSemestre))
                    (EstudianteFindByPk idEstudiante))
          | Return (Some estudiante) =>
              match Inscripcion_findAll db idEstudiante (id semestre) with
              | Throw message =>
                  (Return (failure message),
                   log ++ consultas idEstudiante año numeroSemestre semestre)
              | Return inscripciones =>
                  (Return (exito numberToString estudiante semestre inscripciones),
                   log ++ consultas idEstudiante año numeroSemestre semestre)
              end
          end
      end.
Proof.
  unfold CalificacionService.obtenerCalificacionesPorSemestre,
    CalificacionService.cuerpo, try_catch, bind, throw, ret, await, consultas, push.
  destruct (truthy idEstudiante); destruct (truthy año);
    destruct (truthy numeroSemestre); try reflexivity.
  cbn [negb orb andb].
  destruct (CalificacionService.includes_1_2 numeroSemestre); [|reflexivity].
  cbn [negb].
  destruct (Semestre_findOne db año numeroSemestre) as [[semestre|]|message];
    try reflexivity.
  destruct (Estudiante_findByPk db idEstudiante) as [[estudiante|]|message];
    try reflexivity.
  destruct (Inscripcion_findAll db idEstudiante (id semestre))
    as [inscripciones|message].
  - rewrite <- !app_assoc. unfold exito. rewrite length_map. reflexivity.
  - rewrite <- !app_assoc. reflexivity.
Qed.

(** A failure result has no data and an error, and is no success. *)
Lemma failure_shape (message : string) (P : Prop) :
  ~ P ->
  (CalificacionService.success (failure message) = true
   <-> CalificacionService.data (failure message) <> None)
  /\ (CalificacionService.success (failure message) = true
      <-> CalificacionService.error (failure message) = None)
  /\ (CalificacionService.success (failure message) = true <-> P).
Proof.
  intros HP. cbn. repeat split; try discriminate.
  - intros H. exfalso. apply H. reflexivity.
  - intros H. exfalso. apply HP. exact H.
Qed.

(** A retrieval returns a failure result or the success result of the
    enrollments found. *)
Lemma obtenerCalificaciones_result (db : DB) (idEstudiante año numeroSemestre : value)
    (log : list Consulta) :
  exists log',
    (exists message,
        CalificacionService.obtenerCalificacionesPorSemestre numberToString db
          idEstudiante año numeroSemestre log
        = (Return (failure message), log'))
    \/ (exists estudiante semestre inscripciones,
           CalificacionService.obtenerCalificacionesPorSemestre numberToString db
             idEstudiante año numeroSemestre log
           = (Return (exito numberToString estudiante semestre inscripciones), log')).
Proof.
  rewrite obtenerCalificaciones_cases.
  destruct (negb (truthy idEstudiante && truthy año && truthy numeroSemestre));
    [eexists; left; eexists; reflexivity|].
  destruct (negb (CalificacionService.includes_1_2 numeroSemestre));
    [eexists; left; eexists; reflexivity|].
  destruct (Semestre_findOne db año numeroSemestre) as [[semestre|]|message];
    try (eexists; left; eexists; reflexivity).
  destruct (Estudiante_findByPk db idEstudiante) as [[estudiante|]|message];
    try (eexists; left; eexists; reflexivity).
  destruct (Inscripcion_findAll db idEstudiante (id semestre))
    as [inscripciones|message].
  - eexists. right. do 3 eexists. reflexivity.
  - eexists. left. eexists. reflexivity.
Qed.
End Retrievals.


Section RetrievalValidacion.
Context {JN : JSNumber} {JS : JSSubtraction JN}.
Variable numberToString : num -> string.
Variable toFixed : num -> nat -> string.
Variable stringToNumber : string -> num.
Import Model Async SpecRespuesta.

(** [obtenerValidacionCompleta], case by case. *)
Lemma obtenerValidacion_cases (db : ValidacionService.DB) (idEstudiante : value)
    (log : list ValidacionService.Consulta) :
  ValidacionService.obtenerValidacionCompleta numberToString toFixed stringToNumber
    db idEstudiante log
  = if negb (truthy idEstudiante)
    then (Return (falloValidacion "ID de estudiante requerido"), log)
    else
      match ValidacionService.Estudiante_findByPk db idEstudiante with
      | Throw message =>
          (Return (falloValidacion message),
           log ++ [ValidacionService.EstudianteFindByPk idEstudiante])
      | Return None =>
          (Return (falloValidacion "Estudiante no encontrado"),
           log ++ [ValidacionService.EstudianteFindByPk idEstudiante])
      | Return (Some estudiante) =>
          match ValidacionService.Inscripcion_findAll db idEstudiante with
          | Throw message =>
              (Return (falloValidacion message),
               log ++ [ValidacionService.EstudianteFindByPk idEstudiante;
                       ValidacionService.InscripcionFindAll idEstudiante])
          | Return inscripciones =>
              (Return (exitoValidacion numberToString toFixed stringToNumber
                         estudiante inscripciones),
               log ++ [ValidacionService.EstudianteFindByPk idEstudiante;
                       ValidacionService.InscripcionFindAll idEstudiante])
          end
      end.
Proof.
  unfold ValidacionService.obtenerValidacionCompleta, ValidacionService.cuerpo,
    Efecto.try_catch, Efecto.bind, Efecto.throw, Efecto.ret, Efecto.await, push.
  destruct (truthy idEstudiante); [|reflexivity].
  cbn [negb].
  destruct (ValidacionService.Estudiante_findByPk db idEstudiante)
    as [[estudiante|]|message]; try reflexivity.
  destruct (ValidacionService.Inscripcion_findAll db idEstudiante)
    as [inscripciones|message]; rewrite <- !app_assoc; reflexivity.
Qed.

(** A failure result has no data and an error, and is no success. *)
Lemma falloValidacion_shape (message : string) (P : Prop) :
  ~ P ->
  (ValidacionService.success (falloValidacion message) = true
   <-> ValidacionService.data (falloValidacion message) <> None)
  /\ (ValidacionService.success (falloValidacion message) = true
      <-> ValidacionService.error (falloValidacion message) = None)
  /\ (ValidacionService.success (falloValidacion message) = true <-> P).
Proof.
  intros HP. cbn. repeat split; try discriminate.
  - intros H. exfalso. apply H. reflexivity.
  - intros H. exfalso. apply HP. exact H.
Qed.
End RetrievalValidacion.

(* ================================================================= *)
(** ** Lemmas on the data of the charts *)

Section Graficos.
Context {JN : JSNumber}.
Import Model.

Lemma filter_negb_length (A : Type) (f : A -> bool) (l : list A) :
  List.length (filter (fun x => negb (f x)) l)
  = (List.length l - List.length (filter f l))%nat.
Proof.
  induction l as [|x l IH]; [reflexivity|].
  cbn [filter]. pose proof (filter_length_le f l) as Hle.
  destruct (f x); cbn [negb List.length]; rewrite IH; lia.
Qed.

(** A graded enrollment is passed or failed, and not both. *)
Lemma graded_passed_failed (l : list Inscripcion) :
  List.length (filter Spec.graded l)
  = (List.length (filter Spec.passed l) + List.length (filter Spec.failed l))%nat.
Proof.
  induction l as [|i l IH]; simpl; [reflexivity|].
  rewrite (passed_graded i), (failed_graded i).
  destruct (Spec.graded i); simpl; [|exact IH].
  destruct (Spec.passed i); simpl; lia.
Qed.

Lemma graficos_counts (l : list Inscripcion) :
  let cursos := map CalificacionService.procesarInscripcion l in
  List.length (filter (fun c => aprobado (CalificacionService.estado c)) cursos)
  = List.length (filter Spec.passed l)
  /\ List.length
       (filter (fun c => negb (aprobado (CalificacionService.estado c))
                         && CalificacionService.conNota c) cursos)
     = List.length (filter Spec.failed l)
  /\ List.length (filter (fun c => negb (CalificacionService.conNota c)) cursos)
     = (List.length l - List.length (filter Spec.graded l))%nat
  /\ List.length (filter CalificacionService.conNota cursos)
     = List.length (filter Spec.graded l).
Proof.
  cbv zeta. rewrite !filter_map_compose, !length_map.
  split; [|split; [|split]].
  - f_equal. apply filter_ext. apply procesar_aprobado.
  - f_equal. apply filter_ext. intros i.
    rewrite procesar_aprobado, procesar_conNota, failed_graded.
    apply andb_comm.
  - rewrite <- filter_negb_length. f_equal. apply filter_ext. intros i.
    rewrite procesar_conNota. reflexivity.
  - f_equal. apply filter_ext. apply procesar_conNota.
Qed.
End Graficos.

(* ================================================================= *)
(** ** Lemmas on the thresholds of the performance level *)

Section Niveles.

(** On binary64, a Number that reaches 70, 80 or 90 reaches 61: these
    thresholds have a greater binary exponent than 61. *)
Lemma Float64_geb_61 (x : @num Float64) (k : Z) :
  k = 70%Z \/ k = 80%Z \/ k = 90%Z ->
  (x >= of_Z k)%js = true -> (x >= of_Z 61)%js = true.
Proof.
  intros Hk. unfold geb.
  cbn [compare Float64]. unfold Float64Impl.compare.
  rewrite !compare_spec.
  assert (H61e : exists m, Prim2SF (@of_Z Float64 61) = S754_finite false m (-47))
    by (eexists; vm_compute; reflexivity).
  destruct H61e as (m61 & H61).
  assert (Hexp : exists m, Prim2SF (@of_Z Float64 k) = S754_finite false m (-46)).
  { destruct Hk as [-> | [-> | ->]]; eexists; vm_compute; reflexivity. }
  destruct Hexp as (mk & Hkf). rewrite H61, Hkf.
  destruct (Prim2SF x) as [s | s | | s m e]; cbn [SFcompare flatten_cmp_opt];
    try (destruct s; cbn; congruence); try discriminate.
  destruct s; cbn [SFcompare flatten_cmp_opt]; [intros H; discriminate H|].
  destruct (Z.compare_spec e (-46)) as [He | He | He]; cbn.
  - subst e. cbn. intros _. reflexivity.
  - intros H. discriminate H.
  - intros _.
    assert (E : (e ?= -47)%Z = Gt) by (apply Z.compare_gt_iff; lia).
    rewrite E. reflexivity.
Qed.

(** In exact arithmetic, a Number that reaches an integer reaches every
    smaller one. *)
Lemma Exact_geb_le (x : @num Exact) (k j : Z) :
  (j <= k)%Z -> (x >= of_Z k)%js = true -> (x >= of_Z j)%js = true.
Proof.
  intros Hjk. unfold geb. rewrite !Exact_of_Z.
  cbn [compare Exact].
  destruct x as [ | neg | q]; cbn [ExactImpl.compare]; try (intros H; exact H).
  unfold Qccompare.
  rewrite (Qcompare_comp _ _ (Qeq_refl (this q)) _ _ (this_Q2Qc (inject_Z k))).
  rewrite (Qcompare_comp _ _ (Qeq_refl (this q)) _ _ (this_Q2Qc (inject_Z j))).
  assert (Hq : (inject_Z j <= inject_Z k)%Q).
  { unfold Qle, inject_Z. cbn [Qnum Qden]. lia. }
  destruct (this q ?= inject_Z k)%Q eqn:Ek; try (intros H; discriminate H); intros _.
  - apply Qeq_alt in Ek.
    destruct (this q ?= inject_Z j)%Q eqn:Ej; try reflexivity.
    apply Qlt_alt in Ej. exfalso. lra.
  - apply Qgt_alt in Ek.
    destruct (this q ?= inject_Z j)%Q eqn:Ej; try reflexivity.
    apply Qlt_alt in Ej. exfalso. lra.
Qed.

(** Where 70, 80 and 90 imply 61, the lowest level is the level of the
    grades that do not pass. *)
Lemma nivel_aprobado (JN : JSNumber) (x : num) :
  (forall k : Z, k = 70%Z \/ k = 80%Z \/ k = 90%Z ->
                 (x >= of_Z k)%js = true -> (x >= of_Z 61)%js = true) ->
  (CalificacionesTemplate._determinarNivelRendimiento x = "Insatisfactorio"%string
   <-> Model.aprobado (CalificacionService._determinarEstadoAprobacion (Some x))
       = false).
Proof.
  intros H.
  unfold CalificacionesTemplate._determinarNivelRendimiento,
    CalificacionService._determinarEstadoAprobacion.
  destruct (x >= of_Z 61)%js eqn:E61.
  - cbn [Model.aprobado].
    destruct (x >= of_Z 90)%js; [split; intros Hd; discriminate Hd|].
    destruct (x >= of_Z 80)%js; [split; intros Hd; discriminate Hd|].
    destruct (x >= of_Z 70)%js; split; intros Hd; discriminate Hd.
  - cbn [Model.aprobado].
    destruct (x >= of_Z 90)%js eqn:E90.
    { discriminate (H 90%Z (or_intror (or_intror eq_refl)) E90). }
    destruct (x >= of_Z 80)%js eqn:E80.
    { discriminate (H 80%Z (or_intror (or_introl eq_refl)) E80). }
    destruct (x >= of_Z 70)%js eqn:E70.
    { discriminate (H 70%Z (or_introl eq_refl) E70). }
    split; reflexivity.
Qed.
End Niveles.

(* ================================================================= *)
(** ** Lemmas on the counters of the progression *)

Section ProgresionInvariantes.
Context {JN : JSNumber}.
Variable numberToString : num -> string.
Variable toFixed : num -> nat -> string.
Import Model ValidacionService SpecProgresion.

(** A semester contributes at most three alerts, and at least the alerts
    of a low load and of failures. *)
Lemma alerts_length (gs : list Grupo) :
  (List.length (filter lowLoad gs) + List.length (filter hasFailures gs)
   <= List.length (flat_map (alerts numberToString toFixed) gs)
   <= 3 * List.length gs)%nat.
Proof.
  induction gs as [|g gs IH]; cbn [filter flat_map List.length]; [lia|].
  rewrite length_app. unfold alerts at 1 3.
  destruct (lowLoad g), (hasFailures g), (lowPassRate g);
    cbn [List.length app]; lia.
Qed.

(** Every field of the result, in the terms of the alerts. *)
Lemma progresion_fields (gs : list Grupo) :
  let r := _validarProgresionAcademica numberToString toFixed gs in
  let al := flat_map (alerts numberToString toFixed) gs in
  alertas r = al
  /\ nivel r = tier (List.length al)
  /\ requiereAtencion r = (2 <? List.length al)%nat
  /\ semestresBajoCursos r = List.length (filter lowLoad gs)
  /\ semestresConReprobados r = List.length (filter hasFailures gs)
  /\ List.length (observaciones r) = 1%nat.
Proof.
  unfold _validarProgresionAcademica. rewrite revisarSemestre_fold.
  simpl app. simpl Nat.add.
  generalize (flat_map (alerts numberToString toFixed) gs). intros al.
  destruct al as [|a1 [|a2 [|a3 [|a4 [|a5 al]]]]]; repeat split.
Qed.
End ProgresionInvariantes.

(* ================================================================= *)
(** ** Lemmas on the validation of existing grades *)

Section ValidarExistentes.

(** What [validarCalificacionesExistentes] returns, by the result of the
    retrieval it calls. *)
Lemma validarExistentes_result :
  forall (JN : JSNumber) (numberToString : num -> string) (db : Async.DB)
         (idEstudiante año numeroSemestre : value) (log : list Async.Consulta),
    let retrieval := CalificacionService.obtenerCalificacionesPorSemestre
                       numberToString db idEstudiante año numeroSemestre log in
    let run := CalificacionService.validarCalificacionesExistentes
                 numberToString db idEstudiante año numeroSemestre log in
    exists (r : CalificacionService.Respuesta) (v : ValidacionCalificaciones.t),
      retrieval = (Async.Return r, snd retrieval)
      /\ run = (Async.Return v, snd retrieval)
      /\ ValidacionCalificaciones.error v = None
      /\ (CalificacionService.success r = false ->
          ValidacionCalificaciones.valido v = false
          /\ ValidacionCalificaciones.mensaje v = CalificacionService.mensaje r
          /\ ValidacionCalificaciones.totalCursos v = None
          /\ ValidacionCalificaciones.cursosConCalificaciones v = None)
      /\ (forall d, CalificacionService.success r = true ->
            CalificacionService.data r = Some d ->
            ValidacionCalificaciones.totalCursos v
            = Some (List.length (CalificacionService.cursos d))
            /\ ValidacionCalificaciones.cursosConCalificaciones v
               = Some (List.length (filter CalificacionService.conCalificaciones
                                           (CalificacionService.cursos d)))
            /\ (ValidacionCalificaciones.valido v = true
                <-> existsb CalificacionService.conCalificaciones
                            (CalificacionService.cursos d) = true))
      /\ (ValidacionCalificaciones.valido v = true ->
          CalificacionService.success r = true).
Proof.
  intros JN numberToString db idEstudiante año numeroSemestre log retrieval run.
  unfold run, CalificacionService.validarCalificacionesExistentes,
    Async.try_catch, Async.bind.
  fold retrieval.
  destruct (obtenerCalificaciones_result numberToString db idEstudiante año
              numeroSemestre log) as (log' & [(message & E) | (e & s & ins & E)]);
    fold retrieval in E; rewrite E; cbn [snd].
  - eexists. eexists. split; [reflexivity|].
    cbn. split; [reflexivity|]. split; [reflexivity|].
    split; [intros _; repeat split|]. split; [intros d H; discriminate H|].
    intros H. discriminate H.
  - eexists. eexists. split; [reflexivity|].
    cbn [SpecRespuesta.exito CalificacionService.success negb
         CalificacionService.data Async.ret].
    split; [reflexivity|].
    cbn [ValidacionCalificaciones.error ValidacionCalificaciones.valido
         ValidacionCalificaciones.totalCursos
         ValidacionCalificaciones.cursosConCalificaciones].
    split; [reflexivity|]. split; [intros H; discriminate H|].
    split; [|intros _; reflexivity].
    intros d _ Hd. inversion Hd; subst d. cbn [CalificacionService.cursos].
    split; [reflexivity|]. split; [reflexivity|].
    rewrite filter_length_existsb. tauto.
Qed.
End ValidarExistentes.

(* ================================================================= *)
(** ** Lemmas on the last group *)

Section Ultimo.
Variable A : Type.

Lemma last_cons (l : list A) (a b : A) : last (b :: l) a = last l b.
Proof.
  revert a b. induction l as [|c l IH]; intros a b; [reflexivity|].
  change (last (b :: c :: l) a) with (last (c :: l) a).
  rewrite (IH a c), (IH b c). reflexivity.
Qed.

Lemma last_In (l : list A) (a : A) : In (last l a) (a :: l).
Proof.
  revert a. induction l as [|c l IH]; intros a.
  - left. reflexivity.
  - right. rewrite last_cons. apply IH.
Qed.

(** In a strongly sorted list every element but the last one is related
    to the last one. *)
Lemma StronglySorted_last (R : A -> A -> Prop) (a : A) (l : list A) :
  StronglySorted R (a :: l) ->
  forall x, In x (a :: l) -> x = last l a \/ R x (last l a).
Proof.
  revert a. induction l as [|b l IH]; intros a Hs x Hin.
  - destruct Hin as [<- | []]. left. reflexivity.
  - apply StronglySorted_inv in Hs. destruct Hs as [Hs Ha].
    rewrite last_cons.
    destruct Hin as [<- | Hin].
    + right. rewrite Forall_forall in Ha. apply Ha. apply last_In.
    + apply (IH b Hs x Hin).
Qed.
End Ultimo.

(* ================================================================= *)
(** ** Lemmas on the scale of the grades *)

Section Escala.
Import Model SpecEscala.

(** One score-bearing term: between 0 and the weight. *)
Lemma termino_entre (s w : Qc) :
  (0 <= this s /\ this s <= inject_Z 100)%Q -> (0 <= this w)%Q ->
  exists t : Qc,
    (ExactImpl.XFin s * ExactImpl.XFin w / @of_Z Exact 100)%js = ExactImpl.XFin t
    /\ (0 <= this t /\ this t <= this w)%Q.
Proof.
  intros [Hs0 Hs1] Hw.
  rewrite Exact_of_Z.
  assert (Hz : ExactImpl.is_zero (Q2Qc (inject_Z 100)) = false)
    by exact (is_zero_false hundred_nonzero).
  exact_ops. rewrite Hz.
  eexists. split; [reflexivity|].
  rewrite this_div, this_mult, this_Q2Qc.
  change (inject_Z 100) with 100%Q in *.
  assert (H1 : (0 <= this s * this w)%Q) by (apply Qmult_le_0_compat; assumption).
  assert (H2 : (this s * this w <= 100 * this w)%Q).
  { apply Qmult_le_compat_r; assumption. }
  split.
  - apply Qle_shift_div_l; [reflexivity|]. lra.
  - apply Qle_shift_div_r; [reflexivity|]. lra.
Qed.

(** The two sums of [_calcularNotaFinal] over evaluations within the scale:
    finite, and the weighted sum between 0 and the sum of the weights. *)
Lemma sumas_entre (l : list (@Calificacion Exact)) (a0 w0 : Qc) :
  Forall (fun e => entre 0 100 (Spec.score e) /\ entre 0 100 (Spec.weight e)) l ->
  (0 <= this a0 /\ this a0 <= this w0)%Q ->
  exists a w : Qc,
    fold_left add (map (fun e => Spec.score e * Spec.weight e / of_Z 100)%js l)
              (ExactImpl.XFin a0) = ExactImpl.XFin a
    /\ fold_left add (map Spec.weight l) (ExactImpl.XFin w0) = ExactImpl.XFin w
    /\ (0 <= this a /\ this a <= this w)%Q.
Proof.
  revert a0 w0. induction l as [|e l IH]; intros a0 w0 Hl Ha.
  - exists a0, w0. repeat split; apply Ha.
  - inversion Hl as [|? ? [Hs Hw] Hl']; subst.
    cbn [map fold_left].
    unfold entre in Hs, Hw.
    destruct (Spec.score e) as [ | |s]; try contradiction.
    destruct (Spec.weight e) as [ | |w]; try contradiction.
    change (inject_Z 0) with 0%Q in *.
    destruct (termino_entre s w Hs (proj1 Hw)) as (t & Et & Ht0 & Ht1).
    rewrite Et.
    change (@add Exact (ExactImpl.XFin a0) (ExactImpl.XFin t))
      with (ExactImpl.XFin (a0 + t)%Qc).
    change (@add Exact (ExactImpl.XFin w0) (ExactImpl.XFin w))
      with (ExactImpl.XFin (w0 + w)%Qc).
    apply IH; [exact Hl'|].
    rewrite !this_plus. lra.
Qed.

(** Rounding to 2 decimals keeps a Number between 0 and 100. *)
Lemma round2_entre (x : @num Exact) :
  entre 0 100 x -> entre 0 100 (Spec.round2 x).
Proof.
  destruct x as [ | |q]; try contradiction.
  intros [H0 H1]. rewrite Exact_round2. unfold entre.
  rewrite this_Q2Qc.
  change (inject_Z 0) with 0%Q in *. change (inject_Z 100) with 100%Q in *.
  set (y := (q * 100 + (1 # 2))%Q).
  assert (Hy0 : (0 <= y)%Q) by (unfold y; lra).
  assert (Hy1 : (y <= 10000 + (1 # 2))%Q) by (unfold y; lra).
  assert (Hf0 : (0 <= Qfloor y)%Z).
  { change 0%Z with (Qfloor 0). apply Qfloor_resp_le. exact Hy0. }
  assert (Hf1 : (Qfloor y <= 10000)%Z).
  { change 10000%Z with (Qfloor (10000 + (1 # 2))). apply Qfloor_resp_le. exact Hy1. }
  split.
  - apply Qle_shift_div_l; [reflexivity|].
    rewrite Qmult_0_l. change 0%Q with (inject_Z 0).
    rewrite <- Zle_Qle. exact Hf0.
  - apply Qle_shift_div_r; [reflexivity|].
    change (100 * 100)%Q with (inject_Z 10000).
    rewrite <- Zle_Qle. exact Hf1.
Qed.
End Escala.

(* ================================================================= *)
(** ** Lemmas on [parseInt] *)

Section ParseIntLemmas.
Import SpecDigitos.
Local Open Scope string_scope.

(** Reading the digits of a run of decimal digits followed by something
    else. *)
Lemma digits_run (d rest : string) (acc : N) (count : nat) :
  soloDigitos d = true -> sinDigito rest = true ->
  ParseInt.digits 10 (d ++ rest) acc count
  = (valor d acc, (count + String.length d)%nat).
Proof.
  revert acc count. induction d as [|c d IH]; intros acc count Hd Hrest.
  - cbn [append valor String.length]. rewrite Nat.add_0_r.
    destruct rest as [|c rest]; [reflexivity|].
    cbn [sinDigito] in Hrest. cbn [ParseInt.digits].
    unfold ParseInt.digitOf. cbn [N.eqb Pos.eqb].
    destruct (StrDecimalLiteral.digit c); [discriminate Hrest|reflexivity].
  - cbn [soloDigitos] in Hd. cbn [append ParseInt.digits valor String.length].
    unfold ParseInt.digitOf. cbn [N.eqb Pos.eqb].
    destruct (StrDecimalLiteral.digit c) as [k|]; [|discriminate Hd].
    rewrite (IH _ _ Hd Hrest). f_equal. lia.
Qed.

(** Nothing is trimmed off a string that starts with an ASCII character
    that is no white space. *)
Lemma trimStart_ascii (c : ascii) (s : string) :
  (nat_of_ascii c <? 128)%nat = true ->
  StrDecimalLiteral.isWhiteSpace c = false ->
  StrDecimalLiteral.trimStart (String c s) = String c s.
Proof.
  destruct c as [[] [] [] [] [] [] [] []]; intros H1 H2;
    try discriminate H1; try discriminate H2;
    destruct s as [|c2 [|c3 s3]]; reflexivity.
Qed.

(** A string that starts with a digit from 1 to 9 is read in radix 10,
    from its first character. *)
Lemma parse_sin_cero (s : string) :
  empiezaSinCero s = true ->
  ParseInt.parse s
  = match ParseInt.digits 10 s 0%N 0%nat with
    | (m, S _) => Some (false, m)
    | (_, O) => None
    end.
Proof.
  destruct s as [|c s]; [discriminate|].
  destruct c as [[] [] [] [] [] [] [] []]; intros H;
    try discriminate H;
    unfold ParseInt.parse; rewrite trimStart_ascii by reflexivity; reflexivity.
Qed.

(** Nothing is read off a string that starts with an ASCII character that
    is none of white space, a sign and a digit. *)
Lemma parse_sin_entero (s : string) :
  sinEntero s = true -> ParseInt.parse s = None.
Proof.
  destruct s as [|c s]; [reflexivity|].
  destruct c as [[] [] [] [] [] [] [] []]; intros H;
    try discriminate H;
    unfold ParseInt.parse; rewrite trimStart_ascii by reflexivity; reflexivity.
Qed.
End ParseIntLemmas.

(* ================================================================= *)
(** ** Further properties of the services, the template and the
       controllers *)

(** X1.  [ValidacionService._calcularEstadisticasGenerales] sorts every
    enrollment into exactly one of three classes, in every arithmetic: the
    counter of passed courses counts the enrollments whose final grade is
    present and at least 61, the counter of failed courses those whose final
    grade is present and not at least 61, the counter of pending courses
    those without a final grade, and the three counters add up to
    [totalCursos], the number of enrollments. *)
Theorem estadisticasGenerales_contadores :
  forall (JN : JSNumber) (numberToString : num -> string)
         (inscripciones : list Model.Inscripcion),
    let st := ValidacionService._calcularEstadisticasGenerales numberToString
                inscripciones in
    ValidacionService.totalCursos st = List.length inscripciones
    /\ ValidacionService.cursosAprobados st
       = List.length (filter SpecValidacion.aprobada inscripciones)
    /\ ValidacionService.cursosReprobados st
       = List.length (filter SpecValidacion.reprobada inscripciones)
    /\ ValidacionService.cursosPendientes st
       = List.length (filter SpecValidacion.pendiente inscripciones)
    /\ (ValidacionService.cursosAprobados st + ValidacionService.cursosReprobados st
        + ValidacionService.cursosPendientes st
        = ValidacionService.totalCursos st)%nat.
Proof.
  intros JN numberToString inscripciones st.
  destruct (estadisticasGenerales_counts numberToString inscripciones)
    as (Ht & Ha & Hr & Hp & _).
  fold st in Ht, Ha, Hr, Hp.
  repeat split; try assumption.
  rewrite Ht, Ha, Hr, Hp. apply clases_length.
Qed.

(** X2.  [_agruparCursosPorSemestre] partitions the enrollments by the
    key of their semester, in every arithmetic: no two groups returned
    spell the same key; a group is never empty and holds the courses of
    exactly the enrollments of its key, in the order of the enrollments;
    and every enrollment has the group of its key. *)
Theorem agrupar_por_clave :
  forall (JN : JSNumber) (JS : JSSubtraction JN)
         (numberToString : num -> string) (stringToNumber : string -> num)
         (inscripciones : list Model.Inscripcion),
    let grupos := ValidacionService._agruparCursosPorSemestre
                    numberToString stringToNumber inscripciones in
    NoDup (map (SpecValidacion.claveDeGrupo numberToString) grupos)
    /\ (forall g, In g grupos ->
          ValidacionService.cursos g <> []
          /\ ValidacionService.cursos g
             = map ValidacionService.cursoDeInscripcion
                   (filter (SpecValidacion.delSemestre numberToString
                              (SpecValidacion.claveDeGrupo numberToString g))
                           inscripciones))
    /\ (forall i, In i inscripciones ->
          exists g, In g grupos
                    /\ SpecValidacion.claveDeGrupo numberToString g
                       = ValidacionService.claveSemestre numberToString
                           (Model.semestre i)).
Proof.
  intros JN JS numberToString stringToNumber inscripciones grupos.
  pose proof (agrupados_fold_nil numberToString inscripciones) as Hinv.
  pose proof (agrupar_Permutation numberToString stringToNumber inscripciones)
    as Hperm. fold grupos in Hperm.
  set (G := fold_left (ValidacionService.agruparInscripcion numberToString)
                      inscripciones []) in *.
  pose proof (agrupados_claves Hinv) as Hclaves.
  destruct Hinv as (Hnd & _ & Hall & Hg & _).
  split; [|split].
  - apply agrupar_NoDup.
  - intros g Hin.
    apply (Permutation_in _ Hperm) in Hin.
    destruct (agrupados_In _ _ Hin) as (k & Hk).
    destruct (Hg k g Hk) as (Hkey & Hc & (i & Hi & Ha & Hn)).
    rewrite Hkey. split; [|exact Hc].
    rewrite Hc. intros Hnil. apply map_eq_nil in Hnil.
    assert (Hin' : In i (filter (SpecValidacion.delSemestre numberToString k)
                                inscripciones)).
    { apply filter_In. split; [exact Hi|].
      unfold SpecValidacion.delSemestre. apply String.eqb_eq.
      rewrite <- Hkey. unfold SpecValidacion.claveDeGrupo,
        ValidacionService.claveSemestre. rewrite Ha, Hn. reflexivity. }
    rewrite Hnil in Hin'. exact Hin'.
  - intros i Hi. specialize (Hall i Hi).
    apply in_map_iff in Hall. destruct Hall as ([k g] & Hk & Hin).
    simpl in Hk. subst k.
    exists g. split.
    + apply Permutation_in with (l := map snd G).
      * apply Permutation_sym. exact Hperm.
      * apply in_map_iff. exists (ValidacionService.claveSemestre numberToString
                                    (Model.semestre i), g). split; [reflexivity|exact Hin].
    + apply (Hg _ _ Hin).
Qed.

(** X3.  Grouping loses and duplicates nothing, and agrees with the
    general statistics of the same enrollments, in every arithmetic: the
    courses of the groups are, together, the courses of the enrollments;
    there are as many groups as [totalSemestres]; and the passed and the
    failed courses that the progression counts semester by semester are as
    many as [cursosAprobados] and [cursosReprobados]. *)
Theorem agrupar_conserva_cursos :
  forall (JN : JSNumber) (JS : JSSubtraction JN)
         (numberToString : num -> string) (stringToNumber : string -> num)
         (inscripciones : list Model.Inscripcion),
    let grupos := ValidacionService._agruparCursosPorSemestre
                    numberToString stringToNumber inscripciones in
    let st := ValidacionService._calcularEstadisticasGenerales numberToString
                inscripciones in
    Permutation (flat_map ValidacionService.cursos grupos)
                (map ValidacionService.cursoDeInscripcion inscripciones)
    /\ List.length (flat_map ValidacionService.cursos grupos)
       = ValidacionService.totalCursos st
    /\ List.length grupos = ValidacionService.totalSemestres st
    /\ List.length (filter ValidacionService.validado
                           (flat_map ValidacionService.cursos grupos))
       = ValidacionService.cursosAprobados st
    /\ List.length (filter ValidacionService.reprobado
                           (flat_map ValidacionService.cursos grupos))
       = ValidacionService.cursosReprobados st.
Proof.
  intros JN JS numberToString stringToNumber inscripciones grupos st.
  pose proof (agrupados_fold_nil numberToString inscripciones) as Hinv.
  pose proof (agrupar_Permutation numberToString stringToNumber inscripciones)
    as Hperm. fold grupos in Hperm.
  set (G := fold_left (ValidacionService.agruparInscripcion numberToString)
                      inscripciones []) in *.
  destruct Hinv as (_ & Hkeys & _ & _ & Hcursos).
  destruct (estadisticasGenerales_counts numberToString inscripciones)
    as (Ht & Ha & Hr & _ & Hs).
  fold st in Ht, Ha, Hr, Hs.
  assert (Hall : Permutation (flat_map ValidacionService.cursos grupos)
                             (map ValidacionService.cursoDeInscripcion inscripciones)).
  { apply Permutation_trans
      with (flat_map ValidacionService.cursos (map snd G)).
    - apply Permutation_flat_map. exact Hperm.
    - rewrite flat_map_concat_map, map_map, <- flat_map_concat_map. exact Hcursos. }
  split; [exact Hall|].
  split.
  { rewrite (Permutation_length Hall), length_map, Ht. reflexivity. }
  split.
  { rewrite (Permutation_length Hperm), length_map, Hs, <- Hkeys, length_map.
    reflexivity. }
  split.
  - rewrite (Permutation_filter_length _ Hall), filter_map_compose, length_map, Ha.
    reflexivity.
  - rewrite (Permutation_filter_length _ Hall), filter_map_compose, length_map, Hr.
    reflexivity.
Qed.

(** X4.  In exact arithmetic, when the year and the term of every
    enrollment are finite Numbers, the groups that
    [_agruparCursosPorSemestre] returns are in strictly increasing order of
    year and, within a year, of term: every group comes before all the
    groups of a later period, and no period comes twice. *)
Theorem agrupar_ordenado :
  forall (numberToString : @num Exact -> string)
         (stringToNumber : string -> @num Exact)
         (inscripciones : list (@Model.Inscripcion Exact)),
    Forall (fun i => SpecOrden.periodoDeInscripcion i <> None) inscripciones ->
    StronglySorted SpecOrden.anterior
      (ValidacionService._agruparCursosPorSemestre
         numberToString stringToNumber inscripciones).
Proof.
  intros numberToString stringToNumber inscripciones Hperiodos.
  apply (noPosterior_anterior numberToString).
  - apply agrupar_NoDup.
  - unfold ValidacionService._agruparCursosPorSemestre.
    apply sort_noPosterior.
    apply (agrupados_periodo (agrupados_fold_nil numberToString inscripciones)).
    exact Hperiodos.
Qed.

(** X4 (witness): the five enrollments of the example record, in exact
    arithmetic; the groups come out as 2023-1, 2024-1, 2024-2. *)
Lemma agrupar_ordenado_witness :
  Forall (fun i => SpecOrden.periodoDeInscripcion i <> None)
         (@EjemplosValidacion.historial Exact)
  /\ StronglySorted SpecOrden.anterior
       (ValidacionService._agruparCursosPorSemestre
          EjemplosValidacion.textoExacto EjemplosValidacion.numero
          (@EjemplosValidacion.historial Exact))
  /\ map (SpecValidacion.claveDeGrupo EjemplosValidacion.textoExacto)
         (ValidacionService._agruparCursosPorSemestre
            EjemplosValidacion.textoExacto EjemplosValidacion.numero
            (@EjemplosValidacion.historial Exact))
     = ["2023-1"; "2024-1"; "2024-2"]%string.
Proof.
  assert (H : Forall (fun i => SpecOrden.periodoDeInscripcion i <> None)
                     (@EjemplosValidacion.historial Exact)).
  { repeat constructor; discriminate. }
  split; [exact H|]. split.
  - exact (agrupar_ordenado EjemplosValidacion.textoExacto
             EjemplosValidacion.numero H).
  - vm_compute. reflexivity.
Defined.

(** X5.  The last semester of the executive summary is the latest one.
    In exact arithmetic, when the year and the term of every enrollment are
    finite Numbers: without enrollments there is no group and
    [ultimoSemestre] is [null]; otherwise it is the semester of a group
    that every other group precedes, by the year or, in the same year, by
    the term. *)
Theorem ultimoSemestre_mas_reciente :
  forall (numberToString : @num Exact -> string)
         (stringToNumber : string -> @num Exact)
         (inscripciones : list (@Model.Inscripcion Exact)),
    Forall (fun i => SpecOrden.periodoDeInscripcion i <> None) inscripciones ->
    let grupos := ValidacionService._agruparCursosPorSemestre
                    numberToString stringToNumber inscripciones in
    (inscripciones = [] /\ grupos = [] /\ ValidacionController.ultimo grupos = None)
    \/ (inscripciones <> []
        /\ exists g, In g grupos
                     /\ ValidacionController.ultimo grupos
                        = Some (ValidacionService.semestre g)
                     /\ forall g', In g' grupos -> g' = g \/ SpecOrden.anterior g' g).
Proof.
  intros numberToString stringToNumber inscripciones Hperiodos grupos.
  assert (Hsorted : StronglySorted SpecOrden.anterior grupos).
  { apply (noPosterior_anterior numberToString).
    - apply agrupar_NoDup.
    - unfold grupos, ValidacionService._agruparCursosPorSemestre.
      apply sort_noPosterior.
      apply (agrupados_periodo (agrupados_fold_nil numberToString inscripciones)).
      exact Hperiodos. }
  destruct inscripciones as [|i0 resto].
  - left. repeat split.
  - right. split; [discriminate|].
    destruct grupos as [|g0 gs] eqn:Eg.
    + exfalso.
      pose proof (agrupados_fold_nil numberToString (i0 :: resto))
        as (_ & _ & Hall & _).
      specialize (Hall i0 (or_introl eq_refl)).
      pose proof (agrupar_Permutation numberToString stringToNumber (i0 :: resto))
        as Hperm.
      fold grupos in Hperm. rewrite Eg in Hperm.
      apply Permutation_nil in Hperm. apply map_eq_nil in Hperm.
      rewrite Hperm in Hall. exact Hall.
    + exists (last gs g0). split; [apply last_In|].
      split; [reflexivity|].
      apply StronglySorted_last. exact Hsorted.
Qed.

(** X5 (witness): the example record in exact arithmetic: the last
    semester is the second term of 2024. *)
Lemma ultimoSemestre_mas_reciente_witness :
  Forall (fun i => SpecOrden.periodoDeInscripcion i <> None)
         (@EjemplosValidacion.historial Exact)
  /\ ValidacionService.descripcion
       (match ValidacionController.ultimo
                (ValidacionService._agruparCursosPorSemestre
                   EjemplosValidacion.textoExacto EjemplosValidacion.numero
                   (@EjemplosValidacion.historial Exact))
        with
        | Some s => s
        | None => {| ValidacionService.año := JNull;
                     ValidacionService.numero := JNull;
                     ValidacionService.descripcion := EmptyString |}
        end)
     = "2° Semestre 2024"%string
  /\ @EjemplosValidacion.historial Exact <> [].
Proof.
  assert (H : Forall (fun i => SpecOrden.periodoDeInscripcion i <> None)
                     (@EjemplosValidacion.historial Exact)).
  { repeat constructor; discriminate. }
  split; [exact H|]. split; [vm_compute; reflexivity|].
  destruct (ultimoSemestre_mas_reciente EjemplosValidacion.textoExacto
              EjemplosValidacion.numero H) as [(Hnil & _) | (Hne & _)].
  - discriminate Hnil.
  - exact Hne.
Defined.

(** X6.  The efficiency class of [_calcularEficienciaAcademica] is a matter
    of counts.  In exact arithmetic, for every number of passed courses,
    of courses and of semesters, the class is "Deficiente" without courses
    and otherwise "Excelente", "Muy Buena", "Buena", "Regular" or
    "Deficiente" as 10 times the passed courses reach 9, 8, 7, 6 times the
    courses or not.  On binary64 the class is the same for all counts of up
    to 60 courses. *)
Theorem eficiencia_por_conteo :
  (forall cursosAprobados totalCursos totalSemestres : nat,
      ValidacionService.clasificacion
        (@ValidacionService._calcularEficienciaAcademica Exact
           cursosAprobados totalCursos totalSemestres)
      = SpecValidacion.clasePorConteo cursosAprobados totalCursos)
  /\ forallb
       (fun total =>
          forallb
            (fun aprobados =>
               String.eqb
                 (ValidacionService.clasificacion
                    (@ValidacionService._calcularEficienciaAcademica Float64
                       aprobados total 1))
                 (SpecValidacion.clasePorConteo aprobados total))
            (seq 0 (S total)))
       (seq 0 61)
     = true.
Proof.
  split.
  - intros a t s.
    unfold ValidacionService._calcularEficienciaAcademica,
      SpecValidacion.clasePorConteo.
    cbn [ValidacionService.clasificacion].
    destruct t as [|t'].
    + reflexivity.
    + set (t := S t').
      assert (Ht : (0 < t)%nat) by (unfold t; lia).
      change (0 <? t)%nat with true. change (t =? 0)%nat with false. cbv iota.
      change (@of_Z Exact 90) with (@of_Z Exact (Z.of_nat (10 * 9))).
      change (@of_Z Exact 80) with (@of_Z Exact (Z.of_nat (10 * 8))).
      change (@of_Z Exact 70) with (@of_Z Exact (Z.of_nat (10 * 7))).
      change (@of_Z Exact 60) with (@of_Z Exact (Z.of_nat (10 * 6))).
      rewrite !(Exact_percentage_geb_tenths a _ Ht).
      reflexivity.
  - vm_compute. reflexivity.
Qed.

(** X7.  A final grade that is NaN in [ValidacionService]: in every
    arithmetic where NaN absorbs the operations (binary64 is one), when an
    enrollment has the final grade NaN, [_calcularEstadisticasGenerales]
    counts it among the failed courses, so that [cursosReprobados] is
    positive, and returns [promedioGeneral] as [null]. *)
Theorem estadisticasGenerales_nota_NaN :
  forall (JN : JSNumber) (L : NaNLaws JN) (numberToString : num -> string)
         (inscripciones : list Model.Inscripcion) (i : Model.Inscripcion),
    In i inscripciones ->
    ValidacionService._calcularNotaFinal (Model.calificaciones i) = Some nan ->
    let st := ValidacionService._calcularEstadisticasGenerales numberToString
                inscripciones in
    SpecValidacion.reprobada i = true
    /\ (0 < ValidacionService.cursosReprobados st)%nat
    /\ ValidacionService.promedioGeneral st = None.
Proof.
  intros JN L numberToString inscripciones i Hin Hnan st.
  assert (Hrep : SpecValidacion.reprobada i = true).
  { unfold SpecValidacion.reprobada, ValidacionService.reprobado,
      ValidacionService.cursoDeInscripcion.
    cbn [ValidacionService.notaFinal ValidacionService.validado].
    rewrite Hnan. unfold geb. rewrite compare_nan_l. reflexivity. }
  split; [exact Hrep|]. split.
  - destruct (estadisticasGenerales_counts numberToString inscripciones)
      as (_ & _ & Hr & _).
    fold st in Hr. rewrite Hr.
    assert (Hi : In i (filter SpecValidacion.reprobada inscripciones))
      by (apply filter_In; split; assumption).
    destruct (filter SpecValidacion.reprobada inscripciones);
      [contradiction|simpl; lia].
  - unfold st, ValidacionService._calcularEstadisticasGenerales.
    rewrite fold_contarInscripcion.
    cbn [ValidacionService.promedioGeneral].
    assert (Hsum : fold_left add
                     (map (fun i0 => SpecValidacion.notaFinalDe i0
                                     * SpecValidacion.creditosDe i0)%js
                          (filter SpecValidacion.calificada inscripciones))
                     (of_Z 0) = nan).
    { apply fold_add_In_nan. apply in_map_iff. exists i. split.
      - unfold SpecValidacion.notaFinalDe. rewrite Hnan. apply mul_nan_l.
      - apply filter_In. split; [exact Hin|].
        unfold SpecValidacion.calificada, SpecValidacion.pendiente.
        rewrite Hnan. reflexivity. }
    rewrite Hsum.
    destruct (fold_left add _ (of_Z 0) > of_Z 0)%js; [|reflexivity].
    rewrite div_nan_l. unfold truthy_num. rewrite compare_nan_l. reflexivity.
Qed.

(** X7 (witness): on binary64, the example record with one more
    enrollment whose only score is the string ["abc"]. *)
Lemma estadisticasGenerales_nota_NaN_witness :
  let i := @EjemplosValidacion.inscripcionEn Float64 "2024" "2" "BIO2" (JStr "abc") in
  let inscripciones := EjemplosValidacion.historial ++ [i] in
  In i inscripciones
  /\ ValidacionService._calcularNotaFinal (Model.calificaciones i) = Some nan
  /\ ValidacionService.promedioGeneral
       (ValidacionService._calcularEstadisticasGenerales
          EjemplosValidacion.texto64 inscripciones) = None.
Proof.
  intros i inscripciones.
  assert (H1 : In i inscripciones).
  { unfold inscripciones. apply in_or_app. right. left. reflexivity. }
  assert (H2 : ValidacionService._calcularNotaFinal (Model.calificaciones i)
               = Some nan) by (vm_compute; reflexivity).
  split; [exact H1|]. split; [exact H2|].
  exact (proj2 (proj2 (estadisticasGenerales_nota_NaN Float64_NaNLaws
                         EjemplosValidacion.texto64 inscripciones i H1 H2))).
Defined.

(** X8.  A final grade that is NaN in [CalificacionService]: in every
    arithmetic where NaN absorbs the operations, when an enrollment of the
    semester has the final grade NaN, its status is REPROBADO and the
    [promedioGeneral] of [_calcularEstadisticasGenerales] is NaN as soon as
    the credits of the graded courses sum to a positive Number; otherwise
    it is the rounding of 0. *)
Theorem estadisticas_nota_NaN :
  forall (JN : JSNumber) (L : NaNLaws JN)
         (inscripciones : list Model.Inscripcion) (i : Model.Inscripcion),
    In i inscripciones ->
    CalificacionService._calcularNotaFinal (Model.calificaciones i) = Some nan ->
    let st := CalificacionService.estadisticasDeInscripciones inscripciones in
    Model.codigo (CalificacionService.estado
                    (CalificacionService.procesarInscripcion i)) = "REPROBADO"%string
    /\ CalificacionService.promedioGeneral st
       = if (Spec.suma (map Spec.credits (filter Spec.graded inscripciones))
             > of_Z 0)%js
         then Some nan
         else Some (Spec.round2 (of_Z 0)).
Proof.
  intros JN L inscripciones i Hin Hnan st.
  split.
  - unfold CalificacionService.procesarInscripcion.
    cbn [CalificacionService.estado]. rewrite Hnan.
    unfold CalificacionService._determinarEstadoAprobacion, geb.
    rewrite compare_nan_l. reflexivity.
  - unfold st. rewrite estadisticas_unfold.
    cbn [CalificacionService.promedioGeneral].
    assert (Hfinal : Spec.finalGrade i = Some nan).
    { unfold Spec.finalGrade. rewrite <- calcularNotaFinal_computeFinalGrade.
      exact Hnan. }
    assert (Hg : In i (filter Spec.graded inscripciones)).
    { apply filter_In. split; [exact Hin|]. unfold Spec.graded.
      rewrite Hfinal. reflexivity. }
    destruct (filter Spec.graded inscripciones) as [|i0 l0] eqn:E;
      [contradiction|].
    cbv zeta.
    assert (Hsum : Spec.suma (map (fun i1 => Spec.grade i1 * Spec.credits i1)%js
                                  (i0 :: l0)) = nan).
    { unfold Spec.suma. apply fold_add_In_nan. apply in_map_iff.
      exists i. split; [|exact Hg].
      unfold Spec.grade. rewrite Hfinal. apply mul_nan_l. }
    rewrite Hsum.
    destruct (Spec.suma (map Spec.credits (i0 :: l0)) > of_Z 0)%js;
      [|reflexivity].
    unfold Spec.round2.
    rewrite div_nan_l, mul_nan_l, round_nan, div_nan_l. reflexivity.
Qed.

(** X8 (witness): on binary64, Course A beside a course whose only score
    is the string ["abc"]: the semester average is NaN. *)
Lemma estadisticas_nota_NaN_witness :
  let i := @EjemplosValidacion.inscripcionEn Float64 "2024" "1" "BIO1" (JStr "abc") in
  let inscripciones := [Ejemplos.cursoA; i] in
  In i inscripciones
  /\ CalificacionService._calcularNotaFinal (Model.calificaciones i) = Some nan
  /\ CalificacionService.promedioGeneral
       (CalificacionService.estadisticasDeInscripciones inscripciones)
     = Some nan.
Proof.
  intros i inscripciones.
  assert (H1 : In i inscripciones) by (right; left; reflexivity).
  assert (H2 : CalificacionService._calcularNotaFinal (Model.calificaciones i)
               = Some nan) by (vm_compute; reflexivity).
  split; [exact H1|]. split; [exact H2|].
  exact (proj2 (estadisticas_nota_NaN Float64_NaNLaws inscripciones i H1 H2)).
Defined.

(** X9.  The two services compute the same final grade, in every
    arithmetic, on every list of evaluations in which no score is
    [undefined]: [ValidacionService._calcularNotaFinal], which skips the
    scores that are [null], and [CalificacionService._calcularNotaFinal],
    which also skips those that are [undefined], return the same result. *)
Theorem notaFinal_servicios_coinciden :
  forall (JN : JSNumber) (calificaciones : list Model.Calificacion),
    Forall (fun cal => Model.nota cal <> JUndefined) calificaciones ->
    ValidacionService._calcularNotaFinal calificaciones
    = CalificacionService._calcularNotaFinal calificaciones.
Proof.
  intros JN calificaciones Hdef.
  unfold ValidacionService._calcularNotaFinal, CalificacionService._calcularNotaFinal.
  assert (Hfilter : filter ValidacionService.tieneNota calificaciones
                    = filter CalificacionService.tieneNota calificaciones).
  { apply filter_ext_in. intros cal Hin.
    rewrite Forall_forall in Hdef. specialize (Hdef cal Hin).
    unfold ValidacionService.tieneNota, CalificacionService.tieneNota.
    destruct (Model.nota cal); try reflexivity. contradiction. }
  rewrite Hfilter. reflexivity.
Qed.

(** X9 (witness): on binary64, a numeric string, a Number and a [null]
    score. *)
Lemma notaFinal_servicios_coinciden_witness :
  let calificaciones :=
    [@Ejemplos.evaluacionTexto Float64 "90" "30"; Ejemplos.evaluacion "80" "30";
     Ejemplos.evaluacionPendiente "40"] in
  Forall (fun cal => Model.nota cal <> JUndefined) calificaciones
  /\ ValidacionService._calcularNotaFinal calificaciones
     = CalificacionService._calcularNotaFinal calificaciones.
Proof.
  intros calificaciones.
  assert (H : Forall (fun cal => Model.nota cal <> JUndefined) calificaciones).
  { repeat constructor; discriminate. }
  split; [exact H|].
  exact (notaFinal_servicios_coinciden H).
Defined.

(** With a score that is [undefined] the two services differ: on binary64,
    for a single evaluation of weight 100 without a score property,
    [CalificacionService] returns [null] and [ValidacionService] NaN. *)
Lemma notaFinal_undefined :
  let calificaciones :=
    [{| Model.tipo_evaluacion := "Final"%string; Model.nota := @JUndefined Float64;
        Model.ponderacion := JStr "100" |}] in
  CalificacionService._calcularNotaFinal calificaciones = None
  /\ ValidacionService._calcularNotaFinal calificaciones = Some nan.
Proof.
  cbv zeta. split; vm_compute; reflexivity.
Qed.

(** X10.  The final grade stays within the scale.  In exact arithmetic,
    when every evaluation with a present score has a score and a weight
    between 0 and 100, [_calcularNotaFinal] returns [null] or a finite
    Number between 0 and 100. *)
Theorem notaFinal_en_escala :
  forall calificaciones : list (@Model.Calificacion Exact),
    Forall SpecEscala.enEscala calificaciones ->
    match CalificacionService._calcularNotaFinal calificaciones with
    | Some notaFinal => SpecEscala.entre 0 100 notaFinal
    | None => True
    end.
Proof.
  intros calificaciones Hescala.
  rewrite calcularNotaFinal_computeFinalGrade.
  unfold Spec.computeFinalGrade, Spec.unroundedFinalGrade.
  destruct (negb (existsb Spec.present calificaciones)); [exact I|].
  unfold Spec.weightTotal, Spec.weightedSum, Spec.suma.
  rewrite Exact_of_Z.
  assert (Hl : Forall (fun e => SpecEscala.entre 0 100 (Spec.score e)
                                /\ SpecEscala.entre 0 100 (Spec.weight e))
                      (filter Spec.present calificaciones)).
  { apply Forall_forall. intros e He. apply filter_In in He.
    destruct He as [Hin Hp]. rewrite Forall_forall in Hescala.
    exact (Hescala e Hin Hp). }
  assert (H0 : (0 <= this (Q2Qc (inject_Z 0))
                /\ this (Q2Qc (inject_Z 0)) <= this (Q2Qc (inject_Z 0)))%Q).
  { split; [discriminate|apply Qle_refl]. }
  destruct (sumas_entre (Q2Qc (inject_Z 0)) (Q2Qc (inject_Z 0)) Hl H0)
    as (a & w & Ea & Ew & Ha0 & Ha1).
  rewrite Ea, Ew.
  destruct (@eqb Exact (ExactImpl.XFin w) (ExactImpl.XFin (Q2Qc (inject_Z 0))))
    eqn:Ez;
    [exact I|].
  cbn [option_map]. apply round2_entre.
  rewrite Exact_of_Z.
  assert (Hz : ExactImpl.is_zero w = false).
  { unfold eqb in Ez. cbn [compare Exact ExactImpl.compare] in Ez.
    unfold ExactImpl.is_zero.
    change 0%Qc with (Q2Qc (inject_Z 0)).
    destruct (w ?= Q2Qc (inject_Z 0))%Qc; [discriminate Ez|reflexivity|reflexivity]. }
  assert (Hw : (0 < this w)%Q).
  { assert (Hne : ~ (this w == 0)%Q).
    { intros H. unfold ExactImpl.is_zero in Hz.
      assert (Hc : (w ?= 0)%Qc = Eq).
      { apply Qceq_alt. apply Qc_is_canon. rewrite H. reflexivity. }
      rewrite Hc in Hz. discriminate Hz. }
    assert (Hge : (0 <= this w)%Q) by lra.
    apply Qle_lteq in Hge. destruct Hge as [Hlt | Heq]; [exact Hlt|].
    exfalso. apply Hne. symmetry. exact Heq. }
  exact_ops. rewrite Hz. unfold SpecEscala.entre.
  rewrite this_div, this_mult, this_Q2Qc.
  change (inject_Z 0) with 0%Q. change (inject_Z 100) with 100%Q.
  split.
  - apply Qle_shift_div_l; [exact Hw|]. lra.
  - apply Qle_shift_div_r; [exact Hw|]. lra.
Qed.

(** X10 (witness): scores 90 and 80 with weights 50 and 50, in exact
    arithmetic. *)
Lemma notaFinal_en_escala_witness :
  Forall SpecEscala.enEscala (@Ejemplos.notas9080 Exact)
  /\ match CalificacionService._calcularNotaFinal (@Ejemplos.notas9080 Exact) with
     | Some notaFinal => SpecEscala.entre 0 100 notaFinal
     | None => True
     end.
Proof.
  assert (H : Forall SpecEscala.enEscala (@Ejemplos.notas9080 Exact)).
  { apply Forall_cons; [|apply Forall_cons; [|apply Forall_nil]];
      (intros _; split; vm_compute; split; intros Hc; discriminate Hc). }
  split; [exact H|].
  exact (notaFinal_en_escala H).
Defined.

(** X11.  What [_validarProgresionAcademica] keeps true of its result, for
    every sequence of semester groups and in every arithmetic: there are at
    most three alerts per semester, and at least as many as
    [semestresBajoCursos] and [semestresConReprobados] together, two
    counters that count the semesters of low load and those with a failed
    course, and so never exceed the number of semesters; there is exactly
    one observation; the level is EXCELENTE exactly when there is no alert;
    and [requiereAtencion] is true exactly when the level is REGULAR or
    DEFICIENTE. *)
Theorem progresion_invariantes :
  forall (JN : JSNumber) (numberToString : num -> string)
         (toFixed : num -> nat -> string) (grupos : list ValidacionService.Grupo),
    let r := ValidacionService._validarProgresionAcademica numberToString toFixed
               grupos in
    (List.length (ValidacionService.alertas r) <= 3 * List.length grupos)%nat
    /\ (ValidacionService.semestresBajoCursos r
        + ValidacionService.semestresConReprobados r
        <= List.length (ValidacionService.alertas r))%nat
    /\ ValidacionService.semestresBajoCursos r
       = List.length (filter SpecProgresion.lowLoad grupos)
    /\ (ValidacionService.semestresBajoCursos r <= List.length grupos)%nat
    /\ (ValidacionService.semestresConReprobados r <= List.length grupos)%nat
    /\ List.length (ValidacionService.observaciones r) = 1%nat
    /\ (ValidacionService.nivel r = SpecProgresion.EXCELLENT
        <-> ValidacionService.alertas r = [])
    /\ (ValidacionService.requiereAtencion r = true
        <-> ValidacionService.nivel r = SpecProgresion.FAIR
            \/ ValidacionService.nivel r = SpecProgresion.POOR).
Proof.
  intros JN numberToString toFixed grupos r.
  destruct (progresion_fields numberToString toFixed grupos)
    as (Hal & Hn & Hr & Hb & Hf & Ho).
  fold r in Hal, Hn, Hr, Hb, Hf, Ho.
  pose proof (alerts_length numberToString toFixed grupos) as [Hlow Hhigh].
  rewrite Hal, Hn, Hr, Hb, Hf.
  split; [exact Hhigh|]. split; [exact Hlow|]. split; [reflexivity|].
  split; [apply filter_length_le|]. split; [apply filter_length_le|].
  split; [exact Ho|].
  generalize (flat_map (SpecProgresion.alerts numberToString toFixed) grupos).
  intros al.
  unfold SpecProgresion.EXCELLENT, SpecProgresion.FAIR, SpecProgresion.POOR.
  destruct al as [|a1 [|a2 [|a3 [|a4 [|a5 al]]]]]; cbn;
    (split; split; intros H; try discriminate H; try reflexivity;
     try (destruct H as [H | H]; discriminate H); auto).
Qed.

(** X12.  [obtenerCalificacionesPorSemestre] returns a result on every
    input, for every data-access layer and in every arithmetic, and in that
    result [success] is true exactly when [data] is present, exactly when
    [error] is absent, and exactly when the parameters are valid, the
    semester and the student are found and the enrollments are read.  The
    result is then the success result of the enrollments found: one course
    per enrollment, in their order, with the statistics of these courses,
    after the three queries in order.  No call sends more than three
    queries. *)
Theorem obtenerCalificaciones_exito :
  forall (JN : JSNumber) (numberToString : num -> string) (db : Async.DB)
         (idEstudiante año numeroSemestre : value) (log : list Async.Consulta),
    let run := CalificacionService.obtenerCalificacionesPorSemestre
                 numberToString db idEstudiante año numeroSemestre log in
    exists (r : CalificacionService.Respuesta) (queries : list Async.Consulta),
      run = (Async.Return r, log ++ queries)
      /\ (List.length queries <= 3)%nat
      /\ (CalificacionService.success r = true <-> CalificacionService.data r <> None)
      /\ (CalificacionService.success r = true <-> CalificacionService.error r = None)
      /\ (CalificacionService.success r = true
          <-> SpecRespuesta.parametrosValidos idEstudiante año numeroSemestre = true
              /\ exists semestre estudiante inscripciones,
                   Async.Semestre_findOne db año numeroSemestre
                   = Async.Return (Some semestre)
                   /\ Async.Estudiante_findByPk db idEstudiante
                      = Async.Return (Some estudiante)
                   /\ Async.Inscripcion_findAll db idEstudiante (Model.id semestre)
                      = Async.Return inscripciones
                   /\ r = SpecRespuesta.exito numberToString estudiante semestre
                            inscripciones
                   /\ queries = SpecRespuesta.consultas idEstudiante año
                                  numeroSemestre semestre).
Proof.
  intros JN numberToString db idEstudiante año numeroSemestre log run.
  unfold run. rewrite obtenerCalificaciones_cases.
  unfold SpecRespuesta.parametrosValidos, push.
  destruct (truthy idEstudiante && truthy año && truthy numeroSemestre) eqn:Hp;
    cbn [negb andb].
  2:{ exists (SpecEntrada.failure SpecEntrada.invalidParameters), [].
      rewrite app_nil_r. split; [reflexivity|]. split; [cbn; lia|].
      apply failure_shape. intros [H _]. discriminate H. }
  destruct (CalificacionService.includes_1_2 numeroSemestre) eqn:Ht; cbn [negb].
  2:{ exists (SpecEntrada.failure SpecEntrada.invalidTerm), [].
      rewrite app_nil_r. split; [reflexivity|]. split; [cbn; lia|].
      apply failure_shape. intros [H _]. discriminate H. }
  destruct (Async.Semestre_findOne db año numeroSemestre) as [[semestre|]|message].
  3:{ eexists. exists [Async.SemestreFindOne año numeroSemestre].
      split; [reflexivity|]. split; [cbn; lia|].
      apply failure_shape. intros (_ & s & e & i & H & _). discriminate H. }
  2:{ eexists. exists [Async.SemestreFindOne año numeroSemestre].
      split; [reflexivity|]. split; [cbn; lia|].
      apply failure_shape. intros (_ & s & e & i & H & _). discriminate H. }
  destruct (Async.Estudiante_findByPk db idEstudiante) as [[estudiante|]|message].
  3:{ eexists. exists [Async.SemestreFindOne año numeroSemestre;
                       Async.EstudianteFindByPk idEstudiante].
      split; [rewrite <- app_assoc; reflexivity|]. split; [cbn; lia|].
      apply failure_shape. intros (_ & s & e & i & _ & H & _). discriminate H. }
  2:{ eexists. exists [Async.SemestreFindOne año numeroSemestre;
                       Async.EstudianteFindByPk idEstudiante].
      split; [rewrite <- app_assoc; reflexivity|]. split; [cbn; lia|].
      apply failure_shape. intros (_ & s & e & i & _ & H & _). discriminate H. }
  destruct (Async.Inscripcion_findAll db idEstudiante (Model.id semestre))
    as [inscripciones|message] eqn:Hall.
  - eexists. eexists. split; [reflexivity|].
    split; [cbn; lia|].
    split; [cbn; split; [discriminate|reflexivity]|].
    split; [cbn; split; reflexivity|].
    split; [intros _|reflexivity].
    split; [reflexivity|].
    exists semestre, estudiante, inscripciones.
    repeat split; try reflexivity. exact Hall.
  - eexists. eexists. split; [reflexivity|]. split; [cbn; lia|].
    apply failure_shape.
    intros (_ & s & e & i & Hs & _ & H & _).
    inversion Hs; subst. rewrite Hall in H. discriminate H.
Qed.

(** X13.  [validarCalificacionesExistentes] returns on every input, having
    sent exactly the queries of the retrieval it calls, and its [catch]
    never fires: the result carries no [error].  When the retrieval fails,
    the result is not valid and repeats the message of the retrieval,
    without counts.  When the retrieval succeeds, [totalCursos] counts the
    courses retrieved, [cursosConCalificaciones] those with at least one
    evaluation, with or without a score, and the result is valid exactly
    when there is such a course. *)
Theorem validarCalificaciones_resultado :
  forall (JN : JSNumber) (numberToString : num -> string) (db : Async.DB)
         (idEstudiante año numeroSemestre : value) (log : list Async.Consulta),
    let retrieval := CalificacionService.obtenerCalificacionesPorSemestre
                       numberToString db idEstudiante año numeroSemestre log in
    let run := CalificacionService.validarCalificacionesExistentes
                 numberToString db idEstudiante año numeroSemestre log in
    exists (r : CalificacionService.Respuesta) (v : ValidacionCalificaciones.t),
      retrieval = (Async.Return r, snd retrieval)
      /\ run = (Async.Return v, snd retrieval)
      /\ ValidacionCalificaciones.error v = None
      /\ (CalificacionService.success r = false ->
          ValidacionCalificaciones.valido v = false
          /\ ValidacionCalificaciones.mensaje v = CalificacionService.mensaje r
          /\ ValidacionCalificaciones.totalCursos v = None
          /\ ValidacionCalificaciones.cursosConCalificaciones v = None)
      /\ (forall d, CalificacionService.success r = true ->
            CalificacionService.data r = Some d ->
            ValidacionCalificaciones.totalCursos v
            = Some (List.length (CalificacionService.cursos d))
            /\ ValidacionCalificaciones.cursosConCalificaciones v
               = Some (List.length (filter CalificacionService.conCalificaciones
                                           (CalificacionService.cursos d)))
            /\ (ValidacionCalificaciones.valido v = true
                <-> existsb CalificacionService.conCalificaciones
                            (CalificacionService.cursos d) = true))
      /\ (ValidacionCalificaciones.valido v = true ->
          CalificacionService.success r = true).
Proof.
  intros JN numberToString db idEstudiante año numeroSemestre log.
  apply validarExistentes_result.
Qed.

(** X14.  [obtenerValidacionCompleta] returns a result on every input,
    for every data-access layer and in every arithmetic.  Without a student
    id it sends no query and fails with the message that the id is
    required; it reads the enrollments only of a student that it has found;
    a student that is not found gives the not-found message.  In its
    result [success] is true exactly when [data] is present, exactly when
    [error] is absent, and exactly when the id is given, the student is
    found and the enrollments are read; the result is then the success
    result of these enrollments, after the two queries in order. *)
Theorem obtenerValidacion_resultado :
  forall (JN : JSNumber) (JS : JSSubtraction JN)
         (numberToString : num -> string) (toFixed : num -> nat -> string)
         (stringToNumber : string -> num)
         (db : ValidacionService.DB) (idEstudiante : value)
         (log : list ValidacionService.Consulta),
    let run := ValidacionService.obtenerValidacionCompleta
                 numberToString toFixed stringToNumber db idEstudiante log in
    exists (r : ValidacionService.Respuesta)
           (queries : list ValidacionService.Consulta),
      run = (Async.Return r, log ++ queries)
      /\ (truthy idEstudiante = false ->
          queries = []
          /\ r = SpecRespuesta.falloValidacion "ID de estudiante requerido")
      /\ (In (ValidacionService.InscripcionFindAll idEstudiante) queries ->
          exists estudiante,
            ValidacionService.Estudiante_findByPk db idEstudiante
            = Async.Return (Some estudiante))
      /\ (truthy idEstudiante = true ->
          ValidacionService.Estudiante_findByPk db idEstudiante = Async.Return None ->
          r = SpecRespuesta.falloValidacion "Estudiante no encontrado")
      /\ (ValidacionService.success r = true <-> ValidacionService.data r <> None)
      /\ (ValidacionService.success r = true <-> ValidacionService.error r = None)
      /\ (ValidacionService.success r = true
          <-> truthy idEstudiante = true
              /\ exists estudiante inscripciones,
                   ValidacionService.Estudiante_findByPk db idEstudiante
                   = Async.Return (Some estudiante)
                   /\ ValidacionService.Inscripcion_findAll db idEstudiante
                      = Async.Return inscripciones
                   /\ r = SpecRespuesta.exitoValidacion numberToString toFixed
                            stringToNumber estudiante inscripciones
                   /\ queries
                      = [ValidacionService.EstudianteFindByPk idEstudiante;
                         ValidacionService.InscripcionFindAll idEstudiante]).
Proof.
  intros JN JS numberToString toFixed stringToNumber db idEstudiante log run.
  unfold run. rewrite obtenerValidacion_cases.
  destruct (truthy idEstudiante) eqn:Hid; cbn [negb].
  2:{ eexists. exists []. rewrite app_nil_r. split; [reflexivity|].
      split; [intros _; split; reflexivity|].
      split; [intros []|]. split; [intros H; discriminate H|].
      apply falloValidacion_shape. intros [H _]. discriminate H. }
  destruct (ValidacionService.Estudiante_findByPk db idEstudiante)
    as [[estudiante|]|message] eqn:Hest.
  3:{ eexists. eexists. split; [reflexivity|].
      split; [intros H; discriminate H|].
      split; [intros [H | []]; discriminate H|].
      split; [intros _ H; discriminate H|].
      apply falloValidacion_shape. intros (_ & e & i & H & _). discriminate H. }
  2:{ eexists. eexists. split; [reflexivity|].
      split; [intros H; discriminate H|].
      split; [intros [H | []]; discriminate H|].
      split; [intros _ _; reflexivity|].
      apply falloValidacion_shape. intros (_ & e & i & H & _). discriminate H. }
  destruct (ValidacionService.Inscripcion_findAll db idEstudiante)
    as [inscripciones|message] eqn:Hall.
  - eexists. eexists. split; [reflexivity|].
    split; [intros H; discriminate H|].
    split; [intros _; exists estudiante; reflexivity|].
    split; [intros _ H; discriminate H|].
    split; [cbn; split; [discriminate|reflexivity]|].
    split; [cbn; split; reflexivity|].
    split; [intros _|reflexivity].
    split; [reflexivity|].
    exists estudiante, inscripciones. repeat split; reflexivity.
  - eexists. eexists. split; [reflexivity|].
    split; [intros H; discriminate H|].
    split; [intros _; exists estudiante; reflexivity|].
    split; [intros _ H; discriminate H|].
    apply falloValidacion_shape.
    intros (_ & e & i & _ & H & _). discriminate H.
Qed.

(** X15.  The chart data of [_generarDatosGraficos] agree with the
    statistics of the service, in every arithmetic: on the courses that
    [obtenerCalificacionesPorSemestre] builds from the enrollments, the
    series of approval states is [cursosAprobados], [cursosReprobados] and
    the courses that are not graded, three numbers that add up to
    [totalCursos]; the series of grades has one label and one grade for
    each of the [cursosCalificados] graded courses, and none of these grades
    is [null]. *)
Theorem graficos_estadisticas :
  forall (JN : JSNumber) (inscripciones : list Model.Inscripcion),
    let cursos := map CalificacionService.procesarInscripcion inscripciones in
    let st := CalificacionService._calcularEstadisticasGenerales cursos in
    let graficos := CalificacionesTemplate._generarDatosGraficos cursos in
    CalificacionesTemplate.datos (CalificacionesTemplate.estadosAprobacion graficos)
    = [CalificacionService.cursosAprobados st;
       CalificacionService.cursosReprobados st;
       (CalificacionService.totalCursos st
        - CalificacionService.cursosCalificados st)%nat]
    /\ list_sum (CalificacionesTemplate.datos
                   (CalificacionesTemplate.estadosAprobacion graficos))
       = CalificacionService.totalCursos st
    /\ List.length (CalificacionesTemplate.labels
                      (CalificacionesTemplate.distribucionNotas graficos))
       = CalificacionService.cursosCalificados st
    /\ List.length (CalificacionesTemplate.datos
                      (CalificacionesTemplate.distribucionNotas graficos))
       = CalificacionService.cursosCalificados st
    /\ Forall (fun notaFinal => notaFinal <> None)
              (CalificacionesTemplate.datos
                 (CalificacionesTemplate.distribucionNotas graficos)).
Proof.
  intros JN inscripciones cursos st graficos.
  assert (Hst : st = CalificacionService.estadisticasDeInscripciones inscripciones)
    by reflexivity.
  rewrite estadisticas_unfold in Hst.
  destruct (graficos_counts inscripciones) as (Ha & Hr & Hp & Hc).
  fold cursos in Ha, Hr, Hp, Hc.
  assert (Hdatos :
            CalificacionesTemplate.datos
              (CalificacionesTemplate.estadosAprobacion graficos)
            = [CalificacionService.cursosAprobados st;
               CalificacionService.cursosReprobados st;
               (CalificacionService.totalCursos st
                - CalificacionService.cursosCalificados st)%nat]).
  { unfold graficos, CalificacionesTemplate._generarDatosGraficos.
    cbn [CalificacionesTemplate.datos CalificacionesTemplate.estadosAprobacion].
    rewrite Ha, Hr, Hp, Hst. reflexivity. }
  split; [exact Hdatos|]. split.
  { rewrite Hdatos, Hst.
    cbn [CalificacionService.cursosAprobados CalificacionService.cursosReprobados
         CalificacionService.totalCursos CalificacionService.cursosCalificados
         list_sum].
    rewrite graded_passed_failed.
    pose proof (filter_length_le Spec.graded inscripciones) as Hle.
    rewrite graded_passed_failed in Hle.
    unfold list_sum. cbn [fold_right]. lia. }
  unfold graficos, CalificacionesTemplate._generarDatosGraficos.
  cbn [CalificacionesTemplate.datos CalificacionesTemplate.labels
       CalificacionesTemplate.distribucionNotas].
  rewrite !length_map, Hc, Hst.
  split; [reflexivity|]. split; [reflexivity|].
  apply Forall_forall. intros n Hn.
  apply in_map_iff in Hn. destruct Hn as (c & <- & Hin).
  apply filter_In in Hin. destruct Hin as [_ Hcon].
  unfold CalificacionService.conNota in Hcon.
  destruct (CalificacionService.notaFinal c); [discriminate|discriminate Hcon].
Qed.

(** X16.  The performance level of the report and the approval status
    agree, on binary64 and in exact arithmetic: for every Number,
    [_determinarNivelRendimiento] says "Insatisfactorio" exactly when
    [_determinarEstadoAprobacion] does not approve that grade; NaN, which
    reaches no threshold, is "Insatisfactorio". *)
Theorem nivelRendimiento_aprobacion :
  (forall x : @num Float64,
      CalificacionesTemplate._determinarNivelRendimiento x
      = "Insatisfactorio"%string
      <-> Model.aprobado (CalificacionService._determinarEstadoAprobacion (Some x))
          = false)
  /\ (forall x : @num Exact,
        CalificacionesTemplate._determinarNivelRendimiento x
        = "Insatisfactorio"%string
        <-> Model.aprobado (CalificacionService._determinarEstadoAprobacion (Some x))
            = false)
  /\ CalificacionesTemplate._determinarNivelRendimiento (@nan Float64)
     = "Insatisfactorio"%string.
Proof.
  split; [|split].
  - intros x. apply nivel_aprobado. intros k Hk. apply Float64_geb_61. exact Hk.
  - intros x. apply nivel_aprobado. intros k Hk. apply Exact_geb_le.
    destruct Hk as [-> | [-> | ->]]; lia.
  - vm_compute. reflexivity.
Qed.

(** X17.  [obtenerResumenValidacion] takes an id followed by other
    characters for the id, and turns away a parameter that starts with no
    number, for every data-access layer and in every arithmetic where NaN
    absorbs the operations.  A route parameter that starts with decimal
    digits, the first of them from 1 to 9, followed by characters of which
    the first is no digit, is answered exactly as the digits alone are, with
    the same queries: [parseInt] reads both as the integer that the digits
    write, which for up to 20 digits is the Number nearest to it.  A
    parameter that is empty or starts with an ASCII character that is
    neither white space, nor a sign, nor a digit is answered with status
    400 and the invalid-id message before any query.  White space in front
    of the digits is skipped, the no-break space included: on binary64 the
    parameter U+00A0 12 is read as 12. *)
Theorem obtenerResumenValidacion_id_con_resto :
  forall (JN : JSNumber) (L : NaNLaws JN) (JS : JSSubtraction JN)
         (numberToString : num -> string) (toFixed : num -> nat -> string)
         (stringToNumber : string -> num)
         (db : ValidacionService.DB) (log : list ValidacionService.Consulta)
         (digitos resto : string),
    let run := ValidacionController.obtenerResumenValidacion
                 numberToString toFixed stringToNumber db in
    (SpecDigitos.empiezaSinCero digitos = true ->
     SpecDigitos.soloDigitos digitos = true ->
     SpecDigitos.sinDigito resto = true ->
     run (digitos ++ resto)%string log = run digitos log
     /\ parseInt (digitos ++ resto) = parseInt digitos
     /\ ((String.length digitos <=? 20)%nat = true ->
         parseInt (digitos ++ resto)
         = of_decimal false (SpecDigitos.valor digitos 0) 0))
    /\ (SpecDigitos.sinEntero resto = true ->
        run resto log
        = (Async.Return
             {| ValidacionController.status := 400;
                ValidacionController.json :=
                  {| ValidacionController.success := false;
                     ValidacionController.data := None;
                     ValidacionController.mensaje := "ID de estudiante inválido"%string;
                     ValidacionController.error := None |} |},
           log))
    /\ @parseInt Float64 (EjemplosValidacion.espacioDuro ++ "12")%string = of_Z 12.
Proof.
  intros JN L JS numberToString toFixed stringToNumber db log digitos resto run.
  split; [|split].
  - intros Hcero Hd Hresto.
    assert (Hgen : forall r, SpecDigitos.sinDigito r = true ->
                     parseInt (digitos ++ r)
                     = of_decimal false (SpecDigitos.valor digitos 0) 0).
    { intros r Hr. unfold parseInt.
      rewrite parse_sin_cero.
      - rewrite (digits_run digitos r 0%N 0%nat Hd Hr).
        destruct digitos as [|c d]; [discriminate Hcero|]. reflexivity.
      - destruct digitos as [|c d]; [discriminate Hcero|]. exact Hcero. }
    assert (Higual : parseInt (digitos ++ resto) = parseInt digitos).
    { rewrite (Hgen resto Hresto).
      rewrite <- (Hgen EmptyString eq_refl).
      f_equal. clear. induction digitos as [|c d IH]; [reflexivity|].
      cbn [append]. rewrite IH. reflexivity. }
    split; [|split; [exact Higual|intros _; apply Hgen; exact Hresto]].
    unfold run, ValidacionController.obtenerResumenValidacion.
    rewrite Higual. reflexivity.
  - intros H.
    unfold run, ValidacionController.obtenerResumenValidacion, parseInt.
    rewrite (parse_sin_entero resto H).
    unfold isNaN. rewrite compare_nan_l. reflexivity.
  - vm_compute. reflexivity.
Qed.

(** X17 (witness): on binary64, with a data-access layer that knows no
    student: the parameter ["12abc"] is read as 12 and answered as ["12"]
    is; the parameter ["abc"] is answered with status 400. *)
Lemma obtenerResumenValidacion_id_con_resto_witness :
  let db := {| ValidacionService.Estudiante_findByPk :=
                 fun _ => Async.Return None;
               ValidacionService.Inscripcion_findAll :=
                 fun _ => Async.Return (@nil (@Model.Inscripcion Float64)) |} in
  let run := ValidacionController.obtenerResumenValidacion
               EjemplosValidacion.texto64 Ejemplos.sinDecimales
               EjemplosValidacion.numero db in
  SpecDigitos.empiezaSinCero "12"%string = true
  /\ SpecDigitos.soloDigitos "12"%string = true
  /\ SpecDigitos.sinDigito "abc"%string = true
  /\ SpecDigitos.sinEntero "abc"%string = true
  /\ (String.length "12"%string <=? 20)%nat = true
  /\ @parseInt Float64 "12abc"%string = of_Z 12
  /\ run "12abc"%string [] = run "12"%string []
  /\ fst (run "abc"%string [])
     = Async.Return
         {| ValidacionController.status := 400;
            ValidacionController.json :=
              {| ValidacionController.success := false;
                 ValidacionController.data := None;
                 ValidacionController.mensaje := "ID de estudiante inválido"%string;
                 ValidacionController.error := None |} |}.
Proof.
  intros db run.
  do 5 (split; [reflexivity|]).
  destruct (obtenerResumenValidacion_id_con_resto Float64_NaNLaws Float64_sub
              EjemplosValidacion.texto64 Ejemplos.sinDecimales
              EjemplosValidacion.numero db [] "12"%string "abc"%string)
    as (H12 & Habc & _).
  destruct (H12 eq_refl eq_refl eq_refl) as (Hresp & _ & Hval).
  split; [exact (Hval eq_refl)|].
  split; [exact Hresp|].
  unfold run. rewrite (Habc eq_refl). reflexivity.
Defined.

(** X18.  The endpoint [validarCalificaciones] answers every request, for
    every data-access layer and in every arithmetic, and the status is 200
    exactly when the request has a body.  A request whose [req.body] is
    [undefined] is answered with status 500 and [success] false, without a
    query: destructuring it throws inside the [try].  A request with a
    body, whatever its properties, is answered with status 200 and
    [success] true: the data are the result of
    [validarCalificacionesExistentes] and the message is the message of
    that result.  In particular a body that lacks a parameter is answered
    with status 200, [success] true, data that are not valid and the
    required-parameters message, and no query is sent. *)
Theorem validarCalificaciones_respuesta :
  forall (JN : JSNumber) (numberToString : num -> string) (db : Async.DB)
         (body : option CalificacionController.Body) (log : list Async.Consulta),
    let run := CalificacionController.validarCalificaciones numberToString db body
                 log in
    (exists response : CalificacionController.Response,
        fst run = Async.Return response
        /\ (CalificacionController.status response = 200 <-> body <> None)
        /\ (CalificacionController.status response = 500 <-> body = None))
    /\ match body with
       | None =>
           exists message : string,
             run = (Async.Return
                      {| CalificacionController.status := 500;
                         CalificacionController.json :=
                           {| CalificacionController.success := false;
                              CalificacionController.data := None;
                              CalificacionController.mensaje :=
                                "Error al validar calificaciones";
                              CalificacionController.error := Some message |} |},
                    log)
       | Some body =>
           let validacion :=
             CalificacionService.validarCalificacionesExistentes numberToString db
               (CalificacionController.idEstudiante body)
               (CalificacionController.año body)
               (CalificacionController.numeroSemestre body) log in
           exists v : ValidacionCalificaciones.t,
             validacion = (Async.Return v, snd validacion)
             /\ run = (Async.Return
                         {| CalificacionController.status := 200;
                            CalificacionController.json :=
                              {| CalificacionController.success := true;
                                 CalificacionController.data := Some v;
                                 CalificacionController.mensaje :=
                                   ValidacionCalificaciones.mensaje v;
                                 CalificacionController.error := None |} |},
                       snd validacion)
             /\ (truthy (CalificacionController.idEstudiante body)
                 && truthy (CalificacionController.año body)
                 && truthy (CalificacionController.numeroSemestre body) = false ->
                 snd validacion = log
                 /\ ValidacionCalificaciones.valido v = false
                 /\ ValidacionCalificaciones.mensaje v = SpecEntrada.invalidParameters)
       end.
Proof.
  intros JN numberToString db body log run.
  assert (Hcases :
    match body with
    | None =>
        exists message : string,
          run = (Async.Return
                   {| CalificacionController.status := 500;
                      CalificacionController.json :=
                        {| CalificacionController.success := false;
                           CalificacionController.data := None;
                           CalificacionController.mensaje :=
                             "Error al validar calificaciones";
                           CalificacionController.error := Some message |} |},
                 log)
    | Some body =>
        let validacion :=
          CalificacionService.validarCalificacionesExistentes numberToString db
            (CalificacionController.idEstudiante body)
            (CalificacionController.año body)
            (CalificacionController.numeroSemestre body) log in
        exists v : ValidacionCalificaciones.t,
          validacion = (Async.Return v, snd validacion)
          /\ run = (Async.Return
                      {| CalificacionController.status := 200;
                         CalificacionController.json :=
                           {| CalificacionController.success := true;
                              CalificacionController.data := Some v;
                              CalificacionController.mensaje :=
                                ValidacionCalificaciones.mensaje v;
                              CalificacionController.error := None |} |},
                    snd validacion)
          /\ (truthy (CalificacionController.idEstudiante body)
              && truthy (CalificacionController.año body)
              && truthy (CalificacionController.numeroSemestre body) = false ->
              snd validacion = log
              /\ ValidacionCalificaciones.valido v = false
              /\ ValidacionCalificaciones.mensaje v = SpecEntrada.invalidParameters)
    end).
  { destruct body as [body|].
    - intros validacion.
      destruct (validarExistentes_result numberToString db
                  (CalificacionController.idEstudiante body)
                  (CalificacionController.año body)
                  (CalificacionController.numeroSemestre body) log)
        as (r & v & Hr & Hv & _ & Hfail & _).
      fold validacion in Hv.
      assert (Hlog : snd validacion
                     = snd (CalificacionService.obtenerCalificacionesPorSemestre
                              numberToString db
                              (CalificacionController.idEstudiante body)
                              (CalificacionController.año body)
                              (CalificacionController.numeroSemestre body) log)).
      { rewrite Hv. reflexivity. }
      exists v. split; [rewrite Hlog; exact Hv|]. split.
      + unfold run, CalificacionController.validarCalificaciones,
          Async.try_catch, Async.bind, Async.ret.
        fold validacion. rewrite Hlog, Hv. reflexivity.
      + intros Hfalsy.
        rewrite (falsy_parameter numberToString db _ _ _ log Hfalsy) in Hr, Hlog.
        cbn [snd] in Hr, Hlog. inversion Hr; subst r.
        split; [exact Hlog|].
        destruct (Hfail eq_refl) as (Hvalido & Hmensaje & _).
        split; [exact Hvalido|exact Hmensaje].
    - eexists. reflexivity. }
  split; [|exact Hcases].
  destruct body as [body|].
  - destruct Hcases as (v & _ & Hrun & _). rewrite Hrun.
    eexists. split; [reflexivity|].
    cbn [CalificacionController.status]. split.
    + split; [intros _ H; discriminate H|intros _; reflexivity].
    + split; intros H; discriminate H.
  - destruct Hcases as (message & Hrun). rewrite Hrun.
    eexists. split; [reflexivity|].
    cbn [CalificacionController.status]. split.
    + split; [intros H; discriminate H|intros H; contradiction H; reflexivity].
    + split; intros _; reflexivity.
Qed.

(** X18 (witness): on binary64, with a data-access layer that knows no
    semester: a request without a body gets status 500, and an empty body
    status 200 with data that are not valid. *)
Lemma validarCalificaciones_respuesta_witness :
  let body := {| CalificacionController.idEstudiante := @JUndefined Float64;
                 CalificacionController.año := JUndefined;
                 CalificacionController.numeroSemestre := JUndefined |} in
  let estado := fun body =>
    match fst (CalificacionController.validarCalificaciones Ejemplos.sinDigitos
                 Ejemplos.sinDatos body [])
    with
    | Async.Return response => CalificacionController.status response
    | Async.Throw _ => 0
    end in
  truthy (CalificacionController.idEstudiante body)
  && truthy (CalificacionController.año body)
  && truthy (CalificacionController.numeroSemestre body) = false
  /\ estado None = 500
  /\ estado (Some body) = 200
  /\ exists v : ValidacionCalificaciones.t,
       ValidacionCalificaciones.valido v = false
       /\ ValidacionCalificaciones.mensaje v = SpecEntrada.invalidParameters.
Proof.
  intros body estado.
  assert (H : truthy (CalificacionController.idEstudiante body)
              && truthy (CalificacionController.año body)
              && truthy (CalificacionController.numeroSemestre body) = false)
    by reflexivity.
  split; [exact H|]. split; [reflexivity|]. split; [reflexivity|].
  destruct (proj2 (validarCalificaciones_respuesta Ejemplos.sinDigitos
                     Ejemplos.sinDatos (Some body) []))
    as (v & _ & _ & Hv).
  exists v. apply (Hv H).
Defined.

(** X19.  The endpoint [obtenerResumenValidacion] answers every route
    parameter with status 200 or 400, never 500, for every data-access
    layer and in every arithmetic.  A parameter that [parseInt] reads as
    NaN is answered with status 400 and the invalid-id message before any
    query; one read as 0 is answered with status 400 and the message that
    the id is required, before any query as well.  Status 200 goes with
    [success] true and with data, and is sent exactly when the id is read
    as a Number that is neither NaN nor falsy, the student is found and the
    enrollments are read; the summary then counts the alerts of the
    progression of these enrollments and names the last of their semester
    groups. *)
Theorem obtenerResumenValidacion_respuesta :
  forall (JN : JSNumber) (JS : JSSubtraction JN)
         (numberToString : num -> string) (toFixed : num -> nat -> string)
         (stringToNumber : string -> num)
         (db : ValidacionService.DB) (idEstudiante : string)
         (log : list ValidacionService.Consulta),
    let run := ValidacionController.obtenerResumenValidacion
                 numberToString toFixed stringToNumber db idEstudiante log in
    let idEst := JNum (parseInt idEstudiante) in
    exists (response : ValidacionController.Response)
           (queries : list ValidacionService.Consulta),
      run = (Async.Return response, log ++ queries)
      /\ (ValidacionController.status response = 200
          \/ ValidacionController.status response = 400)
      /\ (isNaN (parseInt idEstudiante) = true ->
          queries = []
          /\ ValidacionController.status response = 400
          /\ ValidacionController.mensaje (ValidacionController.json response)
             = "ID de estudiante inválido"%string)
      /\ (isNaN (parseInt idEstudiante) = false -> truthy idEst = false ->
          queries = []
          /\ ValidacionController.status response = 400
          /\ ValidacionController.mensaje (ValidacionController.json response)
             = "ID de estudiante requerido"%string)
      /\ (ValidacionController.status response = 200
          <-> ValidacionController.success (ValidacionController.json response)
              = true)
      /\ (ValidacionController.status response = 200
          <-> isNaN (parseInt idEstudiante) = false
              /\ truthy idEst = true
              /\ exists estudiante inscripciones,
                   ValidacionService.Estudiante_findByPk db idEst
                   = Async.Return (Some estudiante)
                   /\ ValidacionService.Inscripcion_findAll db idEst
                      = Async.Return inscripciones
                   /\ exists resumen,
                        ValidacionController.data
                          (ValidacionController.json response) = Some resumen
                        /\ ValidacionController.estadisticasGenerales resumen
                           = ValidacionService._calcularEstadisticasGenerales
                               numberToString inscripciones
                        /\ ValidacionController.totalAlertas
                             (ValidacionController.progresion resumen)
                           = List.length
                               (ValidacionService.alertas
                                  (ValidacionService._validarProgresionAcademica
                                     numberToString toFixed
                                     (ValidacionService._agruparCursosPorSemestre
                                        numberToString stringToNumber
                                        inscripciones)))
                        /\ ValidacionController.ultimoSemestre resumen
                           = ValidacionController.ultimo
                               (ValidacionService._agruparCursosPorSemestre
                                  numberToString stringToNumber inscripciones)).
Proof.
  intros JN JS numberToString toFixed stringToNumber db idEstudiante log run idEst.
  unfold run, ValidacionController.obtenerResumenValidacion,
    Efecto.try_catch, Efecto.bind, Efecto.ret.
  destruct (isNaN (parseInt idEstudiante)) eqn:Hnan.
  { eexists. exists []. rewrite app_nil_r. split; [reflexivity|].
    cbn [ValidacionController.status ValidacionController.json
         ValidacionController.mensaje ValidacionController.success].
    split; [right; reflexivity|].
    split; [intros _; repeat split|].
    split; [intros H; discriminate H|].
    split; [split; intros H; discriminate H|].
    split; [intros H; discriminate H|intros (H & _); discriminate H]. }
  rewrite obtenerValidacion_cases. fold idEst.
  destruct (truthy idEst) eqn:Hid; cbn [negb].
  2:{ eexists. exists []. rewrite app_nil_r. split; [reflexivity|].
      cbn [ValidacionController.status ValidacionController.json
           ValidacionController.mensaje ValidacionController.success
           ValidacionService.success ValidacionService.mensaje
           SpecRespuesta.falloValidacion].
      split; [right; reflexivity|].
      split; [intros H; discriminate H|].
      split; [intros _ _; repeat split|].
      split; [split; intros H; discriminate H|].
      split; [intros H; discriminate H|intros (_ & H & _); discriminate H]. }
  destruct (ValidacionService.Estudiante_findByPk db idEst)
    as [[estudiante|]|message] eqn:Hest.
  3:{ eexists. eexists. split; [reflexivity|].
      cbn [ValidacionController.status ValidacionController.json
           ValidacionController.mensaje ValidacionController.success
           ValidacionService.success ValidacionService.mensaje
           SpecRespuesta.falloValidacion].
      split; [right; reflexivity|].
      split; [intros H; discriminate H|].
      split; [intros _ H; discriminate H|].
      split; [split; intros H; discriminate H|].
      split; [intros H; discriminate H|].
      intros (_ & _ & e & i & H & _). discriminate H. }
  2:{ eexists. eexists. split; [reflexivity|].
      cbn [ValidacionController.status ValidacionController.json
           ValidacionController.mensaje ValidacionController.success
           ValidacionService.success ValidacionService.mensaje
           SpecRespuesta.falloValidacion].
      split; [right; reflexivity|].
      split; [intros H; discriminate H|].
      split; [intros _ H; discriminate H|].
      split; [split; intros H; discriminate H|].
      split; [intros H; discriminate H|].
      intros (_ & _ & e & i & H & _). discriminate H. }
  destruct (ValidacionService.Inscripcion_findAll db idEst)
    as [inscripciones|message] eqn:Hall.
  - eexists. eexists. split; [reflexivity|].
    cbn [ValidacionController.status ValidacionController.json
         ValidacionController.mensaje ValidacionController.success
         ValidacionController.data
         ValidacionService.success ValidacionService.data
         SpecRespuesta.exitoValidacion].
    split; [left; reflexivity|].
    split; [intros H; discriminate H|].
    split; [intros _ H; discriminate H|].
    split; [split; reflexivity|].
    split; [intros _|reflexivity].
    split; [reflexivity|]. split; [reflexivity|].
    exists estudiante, inscripciones.
    split; [reflexivity|]. split; [reflexivity|].
    eexists. split; [reflexivity|]. repeat split.
  - eexists. eexists. split; [reflexivity|].
    cbn [ValidacionController.status ValidacionController.json
         ValidacionController.mensaje ValidacionController.success
         ValidacionService.success ValidacionService.mensaje
         SpecRespuesta.falloValidacion].
    split; [right; reflexivity|].
    split; [intros H; discriminate H|].
    split; [intros _ H; discriminate H|].
    split; [split; intros H; discriminate H|].
    split; [intros H; discriminate H|].
    intros (_ & _ & e & i & _ & H & _). discriminate H.
Qed.
